(** * The user store of the chat backend ([backend/user_database.py])

    A shallow embedding of the [UserDatabase] class: the credential
    store ([_hash_password], [_verify_password]), the session manager
    ([create_user_session], [validate_session]), the chat registry and
    the load/save of the JSON file behind them.

    Conventions of the embedding.
    - A Python [str] is modelled by its UTF-8 encoding, a Rocq [string];
      [str.encode()] is then the identity on bytes.
    - [self.users] is a JSON object whose members are JSON objects (the
      shape [_save_users] writes).  The fields of a user record are
      dynamically typed JSON values, as [json.load] returns them.
    - A Python [dict] is an association list in insertion order.
    - The operating system's random bytes and the wall clock are explicit
      arguments of the operation that reads them.
    - Exceptions are values: a computation returns [Ok a] or [Raise e],
      together with the world it leaves behind. *)

From Stdlib.Strings Require Import String Ascii Byte.
From Stdlib Require Import List ZArith NArith Lia Bool.
From Stdlib Require Import Sorting.Sorted Sorting.Permutation.
Import ListNotations.
Local Open Scope string_scope.
Local Open Scope list_scope.

(* ===================================================================== *)
(** ** Bytes, hexadecimal and URL-safe base 64 *)
(* ===================================================================== *)

Module Encoding.

(** One lowercase hexadecimal digit, as [bytes.hex()] prints it. *)
Definition hex_digit (n : N) : ascii :=
  match n with
  | 0%N => "0" | 1%N => "1" | 2%N => "2" | 3%N => "3"
  | 4%N => "4" | 5%N => "5" | 6%N => "6" | 7%N => "7"
  | 8%N => "8" | 9%N => "9" | 10%N => "a" | 11%N => "b"
  | 12%N => "c" | 13%N => "d" | 14%N => "e" | _ => "f"
  end%char.

Definition hex_of_byte (b : byte) : string :=
  let n := Byte.to_N b in
  String (hex_digit (N.shiftr n 4)) (String (hex_digit (N.land n 15)) EmptyString).

(** [bytes.hex()] *)
Fixpoint hex_of_bytes (bs : list byte) : string :=
  match bs with
  | [] => EmptyString
  | b :: bs' => hex_of_byte b ++ hex_of_bytes bs'
  end.

(** The alphabet of [base64.urlsafe_b64encode]. *)
Definition b64url_alphabet : string :=
  "ABCDEFGHIJKLMNOPQRSTUVWXYZabcdefghijklmnopqrstuvwxyz0123456789-_".

Definition b64url_digit (n : N) : ascii :=
  match String.get (N.to_nat n) b64url_alphabet with
  | Some c => c
  | None => "_"%char
  end.

(** [base64.urlsafe_b64encode(bs).rstrip(b'=')]: three bytes give four
    digits, a last group of one or two bytes gives two or three. *)
Fixpoint b64url_nopad (bs : list byte) : string :=
  match bs with
  | [] => EmptyString
  | [a] =>
      let x := Byte.to_N a in
      String (b64url_digit (N.shiftr x 2))
        (String (b64url_digit (N.shiftl (N.land x 3) 4)) EmptyString)
  | [a; b] =>
      let x := Byte.to_N a in
      let y := Byte.to_N b in
      String (b64url_digit (N.shiftr x 2))
        (String (b64url_digit (N.lor (N.shiftl (N.land x 3) 4) (N.shiftr y 4)))
           (String (b64url_digit (N.shiftl (N.land y 15) 2)) EmptyString))
  | a :: b :: c :: rest =>
      let x := Byte.to_N a in
      let y := Byte.to_N b in
      let z := Byte.to_N c in
      String (b64url_digit (N.shiftr x 2))
        (String (b64url_digit (N.lor (N.shiftl (N.land x 3) 4) (N.shiftr y 4)))
           (String (b64url_digit (N.lor (N.shiftl (N.land y 15) 2) (N.shiftr z 6)))
              (String (b64url_digit (N.land z 63)) (b64url_nopad rest))))
  end.

(** [secrets.token_hex(n)] and [secrets.token_urlsafe(n)], applied to the
    [n] bytes the operating system returned. *)
Definition token_hex (rnd : list byte) : string := hex_of_bytes rnd.
Definition token_urlsafe (rnd : list byte) : string := b64url_nopad rnd.

End Encoding.

(* ===================================================================== *)
(** ** SHA-256 (FIPS 180-4), behind [hashlib.sha256(...).hexdigest()] *)
(* ===================================================================== *)

Module SHA256.

Local Open Scope N_scope.

Definition word_max : N := 0xFFFFFFFF.
Definition trunc32 (x : N) : N := N.land x word_max.
Definition add32 (x y : N) : N := trunc32 (x + y).
Definition rotr (n x : N) : N :=
  N.lor (N.shiftr x n) (trunc32 (N.shiftl x (32 - n))).
Definition not32 (x : N) : N := N.lxor x word_max.

Definition ch (x y z : N) : N := N.lxor (N.land x y) (N.land (not32 x) z).
Definition maj (x y z : N) : N :=
  N.lxor (N.lxor (N.land x y) (N.land x z)) (N.land y z).
Definition big_sigma0 (x : N) : N :=
  N.lxor (N.lxor (rotr 2 x) (rotr 13 x)) (rotr 22 x).
Definition big_sigma1 (x : N) : N :=
  N.lxor (N.lxor (rotr 6 x) (rotr 11 x)) (rotr 25 x).
Definition small_sigma0 (x : N) : N :=
  N.lxor (N.lxor (rotr 7 x) (rotr 18 x)) (N.shiftr x 3).
Definition small_sigma1 (x : N) : N :=
  N.lxor (N.lxor (rotr 17 x) (rotr 19 x)) (N.shiftr x 10).

(** The first sixty-four primes. *)
Definition primes : list N :=
  [ 2; 3; 5; 7; 11; 13; 17; 19; 23; 29; 31; 37; 41; 43; 47; 53;
    59; 61; 67; 71; 73; 79; 83; 89; 97; 101; 103; 107; 109; 113; 127; 131;
    137; 139; 149; 151; 157; 163; 167; 173; 179; 181; 191; 193; 197; 199;
    211; 223; 227; 229; 233; 239; 241; 251; 257; 263; 269; 271; 277; 281;
    283; 293; 307; 311 ].

(** The integer cube root of [n], found bit by bit from bit [k] down. *)
Fixpoint cube_root_from (k : nat) (n r : N) : N :=
  match k with
  | O => r
  | S k' =>
      let c := r + 2 ^ N.of_nat k' in
      cube_root_from k' n (if c * c * c <=? n then c else r)
  end.

(** The first 32 bits of the fractional part of the cube root of a prime
    [p] (section 4.2.2), and of its square root (section 5.3.3). *)
Definition cube_root_fraction (p : N) : N :=
  trunc32 (cube_root_from 36 (N.shiftl p 96) 0).
Definition square_root_fraction (p : N) : N :=
  trunc32 (N.sqrt (N.shiftl p 64)).

Definition round_constants : list N :=
  Eval vm_compute in map cube_root_fraction primes.

Definition initial_hash : list N :=
  Eval vm_compute in map square_root_fraction (firstn 8 primes).

(** The [k] low bytes of [x], most significant first. *)
Fixpoint be_bytes (k : nat) (x : N) : list N :=
  match k with
  | O => []
  | S k' => N.land (N.shiftr x (8 * N.of_nat k')) 0xFF :: be_bytes k' x
  end.

(** Padding: a one bit, zeros up to 56 modulo 64, then the bit length on
    eight bytes. *)
Definition pad (msg : list N) : list N :=
  let len := N.of_nat (length msg) in
  let zeros := N.to_nat ((119 - len mod 64) mod 64) in
  msg ++ 0x80 :: repeat 0 zeros ++ be_bytes 8 (8 * len).

Fixpoint words_of_bytes (fuel : nat) (bs : list N) : list N :=
  match fuel, bs with
  | S fuel', a :: b :: c :: d :: rest =>
      (N.shiftl a 24 + N.shiftl b 16 + N.shiftl c 8 + d)
        :: words_of_bytes fuel' rest
  | _, _ => []
  end.

(** The message schedule, extended one word at a time; [ws] holds the
    words computed so far, the latest first. *)
Fixpoint schedule (n : nat) (ws : list N) : list N :=
  match n with
  | O => ws
  | S n' =>
      let w := add32 (add32 (small_sigma1 (nth 1 ws 0)) (nth 6 ws 0))
                     (add32 (small_sigma0 (nth 14 ws 0)) (nth 15 ws 0)) in
      schedule n' (w :: ws)
  end.

Record registers := mk_registers {
  ra : N; rb : N; rc : N; rd : N; re : N; rf : N; rg : N; rh : N
}.

Definition round (r : registers) (kw : N * N) : registers :=
  let '(k, w) := kw in
  let t1 := add32 (add32 (add32 (add32 (rh r) (big_sigma1 (re r)))
                                (ch (re r) (rf r) (rg r))) k) w in
  let t2 := add32 (big_sigma0 (ra r)) (maj (ra r) (rb r) (rc r)) in
  mk_registers (add32 t1 t2) (ra r) (rb r) (rc r)
               (add32 (rd r) t1) (re r) (rf r) (rg r).

Definition registers_of (h : list N) : registers :=
  mk_registers (nth 0 h 0) (nth 1 h 0) (nth 2 h 0) (nth 3 h 0)
               (nth 4 h 0) (nth 5 h 0) (nth 6 h 0) (nth 7 h 0).

Definition compress (h : list N) (block : list N) : list N :=
  let ws := rev (schedule 48 (rev block)) in
  let r0 := registers_of h in
  let r := fold_left round (combine round_constants ws) r0 in
  [ add32 (ra r0) (ra r); add32 (rb r0) (rb r);
    add32 (rc r0) (rc r); add32 (rd r0) (rd r);
    add32 (re r0) (re r); add32 (rf r0) (rf r);
    add32 (rg r0) (rg r); add32 (rh r0) (rh r) ].

Fixpoint blocks (fuel : nat) (h : list N) (ws : list N) : list N :=
  match fuel with
  | O => h
  | S fuel' =>
      match ws with
      | [] => h
      | _ => blocks fuel' (compress h (firstn 16 ws)) (skipn 16 ws)
      end
  end.

Definition byte_of_N (n : N) : byte :=
  match Byte.of_N n with Some b => b | None => x00 end.

(** The 32 bytes of the digest. *)
Definition digest (msg : list byte) : list byte :=
  let padded := pad (map Byte.to_N msg) in
  let ws := words_of_bytes (length padded) padded in
  let h := blocks (length ws) initial_hash ws in
  map byte_of_N (flat_map (be_bytes 4) h).

(** [hashlib.sha256(s.encode()).hexdigest()] *)
Definition hexdigest (s : string) : string :=
  Encoding.hex_of_bytes (digest (list_byte_of_string s)).

End SHA256.

(* ===================================================================== *)
(** ** Python values, exceptions and dictionaries *)
(* ===================================================================== *)

(** The exceptions the modelled code can meet. *)
Inductive exn : Type :=
| KeyError (key : string)
| TypeError
| ValueError
| AttributeError
| OverflowError
| OSError
| JSONDecodeError.

Inductive result (A : Type) : Type :=
| Ok (a : A)
| Raise (e : exn).
Arguments Ok {A} a.
Arguments Raise {A} e.

#[local] Set Warnings "-register-all".

(** What [json.load] returns (numbers are integers here). *)
Inductive value : Type :=
| VNone
| VBool (b : bool)
| VInt (n : Z)
| VStr (s : string)
| VList (l : list value)
| VDict (d : list (string * value)).

(** A [dict] with [str] keys, in insertion order. *)
Abbreviation pydict V := (list (string * V)) (only parsing).

Section Dict.
Context {V : Type}.

(** [d.get(k)], [None] when absent *)
Fixpoint dget (k : string) (d : pydict V) : option V :=
  match d with
  | [] => None
  | (k', v) :: d' => if String.eqb k k' then Some v else dget k d'
  end.

(** [k in d] *)
Definition dmem (k : string) (d : pydict V) : bool :=
  match dget k d with Some _ => true | None => false end.

(** [d[k] = v]: an existing key keeps its place, a new one goes last *)
Fixpoint dset (k : string) (v : V) (d : pydict V) : pydict V :=
  match d with
  | [] => [(k, v)]
  | (k', v') :: d' =>
      if String.eqb k k' then (k', v) :: d' else (k', v') :: dset k v d'
  end.

(** [d.pop(k, None)], also [del d[k]] once [k in d] is known *)
Fixpoint dpop (k : string) (d : pydict V) : pydict V :=
  match d with
  | [] => []
  | (k', v') :: d' =>
      if String.eqb k k' then dpop k d' else (k', v') :: dpop k d'
  end.

(** The entry at position [i] of [d.items()] replaced by [f] of it. *)
Fixpoint dmodify_at (i : nat) (f : V -> V) (d : pydict V) : pydict V :=
  match d, i with
  | [], _ => []
  | (k, v) :: d', O => (k, f v) :: d'
  | kv :: d', S i' => kv :: dmodify_at i' f d'
  end.
End Dict.

(** A user record, and [self.users]. *)
Abbreviation record := (pydict value) (only parsing).
Abbreviation store := (pydict record) (only parsing).

(** [d.get(k)] and [d.get(k, default)] on a record *)
Definition py_get (k : string) (d : record) : value :=
  match dget k d with Some v => v | None => VNone end.

Definition py_get_default (k : string) (default : value) (d : record) : value :=
  match dget k d with Some v => v | None => default end.

(** [d[k]] on a record *)
Definition py_getitem (d : record) (k : string) : result value :=
  match dget k d with Some v => Ok v | None => Raise (KeyError k) end.

(** [v.get(k, default)] on an arbitrary value *)
Definition py_value_get (v : value) (k : string) (default : value) : result value :=
  match v with
  | VDict d => Ok (py_get_default k default d)
  | _ => Raise AttributeError
  end.

(** [v[k]] with a [str] subscript, on an arbitrary value *)
Definition py_value_getitem (v : value) (k : string) : result value :=
  match v with
  | VDict d => py_getitem d k
  | _ => Raise TypeError
  end.

(** [v[k] = x] with a [str] subscript: the value [v] becomes *)
Definition py_value_setitem (v : value) (k : string) (x : value) : result value :=
  match v with
  | VDict d => Ok (VDict (dset k x d))
  | _ => Raise TypeError
  end.

(** [del v[k]] with a [str] subscript *)
Definition py_value_delitem (v : value) (k : string) : result value :=
  match v with
  | VDict d => if dmem k d then Ok (VDict (dpop k d)) else Raise (KeyError k)
  | _ => Raise TypeError
  end.

(** [v == s] for a [str] [s] *)
Definition py_eq_str (v : value) (s : string) : bool :=
  match v with
  | VStr s' => String.eqb s' s
  | _ => false
  end.

(** Truth value, as [not v] tests it *)
Definition py_truthy (v : value) : bool :=
  match v with
  | VNone => false
  | VBool b => b
  | VInt n => negb (Z.eqb n 0)
  | VStr s => negb (String.eqb s "")
  | VList l => match l with [] => false | _ => true end
  | VDict d => match d with [] => false | _ => true end
  end.

(** [needle in s] for two [str] *)
Fixpoint str_contains (needle s : string) : bool :=
  String.prefix needle s
  || match s with
     | EmptyString => false
     | String _ s' => str_contains needle s'
     end.

(** [k in v] for a [str] [k] *)
Definition py_contains (k : string) (v : value) : result bool :=
  match v with
  | VDict d => Ok (dmem k d)
  | VList l => Ok (existsb (fun x => py_eq_str x k) l)
  | VStr s => Ok (str_contains k s)
  | _ => Raise TypeError
  end.

(** [v + 1] *)
Definition py_add_one (v : value) : result value :=
  match v with
  | VInt n => Ok (VInt (n + 1))
  | VBool b => Ok (VInt ((if b then 1 else 0) + 1))
  | _ => Raise TypeError
  end.

(** [s.split(sep)] for a one-character separator *)
Fixpoint split (sep : ascii) (s : string) : list string :=
  match s with
  | EmptyString => [EmptyString]
  | String c s' =>
      if Ascii.eqb c sep then EmptyString :: split sep s'
      else match split sep s' with
           | [] => [String c EmptyString]
           | part :: parts => String c part :: parts
           end
  end.

(* ===================================================================== *)
(** ** Naive [datetime] values and their ISO 8601 text *)
(* ===================================================================== *)

Module Datetime.

Local Open Scope Z_scope.

Record datetime : Type := mk_datetime {
  year : Z; month : Z; day : Z;
  hour : Z; minute : Z; second : Z; microsecond : Z
}.

Definition is_leap (y : Z) : bool :=
  (y mod 4 =? 0) && (negb (y mod 100 =? 0) || (y mod 400 =? 0)).

Definition days_in_month (y m : Z) : Z :=
  match m with
  | 2 => if is_leap y then 29 else 28
  | 4 | 6 | 9 | 11 => 30
  | _ => 31
  end.

Definition in_range (lo x hi : Z) : bool := (lo <=? x) && (x <=? hi).

(** The values the [datetime] constructor accepts. *)
Definition valid (d : datetime) : bool :=
  in_range 1 (year d) 9999 && in_range 1 (month d) 12
  && in_range 1 (day d) (days_in_month (year d) (month d))
  && in_range 0 (hour d) 23 && in_range 0 (minute d) 59
  && in_range 0 (second d) 59 && in_range 0 (microsecond d) 999999.

Definition fields (d : datetime) : list Z :=
  [year d; month d; day d; hour d; minute d; second d; microsecond d].

Fixpoint lex_ltb (a b : list Z) : bool :=
  match a, b with
  | x :: a', y :: b' => (x <? y) || ((x =? y) && lex_ltb a' b')
  | _, _ => false
  end.

(** [d1 < d2] *)
Definition ltb (d1 d2 : datetime) : bool := lex_ltb (fields d1) (fields d2).

(** [d + timedelta(hours=24)]: the same time on the next calendar day. *)
Definition add_24_hours (d : datetime) : result datetime :=
  let with_date y m dd :=
    mk_datetime y m dd (hour d) (minute d) (second d) (microsecond d) in
  if day d <? days_in_month (year d) (month d)
  then Ok (with_date (year d) (month d) (day d + 1))
  else if month d <? 12 then Ok (with_date (year d) (month d + 1) 1)
  else if year d <? 9999 then Ok (with_date (year d + 1) 1 1)
  else Raise OverflowError.

Definition digit_char (d : Z) : ascii := ascii_of_nat (48 + Z.to_nat d).

Definition digit_value (c : ascii) : option Z :=
  let n := Z.of_nat (nat_of_ascii c) in
  if in_range 48 n 57 then Some (n - 48) else None.

(** [n] on [w] decimal digits, zero padded: [%0wd] *)
Fixpoint zero_padded (w : nat) (n : Z) : string :=
  match w with
  | O => EmptyString
  | S w' =>
      String (digit_char (n / 10 ^ Z.of_nat w'))
             (zero_padded w' (n mod 10 ^ Z.of_nat w'))
  end.

(** [d.isoformat()] *)
Definition isoformat (d : datetime) : string :=
  (zero_padded 4 (year d) ++ "-" ++ zero_padded 2 (month d) ++ "-"
   ++ zero_padded 2 (day d) ++ "T" ++ zero_padded 2 (hour d) ++ ":"
   ++ zero_padded 2 (minute d) ++ ":" ++ zero_padded 2 (second d)
   ++ (if (microsecond d =? 0)%Z then "" else "." ++ zero_padded 6 (microsecond d))
  )%string.

(** Exactly [w] decimal digits at the head of [s], and what follows. *)
Fixpoint take_digits (w : nat) (s : string) : option (Z * string) :=
  match w with
  | O => Some (0, s)
  | S w' =>
      match s with
      | EmptyString => None
      | String c s' =>
          match digit_value c, take_digits w' s' with
          | Some d, Some (v, rest) => Some (d * 10 ^ Z.of_nat w' + v, rest)
          | _, _ => None
          end
      end
  end.

Definition expect (c : ascii) (s : string) : option string :=
  match s with
  | String c' s' => if Ascii.eqb c' c then Some s' else None
  | EmptyString => None
  end.

(** What [datetime.fromisoformat] returns: a naive value, or an aware one
    with its offset from UTC in microseconds. *)
Inductive stamp : Type :=
| Naive (d : datetime)
| Aware (d : datetime) (utcoffset : Z).

(** [now < expires] for the naive [now] of [datetime.now()]: comparing a
    naive value with an aware one raises [TypeError]. *)
Definition datetime_lt (now : datetime) (expires : stamp) : result bool :=
  match expires with
  | Naive d => Ok (ltb now d)
  | Aware _ _ => Raise TypeError
  end.

(** [.fff] or [.ffffff] up to the end of the string, as microseconds;
    nothing at all is zero. *)
Definition parse_fraction (s : string) : option Z :=
  match s with
  | EmptyString => Some 0
  | String c s' =>
      if Ascii.eqb c "." then
        match take_digits 6 s' with
        | Some (us, EmptyString) => Some us
        | _ =>
            match take_digits 3 s' with
            | Some (ms, EmptyString) => Some (ms * 1000)
            | _ => None
            end
        end
      else None
  end.

(** [HH[:MM[:SS[.fff[fff]]]]] up to the end of the string *)
Definition parse_time (s : string) : option (Z * Z * Z * Z) :=
  match take_digits 2 s with
  | None => None
  | Some (hh, EmptyString) => Some (hh, 0, 0, 0)
  | Some (hh, s) =>
  match expect ":" s with None => None | Some s =>
  match take_digits 2 s with
  | None => None
  | Some (mm, EmptyString) => Some (hh, mm, 0, 0)
  | Some (mm, s) =>
  match expect ":" s with None => None | Some s =>
  match take_digits 2 s with None => None | Some (ss, s) =>
  match parse_fraction s with None => None | Some us =>
    Some (hh, mm, ss, us)
  end end end end end
  end.

(** [YYYY-MM-DD], then nothing, or one character of any kind and a time *)
Definition parse (s : string) : option datetime :=
  match take_digits 4 s with
  | None => None
  | Some (y, s) =>
  match expect "-" s with None => None | Some s =>
  match take_digits 2 s with None => None | Some (m, s) =>
  match expect "-" s with None => None | Some s =>
  match take_digits 2 s with None => None | Some (d, s) =>
  match s with
  | EmptyString => Some (mk_datetime y m d 0 0 0 0)
  | String _ s =>
      match parse_time s with
      | None => None
      | Some (hh, mm, ss, us) => Some (mk_datetime y m d hh mm ss us)
      end
  end end end end end
  end.

(** A sample of [datetime.fromisoformat], for running the model: it reads
    [YYYY-MM-DD[*HH[:MM[:SS[.fff[fff]]]]]] with ASCII digits, [*] being
    any one character of one byte, as a naive value, and raises
    [ValueError] on anything else.  Which further spellings the library reads (offsets,
    which give an aware value, and from CPython 3.11 most of ISO 8601)
    depends on its version; the program below is modelled over any such
    function. *)
Definition isoparse (s : string) : result stamp :=
  match parse s with
  | Some d => if valid d then Ok (Naive d) else Raise ValueError
  | None => Raise ValueError
  end.

End Datetime.

(* ===================================================================== *)
(** ** The world of a [UserDatabase] and its computations *)
(* ===================================================================== *)

Import Datetime.

(** The models of [models.py] that the modelled endpoints build. *)
Module Models.

Record SessionUser : Type := mk_SessionUser {
  su_username : string;
  su_user_id : string;
  su_thread_id : option string
}.

Record UserResponse : Type := mk_UserResponse {
  ur_user_id : string;
  ur_username : string;
  ur_email : string;
  ur_chats : option (list (string * value))
}.

Record AuthResponse : Type := mk_AuthResponse {
  ar_success : bool;
  ar_message : string;
  ar_user_data : option UserResponse;
  ar_session_token : option string
}.

Record ChatResponse : Type := mk_ChatResponse {
  cr_chat_id : string;
  cr_title : string;
  cr_created_at : string;
  cr_last_message_at : option string;
  cr_message_count : Z
}.

End Models.

(** How Pydantic validates one field of type [str], [int] or [dict].  On a
    value of the declared type it returns that value; what it does on
    another value (coerce it, or raise [ValidationError]) differs between
    versions of the library and is left open. *)
Record validators : Type := mk_validators {
  as_str : value -> option string;
  as_int : value -> option Z;
  as_dict : value -> option (list (string * value))
}.

(** [fastapi.HTTPException]; a detail is a literal, or an f-string that
    ends in [str(e)]. *)
Inductive detail : Type :=
| Text (s : string)
| TextAndError (s : string) (e : exn).

Inductive http_exception : Type :=
| HTTPException (status_code : Z) (detail : detail).

(** What a handler can raise: a Python exception or an [HTTPException]. *)
Inductive raised : Type :=
| Py (e : exn)
| Http (e : http_exception).

Inductive reply (A : Type) : Type :=
| Sent (a : A)
| Thrown (e : raised).
Arguments Sent {A} a.
Arguments Thrown {A} e.

(* ===================================================================== *)
(** ** The library function [datetime.fromisoformat] *)
(* ===================================================================== *)

Section Library.

(** [datetime.fromisoformat(s)]: the naive or aware value that the string
    spells, or the exception raised.  The spellings it reads differ
    between versions of CPython, so the function is a parameter of the
    whole development: every definition and theorem below is about the
    program run over any such function.  A theorem that needs the
    function to read back what [isoformat] wrote says so, by
    [reads_isoformat]; [Datetime.isoparse] is one such function. *)
Variable fromisoformat : string -> result stamp.

(** [datetime.fromisoformat(v)] for an arbitrary value [v] *)
Definition fromisoformat_value (v : value) : result stamp :=
  match v with
  | VStr s => fromisoformat s
  | _ => Raise TypeError
  end.

(** The function is the inverse of [isoformat] on naive values. *)
Definition reads_isoformat : Prop :=
  forall d, valid d = true -> fromisoformat (isoformat d) = Ok (Naive d).

(** What is found at [self.db_file]: a document [json.load] reads, or one
    on which [open] or [json.load] raises. *)
Inductive document : Type :=
| Broken (e : exn)
| Json (u : store).

Inductive log_record : Type :=
| LogError (message : string) (e : exn)
| LogInfo (message : string).

Record world : Type := mk_world {
  users : store;                 (* self.users *)
  db_file : option document;     (* the file at self.db_file, if any *)
  writable : bool;               (* can the file be opened for writing;
                                    a refused write leaves the file alone *)
  log : list log_record          (* what the logger received, oldest first *)
}.

Definition with_users (u : store) (w : world) : world :=
  mk_world u (db_file w) (writable w) (log w).
Definition with_db_file (f : option document) (w : world) : world :=
  mk_world (users w) f (writable w) (log w).
Definition with_log (l : list log_record) (w : world) : world :=
  mk_world (users w) (db_file w) (writable w) l.

(** A computation: a result or an exception, and the world left behind. *)
Definition M (A : Type) : Type := world -> result A * world.

Definition ret {A} (a : A) : M A := fun w => (Ok a, w).

Definition bind {A B} (c : M A) (k : A -> M B) : M B :=
  fun w =>
    match c w with
    | (Ok a, w') => k a w'
    | (Raise e, w') => (Raise e, w')
    end.

Definition raise {A} (e : exn) : M A := fun w => (Raise e, w).

(** [try: c  except ... as e: handler e]; what [c] did to the world before
    raising stays done. *)
Definition try_except {A} (c : M A) (handler : exn -> M A) : M A :=
  fun w =>
    match c w with
    | (Ok a, w') => (Ok a, w')
    | (Raise e, w') => handler e w'
    end.

Definition lift {A} (r : result A) : M A := fun w => (r, w).

Declare Scope py_scope.
Delimit Scope py_scope with py.
Notation "x <- c ;; k" := (bind c (fun x => k))
  (at level 61, c at next level, right associativity) : py_scope.
Notation "c ;; k" := (bind c (fun _ => k))
  (at level 61, right associativity) : py_scope.
Local Open Scope py_scope.

Definition get_users : M store := fun w => (Ok (users w), w).
Definition put_users (u : store) : M unit := fun w => (Ok tt, with_users u w).

Definition logger_error (message : string) (e : exn) : M unit :=
  fun w => (Ok tt, with_log (log w ++ [LogError message e]) w).
Definition logger_info (message : string) : M unit :=
  fun w => (Ok tt, with_log (log w ++ [LogInfo message]) w).

(** A mutation of the record object [self.users[username]]. *)
Definition update_record (username : string) (f : record -> record) : M unit :=
  fun w =>
    match dget username (users w) with
    | Some r => (Ok tt, with_users (dset username (f r) (users w)) w)
    | None => (Raise (KeyError username), w)
    end.

(** A mutation of the record object at position [i] of
    [self.users.items()]. *)
Definition update_record_at (i : nat) (f : record -> record) : M unit :=
  fun w => (Ok tt, with_users (dmodify_at i f (users w)) w).

(** The chat object [self.users[username]["chats"][chat_id]] becomes
    [chat_data]. *)
Definition write_chat (username chat_id : string) (chat_data : value) : M unit :=
  update_record username
    (fun r =>
       match dget "chats" r with
       | Some (VDict chats) => dset "chats" (VDict (dset chat_id chat_data chats)) r
       | _ => r
       end).

(* ===================================================================== *)
(** ** [UserDatabase] *)
(* ===================================================================== *)

(** [with open(self.db_file, 'r') as f: return json.load(f)] *)
Definition json_load (doc : document) : M store :=
  match doc with
  | Json u => ret u
  | Broken e => raise e
  end.

Definition _load_users : M store :=
  fun w =>
    match db_file w with
    | Some doc =>
        try_except (json_load doc)
          (fun e => logger_error "Error loading users database: " e ;; ret []) w
    | None => ret [] w
    end.

(** [__init__]: the world before it has no users yet. *)
Definition __init__ : M unit :=
  u <- _load_users ;; put_users u.

(** [with open(self.db_file, 'w') as f: json.dump(self.users, f, indent=2)] *)
Definition json_dump : M unit :=
  fun w =>
    if writable w then (Ok tt, with_db_file (Some (Json (users w))) w)
    else (Raise OSError, w).

Definition _save_users : M unit :=
  try_except json_dump
    (fun e => logger_error "Error saving users database: " e ;; raise e).

(** [salt_bytes] are the 16 bytes [secrets.token_hex(16)] draws. *)
Definition _hash_password (salt_bytes : list byte) (password : string) : string :=
  let salt := Encoding.token_hex salt_bytes in
  let password_hash := SHA256.hexdigest (password ++ salt) in
  salt ++ ":" ++ password_hash.

(** The body of the [try] in [_verify_password]. *)
Definition verify_password_body (password : string) (stored_hash : value) : result bool :=
  match stored_hash with
  | VStr stored =>
      match split ":" stored with
      | [salt; password_hash] =>
          let test_hash := SHA256.hexdigest (password ++ salt) in
          Ok (String.eqb test_hash password_hash)
      | _ => Raise ValueError
      end
  | _ => Raise AttributeError
  end.

Definition _verify_password (password : string) (stored_hash : value) : bool :=
  match verify_password_body password stored_hash with
  | Ok b => b
  | Raise _ => false
  end.

(** [token_bytes] are the 32 bytes [secrets.token_urlsafe(32)] draws. *)
Definition _generate_session_token (token_bytes : list byte) : string :=
  Encoding.token_urlsafe token_bytes.

Definition failure (message : string) : value :=
  VDict [("success", VBool false); ("message", VStr message)].

Definition register_user (id_bytes salt_bytes : list byte) (now : datetime)
    (username email password : string) : M value :=
  us <- get_users ;;
  if dmem username us then ret (failure "Username already exists")
  else if existsb (fun entry => py_eq_str (py_get "email" (snd entry)) email) us
  then ret (failure "Email already exists")
  else
    let user_id := Encoding.token_urlsafe id_bytes in
    let hashed_password := _hash_password salt_bytes password in
    let user_data : record :=
      [ ("user_id", VStr user_id);
        ("username", VStr username);
        ("email", VStr email);
        ("password_hash", VStr hashed_password);
        ("created_at", VStr (isoformat now));
        ("last_login", VNone);
        ("chats", VDict []);
        ("is_active", VBool true) ] in
    put_users (dset username user_data us) ;;
    _save_users ;;
    logger_info ("New user registered: " ++ username) ;;
    ret (VDict [ ("success", VBool true);
                 ("message", VStr "User registered successfully");
                 ("user_id", VStr user_id) ]).

Definition authenticate_user (now : datetime) (username password : string) : M value :=
  us <- get_users ;;
  match dget username us with
  | None => ret (failure "Invalid username or password")
  | Some user_data =>
      if negb (py_truthy (py_get_default "is_active" (VBool true) user_data))
      then ret (failure "Account is deactivated")
      else
        stored <- lift (py_getitem user_data "password_hash") ;;
        if negb (_verify_password password stored)
        then ret (failure "Invalid username or password")
        else
          let user_data := dset "last_login" (VStr (isoformat now)) user_data in
          update_record username (dset "last_login" (VStr (isoformat now))) ;;
          _save_users ;;
          logger_info ("User authenticated: " ++ username) ;;
          user_id <- lift (py_getitem user_data "user_id") ;;
          name <- lift (py_getitem user_data "username") ;;
          email <- lift (py_getitem user_data "email") ;;
          ret (VDict [ ("success", VBool true);
                       ("message", VStr "Login successful");
                       ("user_data",
                        VDict [ ("user_id", user_id);
                                ("username", name);
                                ("email", email);
                                ("chats", py_get_default "chats" (VDict []) user_data) ]) ])
  end.

Definition create_user_session (token_bytes : list byte) (now : datetime)
    (username : string) : M string :=
  let session_token := _generate_session_token token_bytes in
  us <- get_users ;;
  (if dmem username us then
     update_record username (dset "session_token" (VStr session_token)) ;;
     expires <- lift (add_24_hours now) ;;
     update_record username (dset "session_expires" (VStr (isoformat expires))) ;;
     _save_users
   else ret tt) ;;
  ret session_token.

(** The body of the [for] loop of [validate_session] for the entry at
    position [i]: [Some v] when it executes [return v]. *)
Definition validate_entry (now : datetime) (session_token : string)
    (i : nat) (username : string) (user_data : record) : M (option value) :=
  if py_eq_str (py_get "session_token" user_data) session_token then
    try_except
      (expires <- lift (fromisoformat_value
                          (py_get_default "session_expires" (VStr "") user_data)) ;;
       live <- lift (datetime_lt now expires) ;;
       if live then
         user_id <- lift (py_getitem user_data "user_id") ;;
         ret (Some (VDict [ ("username", VStr username);
                            ("user_id", user_id);
                            ("thread_id", py_get "thread_id" user_data) ]))
       else
         update_record_at i (dpop "session_token") ;;
         update_record_at i (dpop "session_expires") ;;
         _save_users ;;
         ret None)
      (fun _ => ret None)
  else ret None.

Fixpoint validate_scan (now : datetime) (session_token : string)
    (i : nat) (items : list (string * record)) : M value :=
  match items with
  | [] => ret VNone
  | (username, user_data) :: rest =>
      returned <- validate_entry now session_token i username user_data ;;
      match returned with
      | Some v => ret v
      | None => validate_scan now session_token (S i) rest
      end
  end.

Definition validate_session (now : datetime) (session_token : string) : M value :=
  us <- get_users ;;
  validate_scan now session_token 0 us.

Definition create_user_chat (id_bytes : list byte) (now : datetime)
    (username chat_title : string) : M value :=
  us <- get_users ;;
  match dget username us with
  | None => ret VNone
  | Some user_data =>
      let chat_id := Encoding.token_urlsafe id_bytes in
      let chat_data :=
        VDict [ ("chat_id", VStr chat_id);
                ("title", VStr chat_title);
                ("thread_id", VNone);
                ("created_at", VStr (isoformat now));
                ("last_message_at", VNone);
                ("message_count", VInt 0) ] in
      chats <- lift (py_getitem user_data "chats") ;;
      chats <- lift (py_value_setitem chats chat_id chat_data) ;;
      update_record username (dset "chats" chats) ;;
      _save_users ;;
      logger_info ("Created new chat for user " ++ username ++ ": " ++ chat_id) ;;
      ret (VStr chat_id)
  end.

Definition get_user_chats (username : string) (w : world) : value :=
  match dget username (users w) with
  | None => VDict []
  | Some user_data => py_get_default "chats" (VDict []) user_data
  end.

(** [username in self.users and chat_id in self.users[username].get("chats", {})] *)
Definition chat_exists (username chat_id : string) : M bool :=
  us <- get_users ;;
  match dget username us with
  | None => ret false
  | Some user_data =>
      lift (py_contains chat_id (py_get_default "chats" (VDict []) user_data))
  end.

(** [self.users[username]["chats"][chat_id]] *)
Definition chat_object (username chat_id : string) : M value :=
  us <- get_users ;;
  user_data <- lift (match dget username us with
                     | Some r => Ok r
                     | None => Raise (KeyError username)
                     end) ;;
  chats <- lift (py_getitem user_data "chats") ;;
  lift (py_value_getitem chats chat_id).

Definition update_chat_thread (username chat_id thread_id : string) : M unit :=
  found <- chat_exists username chat_id ;;
  if found then
    chat_data <- chat_object username chat_id ;;
    chat_data <- lift (py_value_setitem chat_data "thread_id" (VStr thread_id)) ;;
    write_chat username chat_id chat_data ;;
    _save_users
  else ret tt.

Definition update_chat_last_message (now : datetime) (username chat_id : string) : M unit :=
  found <- chat_exists username chat_id ;;
  if found then
    chat_data <- chat_object username chat_id ;;
    chat_data <- lift (py_value_setitem chat_data "last_message_at"
                         (VStr (isoformat now))) ;;
    write_chat username chat_id chat_data ;;
    count <- lift (py_value_get chat_data "message_count" (VInt 0)) ;;
    count <- lift (py_add_one count) ;;
    chat_data <- lift (py_value_setitem chat_data "message_count" count) ;;
    write_chat username chat_id chat_data ;;
    _save_users
  else ret tt.

Definition delete_user_chat (username chat_id : string) : M bool :=
  found <- chat_exists username chat_id ;;
  if found then
    us <- get_users ;;
    user_data <- lift (match dget username us with
                       | Some r => Ok r
                       | None => Raise (KeyError username)
                       end) ;;
    chats <- lift (py_getitem user_data "chats") ;;
    chats <- lift (py_value_delitem chats chat_id) ;;
    update_record username (dset "chats" chats) ;;
    _save_users ;;
    logger_info ("Deleted chat " ++ chat_id ++ " for user " ++ username) ;;
    ret true
  else ret false.

Definition update_chat_title (username chat_id new_title : string) : M bool :=
  found <- chat_exists username chat_id ;;
  if found then
    chat_data <- chat_object username chat_id ;;
    chat_data <- lift (py_value_setitem chat_data "title" (VStr new_title)) ;;
    write_chat username chat_id chat_data ;;
    _save_users ;;
    ret true
  else ret false.

Definition deactivate_user (username : string) : M bool :=
  us <- get_users ;;
  if dmem username us then
    update_record username (dset "is_active" (VBool false)) ;;
    _save_users ;;
    ret true
  else ret false.

(** The [try] block of [logout_user] in [backend/main.py], which clears
    the session fields through [get_user_by_username]. *)
Definition logout_user (username : string) : M unit :=
  us <- get_users ;;
  match dget username us with
  | Some (_ :: _) =>
      update_record username (dpop "session_token") ;;
      update_record username (dpop "session_expires") ;;
      _save_users
  | _ => ret tt
  end.

(* ===================================================================== *)
(** ** Vocabulary of the properties *)
(* ===================================================================== *)

(** How many times the character [c] occurs in [s]. *)
Fixpoint count_char (c : ascii) (s : string) : nat :=
  match s with
  | EmptyString => O
  | String c' s' => (if Ascii.eqb c' c then 1 else 0) + count_char c s'
  end.

(** Two different messages with the same SHA-256 digest. *)
Definition sha256_collision (x y : string) : Prop :=
  x <> y /\ SHA256.hexdigest x = SHA256.hexdigest y.



(** The place of [c] in [s], counted from zero. *)
Fixpoint position (c : ascii) (s : string) : N :=
  match s with
  | EmptyString => 0
  | String c' s' => if Ascii.eqb c c' then 0 else 1 + position c s'
  end%N.

(** The inverse of [Encoding.b64url_digit] on its image. *)
Definition b64url_value (c : ascii) : N := position c Encoding.b64url_alphabet.

(** The days of the years before year [y]. *)
Definition days_before_year (y : Z) : Z :=
  (365 * (y - 1) + (y - 1) / 4 - (y - 1) / 100 + (y - 1) / 400)%Z.

(** The days of year [y] before its month [m]. *)
Definition days_before_month (y m : Z) : Z :=
  fold_right Z.add 0%Z
    (map (fun k => days_in_month y (Z.of_nat k)) (seq 1 (Z.to_nat (m - 1)))).

(** [date.toordinal()]: the days from 0001-01-01, which is day 1. *)
Definition toordinal (d : datetime) : Z :=
  (days_before_year (year d) + days_before_month (year d) (month d) + day d)%Z.

(** The microseconds from 0001-01-01T00:00:00 to [d], so that [d2 - d1]
    is [timedelta(microseconds = microseconds d2 - microseconds d1)]. *)
Definition microseconds (d : datetime) : Z :=
  (((((toordinal d - 1) * 24 + hour d) * 60 + minute d) * 60 + second d)
     * 1000000
   + microsecond d)%Z.

(** [timedelta(hours=24)], in microseconds *)
Definition twenty_four_hours : Z := (24 * 60 * 60 * 1000000)%Z.



(** The record's [session_token] field equals [token]. *)
Definition holds_token (token : string) (r : record) : bool :=
  py_eq_str (py_get "session_token" r) token.

(** No entry of the store carries [token]. *)
Definition token_unused (token : string) (us : store) : Prop :=
  forall name r, In (name, r) us -> holds_token token r = false.


(** Some entry of the store carries [token]. *)
Definition has_holder (token : string) (us : store) : bool :=
  existsb (fun entry => holds_token token (snd entry)) us.

(** A record with both session fields removed. *)
Definition clear_session (r : record) : record :=
  dpop "session_expires" (dpop "session_token" r).

(** The store with the session fields removed from every record that
    carries [token]. *)
Definition clear_holders (token : string) (us : store) : store :=
  map (fun entry =>
         (fst entry,
          if holds_token token (snd entry) then clear_session (snd entry)
          else snd entry)) us.

(** What [validate_session] returns for a live session. *)
Definition identity (username : string) (user_id thread_id : value) : value :=
  VDict [ ("username", VStr username);
          ("user_id", user_id);
          ("thread_id", thread_id) ].

(** The world after the expired branch of the loop body: both fields are
    popped from the record at position [i], then [_save_users] runs and
    whatever it raises is swallowed by the bare [except]. *)
Definition expire_at (i : nat) (w : world) : world :=
  snd (_save_users
         (with_users
            (dmodify_at i (dpop "session_expires")
               (dmodify_at i (dpop "session_token") (users w))) w)).

(** A record after [create_user_session] wrote [token] and [expires]
    on it. *)
Definition grant (token : string) (expires : datetime) (r : record) : record :=
  dset "session_expires" (VStr (isoformat expires))
    (dset "session_token" (VStr token) r).

(** The store represents a dictionary: no key occurs twice. *)
Definition store_ok (w : world) : Prop := NoDup (map fst (users w)).

(** One call into the user store. *)
Inductive call : Type :=
| Register (id_bytes salt_bytes : list byte) (now : datetime)
           (username email password : string)
| Authenticate (now : datetime) (username password : string)
| CreateSession (token_bytes : list byte) (now : datetime) (username : string)
| ValidateSession (now : datetime) (session_token : string)
| CreateChat (id_bytes : list byte) (now : datetime) (username title : string)
| UpdateChatThread (username chat_id thread_id : string)
| UpdateChatLastMessage (now : datetime) (username chat_id : string)
| DeleteChat (username chat_id : string)
| UpdateChatTitle (username chat_id new_title : string)
| DeactivateUser (username : string)
| Logout (username : string).

(** The world a call leaves behind, whether it returns or raises. *)
Definition perform (c : call) (w : world) : world :=
  match c with
  | Register id_bytes salt_bytes now username email password =>
      snd (register_user id_bytes salt_bytes now username email password w)
  | Authenticate now username password =>
      snd (authenticate_user now username password w)
  | CreateSession token_bytes now username =>
      snd (create_user_session token_bytes now username w)
  | ValidateSession now session_token =>
      snd (validate_session now session_token w)
  | CreateChat id_bytes now username title =>
      snd (create_user_chat id_bytes now username title w)
  | UpdateChatThread username chat_id thread_id =>
      snd (update_chat_thread username chat_id thread_id w)
  | UpdateChatLastMessage now username chat_id =>
      snd (update_chat_last_message now username chat_id w)
  | DeleteChat username chat_id =>
      snd (delete_user_chat username chat_id w)
  | UpdateChatTitle username chat_id new_title =>
      snd (update_chat_title username chat_id new_title w)
  | DeactivateUser username => snd (deactivate_user username w)
  | Logout username => snd (logout_user username w)
  end.

(** The keys of a JSON object that [json.load] returns are distinct. *)
Definition file_ok (f : option document) : Prop :=
  match f with
  | Some (Json u) => NoDup (map fst u)
  | _ => True
  end.

(** The states of a running user store: constructed over some file, then
    driven by calls, while the file and its permissions may change behind
    its back. *)
Inductive reachable : world -> Prop :=
| reachable_init (f : option document) (wr : bool) :
    file_ok f -> reachable (snd (__init__ (mk_world [] f wr [])))
| reachable_call (c : call) (w : world) :
    reachable w -> reachable (perform c w)
| reachable_env (f : option document) (wr : bool) (w : world) :
    reachable w -> reachable (mk_world (users w) f wr (log w)).

(** Running [c] from [w] leaves a store that satisfies [Q], whether [c]
    returns or raises. *)
Definition keeps (Q : list (string * list (string * value)) -> Prop)
    {A : Type} (c : M A) (w : world) : Prop :=
  Q (users (snd (c w))).

(** No key occurs twice. *)
Definition distinct_keys (us : store) : Prop := NoDup (map fst us).

(** [f] cannot make a record carry [token]. *)
Definition harmless (token : string)
    (f : list (string * value) -> list (string * value)) : Prop :=
  forall r, holds_token token r = false -> holds_token token (f r) = false.

(** The call writes [token] as a session token. *)
Definition draws (token : string) (c : call) : bool :=
  match c with
  | CreateSession token_bytes _ _ =>
      String.eqb (_generate_session_token token_bytes) token
  | _ => false
  end.

(** The world after a sequence of calls. *)
Definition perform_all (cs : list call) (w : world) : world :=
  fold_left (fun w c => perform c w) cs w.

(** *** Sample inputs *)

Definition sample_salt1 : list byte :=
  [x00; x01; x02; x03; x04; x05; x06; x07; x08; x09; x0a; x0b; x0c; x0d; x0e; x0f].
Definition sample_salt2 : list byte :=
  [xf0; xe1; xd2; xc3; xb4; xa5; x96; x87; x78; x69; x5a; x4b; x3c; x2d; x1e; x0f].

Definition sample_now : datetime := mk_datetime 2024 5 17 9 30 0 0.

(** A store whose file cannot be parsed. *)
Definition corrupt_world : world :=
  mk_world [] (Some (Broken JSONDecodeError)) true [].

(** A store with one user, alice, whose account was deactivated. *)
Definition alice_record (active : bool) : record :=
  [ ("user_id", VStr "dXNlci1hbGljZQ");
    ("username", VStr "alice");
    ("email", VStr "alice@x.com");
    ("password_hash", VStr (_hash_password sample_salt1 "pw123"));
    ("created_at", VStr "2024-05-01T08:00:00");
    ("last_login", VNone);
    ("chats", VDict []);
    ("is_active", VBool active) ].

Definition alice_world (active : bool) : world :=
  let us := [("alice", alice_record active)] in
  mk_world us (Some (Json us)) true [].

(** Alice with a session that expired a day before [sample_now]. *)
Definition expired_world : world :=
  let us := [("alice",
              alice_record true
                ++ [ ("session_token", VStr "tok-old");
                     ("session_expires", VStr "2024-05-16T09:30:00") ])] in
  mk_world us (Some (Json us)) true [].

(** Alice with one chat that has seen two messages. *)
Definition sample_chat : list (string * value) :=
  [ ("chat_id", VStr "Y2hhdC0x");
    ("title", VStr "My Chat");
    ("thread_id", VNone);
    ("created_at", VStr "2024-05-02T10:00:00");
    ("last_message_at", VStr "2024-05-02T10:05:00");
    ("message_count", VInt 2) ].

Definition sample_chats : list (string * value) :=
  [("Y2hhdC0x", VDict sample_chat)].

Definition chat_record : list (string * value) :=
  dset "chats" (VDict sample_chats) (alice_record true).

Definition chat_world : world :=
  let us := [("alice", chat_record)] in
  mk_world us (Some (Json us)) true [].

(** An empty store over a missing, writable file, and the steps of the
    end-to-end scenario run from it. *)
Definition fresh_world : world := mk_world [] None true [].

Definition after_register : world :=
  snd (register_user sample_salt2 sample_salt1 sample_now
         "alice" "alice@x.com" "pw123" fresh_world).

Definition after_login : world :=
  snd (authenticate_user sample_now "alice" "pw123" after_register).

Definition after_session : world :=
  snd (create_user_session sample_salt1 sample_now "alice" after_login).

Definition after_chat : world :=
  snd (create_user_chat sample_salt1 sample_now "alice" "My Chat" after_session).

Definition after_message : world :=
  snd (update_chat_last_message sample_now "alice" "AAECAwQFBgcICQoLDA0ODw"
         after_chat).

(* ===================================================================== *)
(** ** [UserDatabase]: the read-only accessors *)
(* ===================================================================== *)

(** [self.users.get(username)]: the record object itself, or [None]. *)
Definition get_user_by_username (username : string) (w : world) : value :=
  match dget username (users w) with
  | Some user_data => VDict user_data
  | None => VNone
  end.

(** One element of the list comprehension of [get_all_users]. *)
Definition user_summary (entry : string * list (string * value)) : result value :=
  let (username, user_data) := entry in
  match py_getitem user_data "email" with
  | Raise e => Raise e
  | Ok email =>
      match py_getitem user_data "created_at" with
      | Raise e => Raise e
      | Ok created_at =>
          Ok (VDict [ ("username", VStr username);
                      ("email", email);
                      ("created_at", created_at);
                      ("last_login", py_get "last_login" user_data);
                      ("is_active",
                       py_get_default "is_active" (VBool true) user_data) ])
      end
  end.

(** The comprehension stops at the first element that raises. *)
Fixpoint summaries (items : list (string * list (string * value)))
    : result (list value) :=
  match items with
  | [] => Ok []
  | entry :: rest =>
      match user_summary entry with
      | Raise e => Raise e
      | Ok v =>
          match summaries rest with
          | Raise e => Raise e
          | Ok vs => Ok (v :: vs)
          end
      end
  end.

Definition get_all_users (w : world) : result (list value) :=
  summaries (users w).

(* ===================================================================== *)
(** ** The request layer ([backend/main.py], [backend/models.py]) *)
(* ===================================================================== *)

(** [s.replace(old, new)]: the occurrences of [old] are found from the
    left and do not overlap; an empty [old] matches before every character
    and at the end. *)
Fixpoint replace_skip (old new : string) (skip : nat) (s : string) : string :=
  match s with
  | EmptyString => EmptyString
  | String c s' =>
      match skip with
      | S k => replace_skip old new k s'
      | O =>
          if String.prefix old s
          then new ++ replace_skip old new (String.length old - 1) s'
          else String c (replace_skip old new 0 s')
      end
  end.

Fixpoint intersperse (new s : string) : string :=
  match s with
  | EmptyString => new
  | String c s' => new ++ String c (intersperse new s')
  end.

Definition str_replace (old new s : string) : string :=
  match old with
  | EmptyString => intersperse new s
  | _ => replace_skip old new 0 s
  end.

(** A computation of the request layer. *)
Definition H (A : Type) : Type := world -> reply A * world.

Definition h_ret {A} (a : A) : H A := fun w => (Sent a, w).
Definition h_raise {A} (e : raised) : H A := fun w => (Thrown e, w).

Definition h_bind {A B} (c : H A) (k : A -> H B) : H B :=
  fun w =>
    match c w with
    | (Sent a, w') => k a w'
    | (Thrown e, w') => (Thrown e, w')
    end.

(** A call into the user store. *)
Definition call_store {A} (c : M A) : H A :=
  fun w =>
    match c w with
    | (Ok a, w') => (Sent a, w')
    | (Raise e, w') => (Thrown (Py e), w')
    end.

(** [try: c  except Exception as e: handler e] *)
Definition h_try {A} (c : H A) (handler : raised -> H A) : H A :=
  fun w =>
    match c w with
    | (Sent a, w') => (Sent a, w')
    | (Thrown e, w') => handler e w'
    end.

(** A Pydantic model is being built; a field that does not validate
    raises [ValidationError], which is a [ValueError]. *)
Definition validated {A} (field : option A) : M A :=
  match field with
  | Some a => ret a
  | None => raise ValueError
  end.

(** [try: body  except Exception as e: logger.error(f"{message}{e}");
    raise HTTPException(status_code=500, detail=...)] for a body that
    raises no [HTTPException] of its own. *)
Definition try_or_500 {A} (body : M A) (message : string)
    (detail_of : exn -> detail) : H A :=
  fun w =>
    match body w with
    | (Ok a, w') => (Sent a, w')
    | (Raise e, w') =>
        (Thrown (Http (HTTPException 500 (detail_of e))),
         with_log (log w' ++ [LogError message e]) w')
    end.

(** [try: body  except HTTPException: raise  except Exception as e:
    logger.error(f"{message}{e}"); raise HTTPException(status_code=500,
    detail=...)] *)
Definition try_http_or_500 {A} (body : H A) (message : string)
    (detail_of : exn -> detail) : H A :=
  fun w =>
    match body w with
    | (Sent a, w') => (Sent a, w')
    | (Thrown (Http e), w') => (Thrown (Http e), w')
    | (Thrown (Py e), w') =>
        (Thrown (Http (HTTPException 500 (detail_of e))),
         with_log (log w' ++ [LogError message e]) w')
    end.

Definition optional {A} (validate : value -> option A) (v : value)
    : option (option A) :=
  match v with
  | VNone => Some None
  | _ => match validate v with
         | Some a => Some (Some a)
         | None => None
         end
  end.

Section RequestLayer.
Variable V : validators.

(** [SessionUser] built from the keywords of the dict [user_data] *)
Definition SessionUser_of (user_data : value) : option Models.SessionUser :=
  match user_data with
  | VDict d =>
      match as_str V (py_get "username" d),
            as_str V (py_get "user_id" d),
            optional (as_str V) (py_get "thread_id" d) with
      | Some username, Some user_id, Some thread_id =>
          Some (Models.mk_SessionUser username user_id thread_id)
      | _, _, _ => None
      end
  | _ => None
  end.

(** [UserResponse(user_id=..., username=..., email=..., chats=...)] *)
Definition UserResponse_of (user_id username email chats : value)
    : option Models.UserResponse :=
  match as_str V user_id, as_str V username, as_str V email,
        optional (as_dict V) chats with
  | Some user_id, Some username, Some email, Some chats =>
      Some (Models.mk_UserResponse user_id username email chats)
  | _, _, _, _ => None
  end.

(** [AuthResponse(success=..., message=..., user_data=..., session_token=...)]
    with a [bool] literal, a model and a [str] in three of the places. *)
Definition AuthResponse_of (success : bool) (message : value)
    (user_data : option Models.UserResponse) (session_token : option string)
    : option Models.AuthResponse :=
  match as_str V message with
  | Some message =>
      Some (Models.mk_AuthResponse success message user_data session_token)
  | None => None
  end.

(** [ChatResponse(chat_id=..., title=..., created_at=..., last_message_at=...,
    message_count=...)] with a [str] key as [chat_id] *)
Definition ChatResponse_of (chat_id : string)
    (title created_at last_message_at message_count : value)
    : option Models.ChatResponse :=
  match as_str V title, as_str V created_at,
        optional (as_str V) last_message_at, as_int V message_count with
  | Some title, Some created_at, Some last_message_at, Some message_count =>
      Some (Models.mk_ChatResponse chat_id title created_at
              last_message_at message_count)
  | _, _, _, _ => None
  end.

(** [get_current_user]; [authorization] is the header, if the request has
    one. *)
Definition get_current_user (now : datetime) (authorization : option string)
    : H Models.SessionUser :=
  match authorization with
  | None | Some EmptyString =>
      h_raise (Http (HTTPException 401 (Text "Authorization header required")))
  | Some header =>
      h_try
        (let token := str_replace "Bearer " "" header in
         h_bind (call_store (validate_session now token)) (fun user_data =>
         if negb (py_truthy user_data)
         then h_raise (Http (HTTPException 401 (Text "Invalid or expired session")))
         else call_store (validated (SessionUser_of user_data))))
        (fun _ =>
           h_raise (Http (HTTPException 401 (Text "Invalid session token"))))
  end.

Local Open Scope py_scope.

(** [POST /api/auth/register]; the two store calls read the clock at
    [now] and at [later]. *)
Definition register_endpoint (id_bytes salt_bytes token_bytes : list byte)
    (now later : datetime) (username email password : string)
    : H Models.AuthResponse :=
  try_or_500
    (result <- register_user id_bytes salt_bytes now username email password ;;
     success <- lift (py_value_getitem result "success") ;;
     if py_truthy success then
       session_token <- create_user_session token_bytes later username ;;
       message <- lift (py_value_getitem result "message") ;;
       user_id <- lift (py_value_getitem result "user_id") ;;
       user_data <- validated (UserResponse_of user_id (VStr username)
                                 (VStr email) VNone) ;;
       validated (AuthResponse_of true message (Some user_data)
                    (Some session_token))
     else
       message <- lift (py_value_getitem result "message") ;;
       validated (AuthResponse_of false message None None))
    "Error registering user: "
    (fun _ => Text "Registration failed").

(** [POST /api/auth/login] *)
Definition login_endpoint (token_bytes : list byte) (now later : datetime)
    (username password : string) : H Models.AuthResponse :=
  try_or_500
    (result <- authenticate_user now username password ;;
     success <- lift (py_value_getitem result "success") ;;
     if py_truthy success then
       session_token <- create_user_session token_bytes later username ;;
       message <- lift (py_value_getitem result "message") ;;
       data <- lift (py_value_getitem result "user_data") ;;
       user_id <- lift (py_value_getitem data "user_id") ;;
       name <- lift (py_value_getitem data "username") ;;
       email <- lift (py_value_getitem data "email") ;;
       chats <- lift (py_value_getitem data "chats") ;;
       user_data <- validated (UserResponse_of user_id name email chats) ;;
       validated (AuthResponse_of true message (Some user_data)
                    (Some session_token))
     else
       message <- lift (py_value_getitem result "message") ;;
       validated (AuthResponse_of false message None None))
    "Error logging in user: "
    (fun _ => Text "Login failed").

(** [GET /api/auth/me], behind [Depends(get_current_user)]; the handler
    has no [try] of its own. *)
Definition get_current_user_info (now : datetime) (authorization : option string)
    : H Models.UserResponse :=
  h_bind (get_current_user now authorization) (fun current_user =>
  h_bind (fun w => (Sent (get_user_by_username
                            (Models.su_username current_user) w), w))
    (fun user_data =>
  if negb (py_truthy user_data)
  then h_raise (Http (HTTPException 404 (Text "User not found")))
  else
    call_store
      (user_id <- lift (py_value_getitem user_data "user_id") ;;
       username <- lift (py_value_getitem user_data "username") ;;
       email <- lift (py_value_getitem user_data "email") ;;
       chats <- lift (py_value_get user_data "chats" (VDict [])) ;;
       validated (UserResponse_of user_id username email chats)))).

(** [POST /api/auth/logout], behind [Depends(get_current_user)] *)
Definition logout_endpoint (now : datetime) (authorization : option string)
    : H value :=
  h_bind (get_current_user now authorization) (fun current_user =>
  try_or_500
    (logout_user (Models.su_username current_user) ;;
     ret (VDict [ ("success", VBool true);
                  ("message", VStr "Logged out successfully") ]))
    "Error logging out user: "
    (fun _ => Text "Logout failed")).

(** [DELETE /api/chats/{chat_id}], behind [Depends(get_current_user)] *)
Definition delete_chat (now : datetime) (authorization : option string)
    (chat_id : string) : H value :=
  h_bind (get_current_user now authorization) (fun current_user =>
  try_http_or_500
    (h_bind (call_store (delete_user_chat (Models.su_username current_user)
                           chat_id)) (fun success =>
     if negb success
     then h_raise (Http (HTTPException 404 (Text "Chat not found")))
     else h_ret (VDict [ ("success", VBool true);
                         ("message", VStr "Chat deleted successfully") ])))
    "Error deleting chat: "
    (fun e => TextAndError "Error deleting chat: " e)).

(** The loop of [GET /api/chats] that builds [chats_list]. *)
Fixpoint chat_responses (items : list (string * value))
    : M (list Models.ChatResponse) :=
  match items with
  | [] => ret []
  | (chat_id, chat_data) :: rest =>
      title <- lift (py_value_getitem chat_data "title") ;;
      created_at <- lift (py_value_getitem chat_data "created_at") ;;
      last_message_at <- lift (py_value_get chat_data "last_message_at" VNone) ;;
      message_count <- lift (py_value_get chat_data "message_count" (VInt 0)) ;;
      chat <- validated (ChatResponse_of chat_id title created_at
                           last_message_at message_count) ;;
      chats <- chat_responses rest ;;
      ret (chat :: chats)
  end.

End RequestLayer.

(** [x.last_message_at or x.created_at] *)
Definition recency (x : Models.ChatResponse) : string :=
  match Models.cr_last_message_at x with
  | Some (String c s) => String c s
  | _ => Models.cr_created_at x
  end.

(** [chats_list.sort(key=..., reverse=True)]: a stable sort, the larger
    key first; among equal keys the order of the list is kept. *)
Fixpoint insert_recent (x : Models.ChatResponse) (sorted : list Models.ChatResponse)
    : list Models.ChatResponse :=
  match sorted with
  | [] => [x]
  | y :: rest =>
      if String.ltb (recency x) (recency y) then y :: insert_recent x rest
      else x :: sorted
  end.

Definition sort_recent (l : list Models.ChatResponse) : list Models.ChatResponse :=
  fold_right insert_recent [] l.

(** [user_chats.items()] *)
Definition py_items (v : value) : result (list (string * value)) :=
  match v with
  | VDict d => Ok d
  | _ => Raise AttributeError
  end.

Local Open Scope py_scope.

(** [GET /api/chats], behind [Depends(get_current_user)] *)
Definition chats_endpoint (V : validators) (now : datetime)
    (authorization : option string) : H (list Models.ChatResponse) :=
  h_bind (get_current_user V now authorization) (fun current_user =>
  try_or_500
    (user_chats <- (fun w => (Ok (get_user_chats (Models.su_username current_user) w), w)) ;;
     items <- lift (py_items user_chats) ;;
     chats_list <- chat_responses V items ;;
     ret (sort_recent chats_list))
    "Error getting user chats: "
    (fun e => TextAndError "Error getting chats: " e)).

(* ===================================================================== *)
(** ** Vocabulary of the further properties *)
(* ===================================================================== *)

(** The record [register_user] builds. *)
Definition new_user_record (id_bytes salt_bytes : list byte) (now : datetime)
    (username email password : string) : list (string * value) :=
  [ ("user_id", VStr (Encoding.token_urlsafe id_bytes));
    ("username", VStr username);
    ("email", VStr email);
    ("password_hash", VStr (_hash_password salt_bytes password));
    ("created_at", VStr (isoformat now));
    ("last_login", VNone);
    ("chats", VDict []);
    ("is_active", VBool true) ].

(** Some record of the store carries [email]. *)
Definition email_taken (email : string) (us : store) : bool :=
  existsb (fun entry => py_eq_str (py_get "email" (snd entry)) email) us.

(** The file holds exactly the store in memory. *)
Definition in_sync (w : world) : Prop := db_file w = Some (Json (users w)).

(** [is_active] is true, or absent. *)
Definition active (r : list (string * value)) : bool :=
  py_truthy (py_get_default "is_active" (VBool true) r).

(** The stored expiry of [r] reads as a time after [now]. *)
Definition session_live (now : datetime) (r : list (string * value)) : Prop :=
  exists expires,
    fromisoformat_value (py_get_default "session_expires" (VStr "") r)
    = Ok (Naive expires)
    /\ ltb now expires = true.

(** Only [username]'s record carries [token]. *)
Definition token_owner (token username : string) (us : store) : Prop :=
  forall name r, In (name, r) us -> holds_token token r = true -> name = username.

(** The chat [create_user_chat] builds. *)
Definition new_chat (chat_id title : string) (now : datetime)
    : list (string * value) :=
  [ ("chat_id", VStr chat_id);
    ("title", VStr title);
    ("thread_id", VNone);
    ("created_at", VStr (isoformat now));
    ("last_message_at", VNone);
    ("message_count", VInt 0) ].

(** [username] has a chat mapping in which [chat_id] is the chat object
    [chat]. *)
Definition chat_at (username chat_id : string) (w : world)
    (chat : list (string * value)) : Prop :=
  exists r chats,
    dget username (users w) = Some r
    /\ dget "chats" r = Some (VDict chats)
    /\ dget chat_id chats = Some (VDict chat).

(** One [update_chat_last_message] per clock reading, in order. *)
Definition record_messages (nows : list datetime) (username chat_id : string)
    (w : world) : world :=
  fold_left (fun w now => snd (update_chat_last_message now username chat_id w))
    nows w.

(** [us'] is [us] except that records carrying [token] may have lost
    their two session fields. *)
Definition cleared_only (token : string) (us us' : store) : Prop :=
  Forall2 (fun e e' =>
             fst e' = fst e
             /\ (snd e' = snd e
                 \/ (holds_token token (snd e) = true
                     /\ snd e' = clear_session (snd e))))
          us us'.

Definition is_ok {A : Type} (r : result A) : bool :=
  match r with Ok _ => true | Raise _ => false end.

(** The call returns normally. *)
Definition returns (c : call) (w : world) : bool :=
  match c with
  | Register id_bytes salt_bytes now username email password =>
      is_ok (fst (register_user id_bytes salt_bytes now username email password w))
  | Authenticate now username password =>
      is_ok (fst (authenticate_user now username password w))
  | CreateSession token_bytes now username =>
      is_ok (fst (create_user_session token_bytes now username w))
  | ValidateSession now session_token =>
      is_ok (fst (validate_session now session_token w))
  | CreateChat id_bytes now username title =>
      is_ok (fst (create_user_chat id_bytes now username title w))
  | UpdateChatThread username chat_id thread_id =>
      is_ok (fst (update_chat_thread username chat_id thread_id w))
  | UpdateChatLastMessage now username chat_id =>
      is_ok (fst (update_chat_last_message now username chat_id w))
  | DeleteChat username chat_id =>
      is_ok (fst (delete_user_chat username chat_id w))
  | UpdateChatTitle username chat_id new_title =>
      is_ok (fst (update_chat_title username chat_id new_title w))
  | DeactivateUser username => is_ok (fst (deactivate_user username w))
  | Logout username => is_ok (fst (logout_user username w))
  end.

(** The fields that identify a user and hold the credential. *)
Definition identity_fields : list string :=
  ["user_id"; "username"; "email"; "password_hash"; "created_at"].

(** [f] leaves the identity fields of every record alone. *)
Definition stable (f : list (string * value) -> list (string * value)) : Prop :=
  forall r field, In field identity_fields -> dget field (f r) = dget field r.

(** The store still has [username], with the identity fields of [r]. *)
Definition same_user (username : string) (r : list (string * value))
    (us : store) : Prop :=
  exists r', dget username us = Some r'
             /\ forall field, In field identity_fields ->
                              dget field r' = dget field r.

(** Two entries with the same email string are entries of one user. *)
Definition unique_emails (us : store) : Prop :=
  forall name1 r1 name2 r2 email,
    In (name1, r1) us -> In (name2, r2) us ->
    py_get "email" r1 = VStr email -> py_get "email" r2 = VStr email ->
    name1 = name2.

(** Distinct usernames, and distinct emails. *)
Definition unique_users (us : store) : Prop :=
  NoDup (map fst us) /\ unique_emails us.

(** Validation returns a value of the declared type as it is. *)
Definition lawful (V : validators) : Prop :=
  (forall s, as_str V (VStr s) = Some s)
  /\ (forall n, as_int V (VInt n) = Some n)
  /\ (forall d, as_dict V (VDict d) = Some d).

(** The validators that reject every value of another type. *)
Definition strict : validators :=
  mk_validators
    (fun v => match v with VStr s => Some s | _ => None end)
    (fun v => match v with VInt n => Some n | _ => None end)
    (fun v => match v with VDict d => Some d | _ => None end).

(** A stored [thread_id] that is a string, [None] or absent. *)
Definition as_thread (v : value) : option (option string) :=
  match v with
  | VNone => Some None
  | VStr s => Some (Some s)
  | _ => None
  end.

(** [a] may stand before [b] in a list that has the most recent first. *)
Definition not_older (a b : Models.ChatResponse) : Prop :=
  String.leb (recency b) (recency a) = true.

(** Every record has the two fields that [get_all_users] subscripts. *)
Definition listable (us : store) : Prop :=
  forall name r, In (name, r) us ->
                 dmem "email" r = true /\ dmem "created_at" r = true.

(** [v] is the summary [get_all_users] gives of [entry]: a dict with
    exactly five keys. *)
Definition summary_of (entry : string * list (string * value)) (v : value)
    : Prop :=
  exists email created_at last_login is_active,
    v = VDict [ ("username", VStr (fst entry));
                ("email", email);
                ("created_at", created_at);
                ("last_login", last_login);
                ("is_active", is_active) ]
    /\ dget "email" (snd entry) = Some email
    /\ dget "created_at" (snd entry) = Some created_at.

(** The user a call names; [validate_session] names none. *)
Definition subject (c : call) : option string :=
  match c with
  | Register _ _ _ username _ _ => Some username
  | Authenticate _ username _ => Some username
  | CreateSession _ _ username => Some username
  | ValidateSession _ _ => None
  | CreateChat _ _ username _ => Some username
  | UpdateChatThread username _ _ => Some username
  | UpdateChatLastMessage _ username _ => Some username
  | DeleteChat username _ => Some username
  | UpdateChatTitle username _ _ => Some username
  | DeactivateUser username => Some username
  | Logout username => Some username
  end.

(** No record has a [thread_id] of its own (chats have theirs). *)
Definition no_user_thread (us : store) : Prop :=
  forall name r, In (name, r) us -> dget "thread_id" r = None.

(** [f] writes no [thread_id] on a record. *)
Definition threadless (f : list (string * value) -> list (string * value)) : Prop :=
  forall r, dget "thread_id" r = None -> dget "thread_id" (f r) = None.

(** *** Further sample inputs *)

(** Alice with a session that is live at [sample_now]. *)
Definition live_record : list (string * value) :=
  alice_record true
    ++ [ ("session_token", VStr "tok-live");
         ("session_expires", VStr "2024-05-18T08:00:00") ].

Definition live_world : world :=
  let us := [("alice", live_record)] in
  mk_world us (Some (Json us)) true [].

(** Alice, logged in, with three chats: the first has seen a message, the
    other two have not. *)
Definition listing_chats : list (string * value) :=
  [ ("c1", VDict [ ("chat_id", VStr "c1"); ("title", VStr "First");
                   ("thread_id", VNone);
                   ("created_at", VStr "2024-05-02T10:00:00");
                   ("last_message_at", VStr "2024-05-10T10:05:00");
                   ("message_count", VInt 1) ]);
    ("c2", VDict [ ("chat_id", VStr "c2"); ("title", VStr "Second");
                   ("thread_id", VNone);
                   ("created_at", VStr "2024-05-05T10:00:00");
                   ("last_message_at", VNone);
                   ("message_count", VInt 0) ]);
    ("c3", VDict [ ("chat_id", VStr "c3"); ("title", VStr "Third");
                   ("thread_id", VNone);
                   ("created_at", VStr "2024-05-12T10:00:00");
                   ("last_message_at", VNone);
                   ("message_count", VInt 0) ]) ].

Definition listing_world : world :=
  let us := [("alice", dset "chats" (VDict listing_chats) live_record)] in
  mk_world us (Some (Json us)) true [].

(** Alice with her chat, and Bob with a chat of his own. *)
Definition shared_world : world :=
  let us := [ ("alice", dset "chats" (VDict sample_chats) live_record);
              ("bob",
               [ ("user_id", VStr "dXNlci1ib2I");
                 ("username", VStr "bob");
                 ("email", VStr "bob@x.com");
                 ("password_hash", VStr (_hash_password sample_salt2 "hunter2"));
                 ("created_at", VStr "2024-05-03T08:00:00");
                 ("last_login", VNone);
                 ("chats", VDict [("Ym9iLWNoYXQ", VDict sample_chat)]);
                 ("is_active", VBool true) ]) ] in
  mk_world us (Some (Json us)) true [].

(** Alice after a session was opened for her at [sample_now], with the
    token drawn from [sample_salt1]. *)
Definition session_world : world :=
  snd (create_user_session sample_salt1 sample_now "alice" (alice_world true)).

(** An hour after [sample_now]. *)
Definition sample_later : datetime := mk_datetime 2024 5 17 10 30 0 0.

(** Alice with a token whose expiry, written with a space, is in the past
    at [sample_now], and with one that is in the future. *)
Definition spaced_record (token expires : string) : list (string * value) :=
  alice_record true
    ++ [ ("session_token", VStr token); ("session_expires", VStr expires) ].

Definition spaced_past_world : world :=
  let us := [("alice", spaced_record "tok-x" "2024-05-16 09:30:00")] in
  mk_world us (Some (Json us)) true [].

Definition spaced_live_world : world :=
  let us := [("alice", spaced_record "tok-live" "2024-05-18 08:00:00")] in
  mk_world us (Some (Json us)) true [].

(* ===================================================================== *)
(** ** Dictionaries *)
(* ===================================================================== *)

Section DictFacts.
Context {V : Type}.
Implicit Types (d : pydict V) (k : string) (v : V).

Lemma dget_dset_same k v d : dget k (dset k v d) = Some v.
Proof.
  induction d as [|[k' v'] d IH]; simpl.
  - now rewrite String.eqb_refl.
  - destruct (String.eqb k k') eqn:E; simpl; rewrite E; auto.
Qed.

Lemma dget_dset_other k k' v d :
  k' <> k -> dget k' (dset k v d) = dget k' d.
Proof.
  intros Hne. induction d as [|[k0 v0] d IH]; simpl.
  - apply String.eqb_neq in Hne. now rewrite Hne.
  - destruct (String.eqb k k0) eqn:E; simpl.
    + apply String.eqb_eq in E. subst k0.
      apply String.eqb_neq in Hne. now rewrite Hne.
    + now rewrite IH.
Qed.

Lemma dget_dpop_same k d : dget k (dpop k d) = None.
Proof.
  induction d as [|[k' v'] d IH]; simpl; auto.
  destruct (String.eqb k k') eqn:E; simpl; auto. now rewrite E.
Qed.

Lemma dget_dpop_other k k' d :
  k' <> k -> dget k' (dpop k d) = dget k' d.
Proof.
  intros Hne. induction d as [|[k0 v0] d IH]; simpl; auto.
  destruct (String.eqb k k0) eqn:E; simpl.
  - apply String.eqb_eq in E. subst k0.
    apply String.eqb_neq in Hne. now rewrite Hne.
  - now rewrite IH.
Qed.

Lemma dmem_dset_same k v d : dmem k (dset k v d) = true.
Proof. unfold dmem. now rewrite dget_dset_same. Qed.

Lemma dmem_dset_other k k' v d :
  k' <> k -> dmem k' (dset k v d) = dmem k' d.
Proof. intros. unfold dmem. now rewrite dget_dset_other. Qed.

Lemma dmem_true_iff k d : dmem k d = true <-> exists v, dget k d = Some v.
Proof.
  unfold dmem. destruct (dget k d); split; eauto; try discriminate.
  intros [? ?]; discriminate.
Qed.

Lemma dmem_false_iff k d : dmem k d = false <-> dget k d = None.
Proof. unfold dmem. destruct (dget k d); split; congruence. Qed.

Lemma dget_in k v d : dget k d = Some v -> In (k, v) d.
Proof.
  induction d as [|[k' v'] d IH]; simpl; [discriminate|].
  destruct (String.eqb k k') eqn:E.
  - apply String.eqb_eq in E. intros [= ->]. subst. now left.
  - auto.
Qed.

Lemma dmem_keys k d : dmem k d = true <-> In k (map fst d).
Proof.
  unfold dmem. induction d as [|[k' v'] d IH]; simpl.
  - split; [discriminate | tauto].
  - destruct (String.eqb k k') eqn:E.
    + apply String.eqb_eq in E. subst. tauto.
    + apply String.eqb_neq in E. rewrite IH. split; auto.
      intros [H|H]; [congruence | exact H].
Qed.

Lemma keys_dset_present k v d :
  dmem k d = true -> map fst (dset k v d) = map fst d.
Proof.
  unfold dmem. induction d as [|[k' v'] d IH]; simpl; [discriminate|].
  destruct (String.eqb k k') eqn:E; simpl; auto.
  intros H. now rewrite IH.
Qed.

Lemma keys_dset_absent k v d :
  dmem k d = false -> map fst (dset k v d) = map fst d ++ [k].
Proof.
  unfold dmem. induction d as [|[k' v'] d IH]; simpl; auto.
  destruct (String.eqb k k') eqn:E; simpl; [discriminate|].
  intros H. now rewrite IH.
Qed.

Lemma keys_dmodify_at i (f : V -> V) d :
  map fst (dmodify_at i f d) = map fst d.
Proof.
  revert i. induction d as [|[k v] d IH]; intros [|i]; simpl; auto.
  now rewrite IH.
Qed.

Lemma dset_same_value k v d : dget k d = Some v -> dset k v d = d.
Proof.
  induction d as [|[k' v'] d IH]; simpl; [discriminate|].
  destruct (String.eqb k k') eqn:E.
  - now intros [= ->].
  - intros H. now rewrite IH.
Qed.

Lemma dset_dset_same k v v' d : dset k v (dset k v' d) = dset k v d.
Proof.
  induction d as [|[k0 v0] d IH]; simpl.
  - now rewrite String.eqb_refl.
  - destruct (String.eqb k k0) eqn:E; simpl; rewrite E; auto.
    now rewrite IH.
Qed.
End DictFacts.

(* ===================================================================== *)
(** ** Strings: [split], hexadecimal text *)
(* ===================================================================== *)

Lemma count_char_app c s1 s2 :
  count_char c (s1 ++ s2) = (count_char c s1 + count_char c s2)%nat.
Proof. induction s1 as [|a s1 IH]; simpl; auto. rewrite IH. lia. Qed.

Lemma split_not_nil sep s : split sep s <> [].
Proof.
  destruct s as [|c s]; simpl; [discriminate|].
  destruct (Ascii.eqb c sep); [discriminate|].
  destruct (split sep s); discriminate.
Qed.

Lemma split_length sep s : List.length (split sep s) = S (count_char sep s).
Proof.
  induction s as [|c s IH]; simpl; auto.
  destruct (Ascii.eqb c sep); simpl.
  - now rewrite IH.
  - destruct (split sep s) eqn:E; simpl in *; [discriminate | exact IH].
Qed.

Lemma split_without_sep sep s : count_char sep s = O -> split sep s = [s].
Proof.
  induction s as [|c s IH]; simpl; auto.
  destruct (Ascii.eqb c sep); simpl; [discriminate|].
  intros H. now rewrite IH.
Qed.

Lemma split_at_first_sep sep s1 s2 :
  count_char sep s1 = O ->
  split sep (s1 ++ String sep s2) = s1 :: split sep s2.
Proof.
  induction s1 as [|c s1 IH]; simpl.
  - now rewrite Ascii.eqb_refl.
  - destruct (Ascii.eqb c sep); simpl; [discriminate|].
    intros H. now rewrite IH.
Qed.

Lemma append_inv_tail s1 s2 t : (s1 ++ t = s2 ++ t)%string -> s1 = s2.
Proof.
  intros H.
  assert (L : String.length s1 = String.length s2).
  { apply (f_equal String.length) in H.
    assert (A : forall a b, String.length (a ++ b) = (String.length a + String.length b)%nat).
    { induction a; simpl; auto. }
    rewrite !A in H. lia. }
  revert s2 H L. induction s1 as [|c s1 IH]; intros [|c2 s2] H L;
    simpl in *; try discriminate; auto.
  injection H as -> H. f_equal. apply IH; auto.
Qed.

Lemma hex_of_byte_no_colon b : count_char ":" (Encoding.hex_of_byte b) = O.
Proof. destruct b; reflexivity. Qed.

Lemma hex_of_bytes_no_colon bs : count_char ":" (Encoding.hex_of_bytes bs) = O.
Proof.
  induction bs as [|b bs IH]; [reflexivity|].
  change (Encoding.hex_of_bytes (b :: bs))
    with (Encoding.hex_of_byte b ++ Encoding.hex_of_bytes bs)%string.
  now rewrite count_char_app, hex_of_byte_no_colon, IH.
Qed.

Lemma hexdigest_no_colon s : count_char ":" (SHA256.hexdigest s) = O.
Proof. apply hex_of_bytes_no_colon. Qed.




(* ===================================================================== *)
(** ** Tokens: different random bytes give different tokens *)
(* ===================================================================== *)

Lemma in_first (n k : N) : (n < k)%N -> In n (map N.of_nat (seq 0 (N.to_nat k))).
Proof.
  intros H. apply in_map_iff. exists (N.to_nat n). split; [lia|].
  apply in_seq. lia.
Qed.

Lemma b64url_value_digit n :
  (n < 64)%N -> b64url_value (Encoding.b64url_digit n) = n.
Proof.
  intros H.
  assert (Hall : forallb (fun k => N.eqb (b64url_value (Encoding.b64url_digit k)) k)
                   (map N.of_nat (seq 0 (N.to_nat 64))) = true)
    by (vm_compute; reflexivity).
  apply N.eqb_eq. revert n H.
  intros n H. exact (proj1 (forallb_forall _ _) Hall n (in_first n 64 H)).
Qed.

Lemma b64url_digit_inj a b :
  (a < 64)%N -> (b < 64)%N ->
  Encoding.b64url_digit a = Encoding.b64url_digit b -> a = b.
Proof.
  intros Ha Hb H. apply (f_equal b64url_value) in H.
  now rewrite !b64url_value_digit in H.
Qed.

(** The bit operations of the encoder, as arithmetic. *)
Lemma lor_nibbles a b :
  (a < 4)%N -> (b < 16)%N -> N.lor (a * 16) b = (a * 16 + b)%N.
Proof.
  intros Ha Hb.
  assert (Hall : forallb (fun x => forallb (fun y => N.eqb (N.lor (x * 16) y) (x * 16 + y))
                                     (map N.of_nat (seq 0 (N.to_nat 16))))
                   (map N.of_nat (seq 0 (N.to_nat 4))) = true)
    by (vm_compute; reflexivity).
  apply N.eqb_eq.
  exact (proj1 (forallb_forall _ _)
           (proj1 (forallb_forall _ _) Hall a (in_first a 4 Ha)) b (in_first b 16 Hb)).
Qed.

Lemma lor_crumbs a b :
  (a < 16)%N -> (b < 4)%N -> N.lor (a * 4) b = (a * 4 + b)%N.
Proof.
  intros Ha Hb.
  assert (Hall : forallb (fun x => forallb (fun y => N.eqb (N.lor (x * 4) y) (x * 4 + y))
                                     (map N.of_nat (seq 0 (N.to_nat 4))))
                   (map N.of_nat (seq 0 (N.to_nat 16))) = true)
    by (vm_compute; reflexivity).
  apply N.eqb_eq.
  exact (proj1 (forallb_forall _ _)
           (proj1 (forallb_forall _ _) Hall a (in_first a 16 Ha)) b (in_first b 4 Hb)).
Qed.

Lemma sextet_first x : N.shiftr x 2 = (x / 4)%N.
Proof. now rewrite N.shiftr_div_pow2. Qed.

Lemma sextet_second_alone x : N.shiftl (N.land x 3) 4 = (x mod 4 * 16)%N.
Proof.
  change 3%N with (N.ones 2). now rewrite N.land_ones, N.shiftl_mul_pow2.
Qed.

Lemma sextet_second x y :
  (y <= 255)%N ->
  N.lor (N.shiftl (N.land x 3) 4) (N.shiftr y 4) = (x mod 4 * 16 + y / 16)%N.
Proof.
  intros Hy. rewrite sextet_second_alone, N.shiftr_div_pow2.
  change (2 ^ 4)%N with 16%N. apply lor_nibbles.
  - now apply N.mod_lt.
  - apply N.Div0.div_lt_upper_bound. lia.
Qed.

Lemma sextet_third_alone y : N.shiftl (N.land y 15) 2 = (y mod 16 * 4)%N.
Proof.
  change 15%N with (N.ones 4). now rewrite N.land_ones, N.shiftl_mul_pow2.
Qed.

Lemma sextet_third y z :
  (z <= 255)%N ->
  N.lor (N.shiftl (N.land y 15) 2) (N.shiftr z 6) = (y mod 16 * 4 + z / 64)%N.
Proof.
  intros Hz. rewrite sextet_third_alone, N.shiftr_div_pow2.
  change (2 ^ 6)%N with 64%N. apply lor_crumbs.
  - now apply N.mod_lt.
  - apply N.Div0.div_lt_upper_bound. lia.
Qed.

Lemma sextet_fourth z : N.land z 63 = (z mod 64)%N.
Proof. change 63%N with (N.ones 6). now rewrite N.land_ones. Qed.

(** Splits [a] into quotient and remainder by [b], for [lia]. *)
Ltac quotient a b :=
  pose proof (N.div_mod a b ltac:(discriminate));
  pose proof (N.mod_lt a b ltac:(discriminate));
  generalize dependent (N.div a b); generalize dependent (N.modulo a b); intros.

Section SextetArithmetic.
Local Open Scope N_scope.
Variables x x' y y' z z' : N.
Hypotheses (Hx : x <= 255) (Hy : y <= 255) (Hz : z <= 255).
Hypotheses (Hx' : x' <= 255) (Hy' : y' <= 255) (Hz' : z' <= 255).

Lemma sextet_bounds :
  x / 4 < 64 /\ x mod 4 * 16 < 64 /\ x mod 4 * 16 + y / 16 < 64
  /\ y mod 16 * 4 < 64 /\ y mod 16 * 4 + z / 64 < 64 /\ z mod 64 < 64.
Proof.
  clear Hx' Hy' Hz'.
  quotient x 4. quotient y 16. quotient z 64. lia.
Qed.

Lemma one_byte_sextets :
  x / 4 = x' / 4 -> x mod 4 * 16 = x' mod 4 * 16 -> x = x'.
Proof.
  clear Hy Hz Hy' Hz'.
  quotient x 4. quotient x' 4. lia.
Qed.

Lemma two_byte_sextets :
  x / 4 = x' / 4 ->
  x mod 4 * 16 + y / 16 = x' mod 4 * 16 + y' / 16 ->
  y mod 16 * 4 = y' mod 16 * 4 ->
  x = x' /\ y = y'.
Proof.
  clear Hz Hz'.
  quotient x 4. quotient x' 4. quotient y 16. quotient y' 16. lia.
Qed.

Lemma three_byte_sextets :
  x / 4 = x' / 4 ->
  x mod 4 * 16 + y / 16 = x' mod 4 * 16 + y' / 16 ->
  y mod 16 * 4 + z / 64 = y' mod 16 * 4 + z' / 64 ->
  z mod 64 = z' mod 64 ->
  x = x' /\ y = y' /\ z = z'.
Proof.
  quotient x 4. quotient x' 4. quotient y 16. quotient y' 16.
  quotient z 64. quotient z' 64. lia.
Qed.
End SextetArithmetic.

Lemma to_N_injective a b : Byte.to_N a = Byte.to_N b -> a = b.
Proof.
  intros H. pose proof (Byte.of_to_N a) as Ha. rewrite H, Byte.of_to_N in Ha.
  now injection Ha.
Qed.

(** The encoder, with its bit operations read as arithmetic. *)
Lemma b64url_nopad_one a :
  Encoding.b64url_nopad [a]
  = String (Encoding.b64url_digit (Byte.to_N a / 4))
      (String (Encoding.b64url_digit (Byte.to_N a mod 4 * 16)) EmptyString).
Proof.
  cbn [Encoding.b64url_nopad]. cbv zeta.
  now rewrite sextet_first, sextet_second_alone.
Qed.

Lemma b64url_nopad_two a b :
  Encoding.b64url_nopad [a; b]
  = String (Encoding.b64url_digit (Byte.to_N a / 4))
      (String (Encoding.b64url_digit
                 (Byte.to_N a mod 4 * 16 + Byte.to_N b / 16))
         (String (Encoding.b64url_digit (Byte.to_N b mod 16 * 4)) EmptyString)).
Proof.
  cbn [Encoding.b64url_nopad]. cbv zeta.
  rewrite sextet_first, sextet_third_alone.
  now rewrite sextet_second by apply Byte.to_N_bounded.
Qed.

Lemma b64url_nopad_three a b c rest :
  Encoding.b64url_nopad (a :: b :: c :: rest)
  = String (Encoding.b64url_digit (Byte.to_N a / 4))
      (String (Encoding.b64url_digit
                 (Byte.to_N a mod 4 * 16 + Byte.to_N b / 16))
         (String (Encoding.b64url_digit
                    (Byte.to_N b mod 16 * 4 + Byte.to_N c / 64))
            (String (Encoding.b64url_digit (Byte.to_N c mod 64))
               (Encoding.b64url_nopad rest)))).
Proof.
  cbn [Encoding.b64url_nopad]. cbv zeta.
  rewrite sextet_first, sextet_fourth.
  rewrite sextet_second by apply Byte.to_N_bounded.
  now rewrite sextet_third by apply Byte.to_N_bounded.
Qed.

(** Equal digits of sextets are equal sextets. *)
Ltac sextets_of_digits :=
  repeat match goal with
         | E : Encoding.b64url_digit _ = Encoding.b64url_digit _ |- _ =>
             apply b64url_digit_inj in E; [|assumption|assumption]
         end.

(** [base64.urlsafe_b64encode(bs).rstrip(b'=')] is injective. *)
Lemma b64url_nopad_injective : forall n bs bs',
  (List.length bs <= n)%nat ->
  Encoding.b64url_nopad bs = Encoding.b64url_nopad bs' -> bs = bs'.
Proof.
  induction n as [n IH] using (well_founded_induction lt_wf).
  intros bs bs' Hlen H.
  destruct bs as [|a [|b [|c rest]]], bs' as [|a' [|b' [|c' rest']]];
    rewrite ?b64url_nopad_one, ?b64url_nopad_two, ?b64url_nopad_three in H;
    try discriminate H; try reflexivity.
  - injection H as D1 D2.
    destruct (sextet_bounds (Byte.to_N a) 0 0 (Byte.to_N_bounded a)
                ltac:(lia) ltac:(lia)) as (? & ? & _).
    destruct (sextet_bounds (Byte.to_N a') 0 0 (Byte.to_N_bounded a')
                ltac:(lia) ltac:(lia)) as (? & ? & _).
    sextets_of_digits.
    f_equal. apply to_N_injective.
    apply (one_byte_sextets (Byte.to_N a) (Byte.to_N a'));
      auto using Byte.to_N_bounded.
  - injection H as D1 D2 D3.
    destruct (sextet_bounds (Byte.to_N a) (Byte.to_N b) 0
                (Byte.to_N_bounded a) (Byte.to_N_bounded b) ltac:(lia))
      as (? & _ & ? & ? & _).
    destruct (sextet_bounds (Byte.to_N a') (Byte.to_N b') 0
                (Byte.to_N_bounded a') (Byte.to_N_bounded b') ltac:(lia))
      as (? & _ & ? & ? & _).
    sextets_of_digits.
    destruct (two_byte_sextets (Byte.to_N a) (Byte.to_N a') (Byte.to_N b)
                (Byte.to_N b')) as [E1 E2]; auto using Byte.to_N_bounded.
    apply to_N_injective in E1, E2. now subst.
  - injection H as D1 D2 D3 D4 Hrest.
    destruct (sextet_bounds (Byte.to_N a) (Byte.to_N b) (Byte.to_N c)
                (Byte.to_N_bounded a) (Byte.to_N_bounded b) (Byte.to_N_bounded c))
      as (? & _ & ? & _ & ? & ?).
    destruct (sextet_bounds (Byte.to_N a') (Byte.to_N b') (Byte.to_N c')
                (Byte.to_N_bounded a') (Byte.to_N_bounded b')
                (Byte.to_N_bounded c'))
      as (? & _ & ? & _ & ? & ?).
    sextets_of_digits.
    destruct (three_byte_sextets (Byte.to_N a) (Byte.to_N a') (Byte.to_N b)
                (Byte.to_N b') (Byte.to_N c) (Byte.to_N c'))
      as (E1 & E2 & E3); auto using Byte.to_N_bounded.
    apply to_N_injective in E1, E2, E3. subst.
    f_equal. f_equal. f_equal.
    apply (IH (List.length rest)); [cbn [List.length] in Hlen; lia | lia | exact Hrest].
Qed.

(** Two draws of random bytes that differ give two tokens that differ. *)
Lemma session_token_injective b1 b2 :
  _generate_session_token b1 = _generate_session_token b2 -> b1 = b2.
Proof. apply (b64url_nopad_injective (List.length b1)). lia. Qed.

(* ===================================================================== *)
(** ** The credential store *)
(* ===================================================================== *)

Section CredentialStore.

Variables (password : string) (salt_bytes : list byte).

Let salt := Encoding.token_hex salt_bytes.

Lemma split_hashed other :
  split ":" (_hash_password salt_bytes other)
  = [salt; SHA256.hexdigest (other ++ salt)].
Proof.
  unfold _hash_password. fold salt.
  change (salt ++ ":" ++ SHA256.hexdigest (other ++ salt))%string
    with (salt ++ String ":" (SHA256.hexdigest (other ++ salt)))%string.
  rewrite split_at_first_sep by apply hex_of_bytes_no_colon.
  now rewrite split_without_sep by apply hexdigest_no_colon.
Qed.

Lemma verify_password_body_hashed other :
  verify_password_body password (VStr (_hash_password salt_bytes other))
  = Ok (String.eqb (SHA256.hexdigest (password ++ salt))
                   (SHA256.hexdigest (other ++ salt))).
Proof. unfold verify_password_body. now rewrite split_hashed. Qed.

Lemma verify_own_hash :
  _verify_password password (VStr (_hash_password salt_bytes password)) = true.
Proof.
  unfold _verify_password. rewrite verify_password_body_hashed.
  apply String.eqb_refl.
Qed.

Lemma verify_other_hash other :
  other <> password ->
  ~ sha256_collision (password ++ salt) (other ++ salt) ->
  _verify_password password (VStr (_hash_password salt_bytes other)) = false.
Proof.
  intros Hne Hfree. unfold _verify_password.
  rewrite verify_password_body_hashed. apply String.eqb_neq.
  intros Hdigest. apply Hfree. split; [|exact Hdigest].
  intros Happ. apply append_inv_tail in Happ. congruence.
Qed.

End CredentialStore.


(** *** SHA-256 has finitely many digests *)








(** *** The pigeonhole principle *)








(** C9.  On a credential string that does not hold exactly one [:]
    (none, or more than one), the unpacking of [split(':')] raises inside
    the [try], and [_verify_password] answers [False].  It cannot raise:
    every exception of the body is turned into [False], and its result is
    a [bool]. *)
Theorem verify_fails_closed (password credential : string) :
  count_char ":" credential <> 1%nat ->
  verify_password_body password (VStr credential) = Raise ValueError
  /\ _verify_password password (VStr credential) = false.
Proof.
  intros Hcount.
  assert (Hbody : verify_password_body password (VStr credential) = Raise ValueError).
  { unfold verify_password_body.
    pose proof (split_length ":" credential) as Hlen.
    destruct (split ":" credential) as [|a [|b [|c l]]]; auto.
    simpl in Hlen. exfalso. apply Hcount. lia. }
  split; [exact Hbody|]. unfold _verify_password. now rewrite Hbody.
Qed.

Lemma verify_non_string_is_false password v :
  (forall s, v <> VStr s) -> _verify_password password v = false.
Proof. intros H. destruct v; auto. now destruct (H s). Qed.

(* ===================================================================== *)
(** ** Loading, registering, authenticating *)
(* ===================================================================== *)

(** Unfolds the plumbing of [M] so that a run computes. *)
Ltac run :=
  cbv beta iota delta
    [bind ret raise lift try_except get_users put_users logger_error
     logger_info update_record update_record_at json_load json_dump
     _save_users with_users with_db_file with_log];
  cbn [users db_file writable log fst snd].

Lemma save_users_writable w :
  writable w = true ->
  _save_users w = (Ok tt, with_db_file (Some (Json (users w))) w).
Proof. intros H. unfold _save_users, try_except, json_dump. now rewrite H. Qed.

Lemma save_users_readonly w :
  writable w = false ->
  _save_users w
  = (Raise OSError,
     with_log (log w ++ [LogError "Error saving users database: " OSError]) w).
Proof. intros H. unfold _save_users, try_except, json_dump. now rewrite H. Qed.

(** C1, as the code has it.  [__init__] turns a missing file into an empty
    store, and a file that cannot be read or parsed into an empty store as
    well: the exception is logged, nothing is raised, and the file is left
    as it was.  A file that parses becomes the store. *)
Theorem init_falls_back_to_empty_store
    (us : store) (wr : bool) (lg : list log_record) :
  __init__ (mk_world us None wr lg) = (Ok tt, mk_world [] None wr lg)
  /\ (forall e,
        __init__ (mk_world us (Some (Broken e)) wr lg)
        = (Ok tt,
           mk_world [] (Some (Broken e)) wr
             (lg ++ [LogError "Error loading users database: " e])))
  /\ (forall u,
        __init__ (mk_world us (Some (Json u)) wr lg)
        = (Ok tt, mk_world u (Some (Json u)) wr lg)).
Proof. repeat split. Qed.

(** C1 fails as stated: on a file that does not parse, [_load_users] and
    [__init__] return normally with an empty store. *)
Lemma corrupt_file_is_not_propagated :
  db_file corrupt_world = Some (Broken JSONDecodeError)
  /\ fst (_load_users corrupt_world) = Ok []
  /\ fst (__init__ corrupt_world) = Ok tt
  /\ users (snd (__init__ corrupt_world)) = []
  /\ ~ (exists e, fst (__init__ corrupt_world) = Raise e).
Proof.
  repeat split. intros [e H]. discriminate H.
Qed.

(** C4.  [register_user] answers "Username already exists" when the
    username is a key of the store, and "Email already exists" when the
    username is free and some record carries the email; in both cases the
    world (store in memory, file, log) is left exactly as it was. *)
Theorem register_duplicate_rejected
    (id_bytes salt_bytes : list byte) (now : datetime)
    (username email password : string) (w : world) :
  (dmem username (users w) = true ->
   register_user id_bytes salt_bytes now username email password w
   = (Ok (failure "Username already exists"), w))
  /\ (dmem username (users w) = false ->
      (exists name r, In (name, r) (users w)
                      /\ dget "email" r = Some (VStr email)) ->
      register_user id_bytes salt_bytes now username email password w
      = (Ok (failure "Email already exists"), w)).
Proof.
  split.
  - intros Hmem. unfold register_user. run. now rewrite Hmem.
  - intros Hfree (name & r & Hin & Hemail). unfold register_user. run.
    rewrite Hfree.
    assert (Hscan : existsb
              (fun entry => py_eq_str (py_get "email" (snd entry)) email)
              (users w) = true).
    { apply existsb_exists. exists (name, r). split; [exact Hin|].
      simpl. unfold py_get. rewrite Hemail. simpl. apply String.eqb_refl. }
    now rewrite Hscan.
Qed.

(** A deactivated account is reported before the password is looked at. *)
Lemma authenticate_deactivated now username password w r :
  dget username (users w) = Some r ->
  py_truthy (py_get_default "is_active" (VBool true) r) = false ->
  authenticate_user now username password w
  = (Ok (failure "Account is deactivated"), w).
Proof.
  intros Hr Hoff. unfold authenticate_user. run. now rewrite Hr, Hoff.
Qed.

(** C2, as the code has it.  For a user whose account is active, a
    password that fails verification gets exactly the result an unknown
    username gets, and neither call changes the world. *)
Theorem authenticate_failure_uniform
    (now1 now2 : datetime) (w : world)
    (username password unknown any_password : string)
    (r : record) (stored : value) :
  dget username (users w) = Some r ->
  py_truthy (py_get_default "is_active" (VBool true) r) = true ->
  dget "password_hash" r = Some stored ->
  _verify_password password stored = false ->
  dget unknown (users w) = None ->
  authenticate_user now1 username password w
  = (Ok (failure "Invalid username or password"), w)
  /\ authenticate_user now2 unknown any_password w
     = (Ok (failure "Invalid username or password"), w).
Proof.
  intros Hr Hon Hstored Hwrong Hunknown. split.
  - unfold authenticate_user. run. rewrite Hr, Hon. cbn [negb].
    unfold py_getitem. rewrite Hstored, Hwrong. reflexivity.
  - unfold authenticate_user. run. now rewrite Hunknown.
Qed.

(** C2 fails as stated: alice exists and is deactivated, bob does not
    exist; a wrong password for alice and any password for bob give
    different failure messages. *)
Lemma deactivated_user_is_distinguishable :
  dmem "alice" (users (alice_world false)) = true
  /\ dmem "bob" (users (alice_world false)) = false
  /\ _verify_password "wrongpw" (py_get "password_hash" (alice_record false)) = false
  /\ fst (authenticate_user sample_now "alice" "wrongpw" (alice_world false))
     = Ok (failure "Account is deactivated")
  /\ fst (authenticate_user sample_now "bob" "wrongpw" (alice_world false))
     = Ok (failure "Invalid username or password")
  /\ fst (authenticate_user sample_now "alice" "wrongpw" (alice_world false))
     <> fst (authenticate_user sample_now "bob" "wrongpw" (alice_world false)).
Proof.
  repeat split; try (vm_compute; reflexivity).
  vm_compute. discriminate.
Qed.

(* ===================================================================== *)
(** ** Dates: [isoformat] and [fromisoformat], [timedelta(hours=24)] *)
(* ===================================================================== *)

Section DatetimeFacts.

Local Open Scope Z_scope.

Lemma digit_value_char d :
  0 <= d <= 9 -> digit_value (digit_char d) = Some d.
Proof.
  intros H.
  assert (C : d = 0 \/ d = 1 \/ d = 2 \/ d = 3 \/ d = 4 \/ d = 5 \/ d = 6
              \/ d = 7 \/ d = 8 \/ d = 9) by lia.
  repeat (destruct C as [-> | C]; [reflexivity|]). subst. reflexivity.
Qed.

Lemma take_digits_zero_padded w : forall n rest,
  0 <= n < 10 ^ Z.of_nat w ->
  take_digits w (zero_padded w n ++ rest) = Some (n, rest).
Proof.
  induction w as [|w IH]; intros n rest Hn.
  - simpl in *. f_equal. f_equal. lia.
  - rewrite Nat2Z.inj_succ, Z.pow_succ_r in Hn by lia.
    assert (Hp : 0 < 10 ^ Z.of_nat w) by (apply Z.pow_pos_nonneg; lia).
    cbn [zero_padded take_digits String.append].
    rewrite digit_value_char.
    2:{ split; [apply Z.div_pos; lia|].
        assert (n / 10 ^ Z.of_nat w < 10); [|lia].
        apply Z.div_lt_upper_bound; lia. }
    rewrite IH by (apply Z.mod_pos_bound; lia).
    f_equal. f_equal.
    rewrite (Z.div_mod n (10 ^ Z.of_nat w)) at 3 by lia. lia.
Qed.

Lemma append_empty_r s : (s ++ "")%string = s.
Proof. induction s; simpl; congruence. Qed.

Lemma expect_head c s : expect c (String c EmptyString ++ s) = Some s.
Proof. simpl. now rewrite Ascii.eqb_refl. Qed.

Lemma days_in_month_bounds y m : 28 <= days_in_month y m <= 31.
Proof.
  unfold days_in_month. destruct (is_leap y);
  repeat match goal with
         | |- context [match ?x with _ => _ end] => destruct x
         end; lia.
Qed.

Ltac unpack_valid H :=
  unfold valid, in_range in H;
  repeat (apply andb_prop in H; destruct H as [H ?]);
  repeat match goal with
         | E : (_ <=? _) = true |- _ => apply Z.leb_le in E
         end.

Lemma parse_fraction_isoformat us :
  0 <= us <= 999999 ->
  parse_fraction (if (us =? 0)%Z then "" else "." ++ zero_padded 6 us)%string
  = Some us.
Proof.
  intros H. destruct (us =? 0) eqn:E.
  - apply Z.eqb_eq in E. now subst.
  - cbn [parse_fraction String.append]. rewrite Ascii.eqb_refl.
    rewrite <- (append_empty_r (zero_padded 6 us)).
    now rewrite take_digits_zero_padded by (cbn; lia).
Qed.

Lemma parse_time_isoformat hh mm ss us fraction :
  0 <= hh <= 23 -> 0 <= mm <= 59 -> 0 <= ss <= 59 ->
  parse_fraction fraction = Some us ->
  parse_time (zero_padded 2 hh ++ ":" ++ zero_padded 2 mm ++ ":"
              ++ zero_padded 2 ss ++ fraction)%string
  = Some (hh, mm, ss, us).
Proof.
  intros Hh Hm Hs Hf. unfold parse_time.
  rewrite take_digits_zero_padded by (cbn; lia).
  cbn [String.append]. unfold expect at 1. rewrite Ascii.eqb_refl.
  rewrite take_digits_zero_padded by (cbn; lia).
  cbn [String.append]. unfold expect at 1. rewrite Ascii.eqb_refl.
  rewrite take_digits_zero_padded by (cbn; lia).
  now rewrite Hf.
Qed.

(** The sample function reads back what [isoformat] wrote. *)
Lemma isoparse_isoformat d :
  valid d = true -> isoparse (isoformat d) = Ok (Naive d).
Proof.
  intros Hv. unfold isoparse.
  assert (Hparse : parse (isoformat d) = Some d).
  { pose proof Hv as Hr. unpack_valid Hr.
    pose proof (days_in_month_bounds (year d) (month d)).
    unfold parse, isoformat.
    rewrite take_digits_zero_padded by (cbn; lia). rewrite expect_head.
    rewrite take_digits_zero_padded by (cbn; lia). rewrite expect_head.
    rewrite take_digits_zero_padded by (cbn; lia).
    cbn [String.append].
    match goal with
    | |- context [parse_time ?s] =>
        assert (Htime : parse_time s
                        = Some (hour d, minute d, second d, microsecond d))
          by (apply parse_time_isoformat;
              [lia | lia | lia | apply parse_fraction_isoformat; lia]);
        rewrite Htime
    end.
    now destruct d. }
  now rewrite Hparse, Hv.
Qed.

Ltac pack_valid :=
  unfold valid, in_range; cbn [year month day hour minute second microsecond];
  repeat (apply andb_true_intro; split); apply Z.leb_le; try lia.

(** A day later is again a date, and a later one. *)
Lemma add_24_hours_valid d d' :
  valid d = true -> add_24_hours d = Ok d' -> valid d' = true.
Proof.
  intros Hv. pose proof Hv as Hr. unpack_valid Hr.
  unfold add_24_hours.
  destruct (day d <? days_in_month (year d) (month d)) eqn:Ed.
  - apply Z.ltb_lt in Ed. intros [= <-]. pack_valid.
  - destruct (month d <? 12) eqn:Em.
    + apply Z.ltb_lt in Em. intros [= <-].
      pose proof (days_in_month_bounds (year d) (month d + 1)). pack_valid.
    + destruct (year d <? 9999) eqn:Ey; [|discriminate].
      apply Z.ltb_lt in Ey. intros [= <-].
      pose proof (days_in_month_bounds (year d + 1) 1). pack_valid.
Qed.

Lemma lex_ltb_irrefl l : lex_ltb l l = false.
Proof.
  induction l as [|x l IH]; simpl; auto.
  now rewrite Z.ltb_irrefl, Z.eqb_refl, IH.
Qed.

Lemma ltb_irrefl d : ltb d d = false.
Proof. apply lex_ltb_irrefl. Qed.

Lemma add_24_hours_later d d' :
  add_24_hours d = Ok d' -> ltb d d' = true.
Proof.
  unfold add_24_hours, ltb, fields.
  destruct (day d <? days_in_month (year d) (month d)) eqn:Ed.
  - intros [= <-]. cbn [year month day hour minute second microsecond lex_ltb].
    rewrite !Z.eqb_refl, !Z.ltb_irrefl. cbn [orb andb].
    apply orb_true_intro. left. apply Z.ltb_lt. lia.
  - destruct (month d <? 12) eqn:Em.
    + intros [= <-]. cbn [year month day hour minute second microsecond lex_ltb].
      rewrite !Z.eqb_refl, !Z.ltb_irrefl. cbn [orb andb].
      apply orb_true_intro. left. apply Z.ltb_lt. lia.
    + destruct (year d <? 9999) eqn:Ey; [|discriminate].
      intros [= <-]. cbn [year month day hour minute second microsecond lex_ltb].
      apply orb_true_intro. left. apply Z.ltb_lt. lia.
Qed.

(** *** Twenty-four hours, counted *)

Lemma days_before_month_next y m :
  1 <= m <= 11 ->
  days_before_month y (m + 1) = days_before_month y m + days_in_month y m.
Proof.
  intros H.
  assert (C : m = 1 \/ m = 2 \/ m = 3 \/ m = 4 \/ m = 5 \/ m = 6 \/ m = 7
              \/ m = 8 \/ m = 9 \/ m = 10 \/ m = 11) by lia.
  unfold days_before_month, days_in_month.
  destruct (is_leap y);
    repeat (destruct C as [-> | C]; [reflexivity|]); subst; reflexivity.
Qed.

Lemma days_in_year y :
  days_before_month y 12 + 31 = if is_leap y then 366 else 365.
Proof.
  unfold days_before_month, days_in_month. now destruct (is_leap y).
Qed.

Lemma days_before_year_next y :
  days_before_year (y + 1)
  = days_before_year y + (if is_leap y then 366 else 365).
Proof.
  unfold days_before_year, is_leap.
  replace (y + 1 - 1) with y by lia.
  destruct (Z.eqb_spec (y mod 4) 0), (Z.eqb_spec (y mod 100) 0),
    (Z.eqb_spec (y mod 400) 0); cbn [andb orb negb];
    Z.div_mod_to_equations; lia.
Qed.

(** The day after [d] is the next day of the calendar. *)
Lemma add_24_hours_next_day d d' :
  valid d = true -> add_24_hours d = Ok d' -> toordinal d' = toordinal d + 1.
Proof.
  intros Hv. pose proof Hv as Hr. unpack_valid Hr.
  unfold add_24_hours, toordinal.
  destruct (day d <? days_in_month (year d) (month d)) eqn:Ed.
  - intros [= <-]. cbn [year month day]. lia.
  - apply Z.ltb_ge in Ed. destruct (month d <? 12) eqn:Em.
    + apply Z.ltb_lt in Em. intros [= <-]. cbn [year month day].
      rewrite days_before_month_next by lia. lia.
    + apply Z.ltb_ge in Em. destruct (year d <? 9999) eqn:Ey; [|discriminate].
      intros [= <-]. cbn [year month day].
      assert (Hm : month d = 12) by lia. rewrite Hm in *.
      rewrite days_before_year_next.
      pose proof (days_in_year (year d)) as Hy.
      change (days_in_month (year d) 12) with 31 in *.
      change (days_before_month (year d + 1) 1) with 0. lia.
Qed.

(** [d + timedelta(hours=24)] is twenty-four hours after [d]. *)
Lemma add_24_hours_elapsed d d' :
  valid d = true -> add_24_hours d = Ok d' ->
  microseconds d' = microseconds d + twenty_four_hours.
Proof.
  intros Hv Hadd.
  pose proof (add_24_hours_next_day d d' Hv Hadd) as Hday.
  assert (Htime : hour d' = hour d /\ minute d' = minute d
                  /\ second d' = second d /\ microsecond d' = microsecond d).
  { unfold add_24_hours in Hadd.
    destruct (day d <? _); [|destruct (month d <? 12);
                             [|destruct (year d <? 9999); [|discriminate]]];
      injection Hadd as <-; now cbn. }
  unfold microseconds, twenty_four_hours.
  destruct Htime as (-> & -> & -> & ->). rewrite Hday. lia.
Qed.

End DatetimeFacts.

(* ===================================================================== *)
(** ** The session manager *)
(* ===================================================================== *)

Lemma py_eq_str_true v s : py_eq_str v s = true <-> v = VStr s.
Proof.
  destruct v; simpl; split; try discriminate.
  - intros H. apply String.eqb_eq in H. now subst.
  - intros [= ->]. apply String.eqb_refl.
Qed.

Lemma holds_token_set token r :
  holds_token token (dset "session_token" (VStr token) r) = true.
Proof.
  unfold holds_token, py_get. rewrite dget_dset_same. simpl.
  apply String.eqb_refl.
Qed.

Lemma holds_token_cleared token r : holds_token token (clear_session r) = false.
Proof.
  unfold holds_token, py_get, clear_session.
  rewrite dget_dpop_other by discriminate. now rewrite dget_dpop_same.
Qed.

Lemma dmodify_at_length {V} (f : V -> V) (done : pydict V) k v rest :
  dmodify_at (List.length done) f (done ++ (k, v) :: rest)
  = done ++ (k, f v) :: rest.
Proof. induction done as [|[k' v'] done IH]; simpl; congruence. Qed.

Section ValidateEntry.
Variables (now : datetime) (token : string) (i : nat)
          (username : string) (user_data : record) (w : world).

Let stored_expiry := py_get_default "session_expires" (VStr "") user_data.

Lemma validate_entry_other :
  holds_token token user_data = false ->
  validate_entry now token i username user_data w = (Ok None, w).
Proof.
  unfold holds_token. intros H. unfold validate_entry. now rewrite H.
Qed.

Lemma validate_entry_unreadable e :
  holds_token token user_data = true ->
  fromisoformat_value stored_expiry = Raise e ->
  validate_entry now token i username user_data w = (Ok None, w).
Proof.
  unfold holds_token, stored_expiry. intros H Hp.
  unfold validate_entry. rewrite H. run. now rewrite Hp.
Qed.

(** An aware expiry cannot be compared with the naive clock: the
    [TypeError] is swallowed like a failure to read. *)
Lemma validate_entry_aware expires utcoffset :
  holds_token token user_data = true ->
  fromisoformat_value stored_expiry = Ok (Aware expires utcoffset) ->
  validate_entry now token i username user_data w = (Ok None, w).
Proof.
  unfold holds_token, stored_expiry. intros H Hp.
  unfold validate_entry. rewrite H. run. now rewrite Hp.
Qed.

Lemma validate_entry_live expires user_id :
  holds_token token user_data = true ->
  fromisoformat_value stored_expiry = Ok (Naive expires) ->
  ltb now expires = true ->
  dget "user_id" user_data = Some user_id ->
  validate_entry now token i username user_data w
  = (Ok (Some (identity username user_id (py_get "thread_id" user_data))), w).
Proof.
  unfold holds_token, stored_expiry. intros H Hp Hlt Hid.
  unfold validate_entry. rewrite H. run. rewrite Hp. cbn [datetime_lt].
  rewrite Hlt. unfold py_getitem. now rewrite Hid.
Qed.

Lemma validate_entry_live_no_id expires :
  holds_token token user_data = true ->
  fromisoformat_value stored_expiry = Ok (Naive expires) ->
  ltb now expires = true ->
  dget "user_id" user_data = None ->
  validate_entry now token i username user_data w = (Ok None, w).
Proof.
  unfold holds_token, stored_expiry. intros H Hp Hlt Hid.
  unfold validate_entry. rewrite H. run. rewrite Hp. cbn [datetime_lt].
  rewrite Hlt. unfold py_getitem. now rewrite Hid.
Qed.

Lemma validate_entry_expired expires :
  holds_token token user_data = true ->
  fromisoformat_value stored_expiry = Ok (Naive expires) ->
  ltb now expires = false ->
  validate_entry now token i username user_data w = (Ok None, expire_at i w).
Proof.
  unfold holds_token, stored_expiry. intros H Hp Hlt.
  unfold validate_entry. rewrite H.
  unfold try_except, bind, lift. rewrite Hp. cbn [datetime_lt]. rewrite Hlt.
  unfold update_record_at, expire_at, with_users.
  cbn [users db_file writable log].
  match goal with
  | |- context [_save_users ?x] => destruct (_save_users x) as [[[]|e] w']
  end; reflexivity.
Qed.

(** The loop body returns only for a record that carries the token, and
    then returns that entry's key as [username]. *)
Lemma validate_entry_returns v w' :
  validate_entry now token i username user_data w = (Ok (Some v), w') ->
  holds_token token user_data = true
  /\ exists user_id thread_id, v = identity username user_id thread_id.
Proof.
  destruct (holds_token token user_data) eqn:H.
  2:{ rewrite validate_entry_other by exact H. discriminate. }
  destruct (fromisoformat_value stored_expiry) as [[expires|expires off]|e] eqn:Hp.
  2:{ rewrite (validate_entry_aware expires off) by assumption. discriminate. }
  2:{ rewrite (validate_entry_unreadable e) by assumption. discriminate. }
  destruct (ltb now expires) eqn:Hlt.
  2:{ rewrite (validate_entry_expired expires) by assumption. discriminate. }
  destruct (dget "user_id" user_data) as [user_id|] eqn:Hid.
  2:{ rewrite (validate_entry_live_no_id expires) by assumption. discriminate. }
  rewrite (validate_entry_live expires user_id) by assumption.
  intros [= <- <-]. split; eauto.
Qed.

Lemma validate_entry_never_raises e w' :
  validate_entry now token i username user_data w <> (Raise e, w').
Proof.
  destruct (holds_token token user_data) eqn:H.
  2:{ rewrite validate_entry_other by exact H. discriminate. }
  destruct (fromisoformat_value stored_expiry) as [[expires|expires off]|e'] eqn:Hp.
  2:{ rewrite (validate_entry_aware expires off) by assumption. discriminate. }
  2:{ rewrite (validate_entry_unreadable e') by assumption. discriminate. }
  destruct (ltb now expires) eqn:Hlt.
  2:{ rewrite (validate_entry_expired expires) by assumption. discriminate. }
  destruct (dget "user_id" user_data) as [user_id|] eqn:Hid.
  2:{ rewrite (validate_entry_live_no_id expires) by assumption. discriminate. }
  rewrite (validate_entry_live expires user_id) by assumption. discriminate.
Qed.
End ValidateEntry.

(** A scan over entries none of which carries the token returns [None]
    and touches nothing. *)
Lemma validate_scan_unused now token : forall items i w,
  token_unused token items ->
  validate_scan now token i items w = (Ok VNone, w).
Proof.
  induction items as [|[name r] items IH]; intros i w Hun; [reflexivity|].
  cbn [validate_scan]. unfold bind.
  rewrite validate_entry_other by (apply (Hun name); now left).
  apply IH. intros n r' Hin. apply (Hun n). now right.
Qed.

(** The scan stops at the first record carrying the token when that
    record's session is live. *)
Lemma validate_scan_finds now token username r expires user_id :
  holds_token token r = true ->
  fromisoformat_value (py_get_default "session_expires" (VStr "") r)
  = Ok (Naive expires) ->
  ltb now expires = true ->
  dget "user_id" r = Some user_id ->
  forall us i w,
    token_unused token us ->
    dmem username us = true ->
    validate_scan now token i (dset username r us) w
    = (Ok (identity username user_id (py_get "thread_id" r)), w).
Proof.
  intros Hh Hp Hlt Hid.
  induction us as [|[k v] us IH]; intros i w Hun Hmem; [discriminate|].
  cbn [dset]. unfold dmem in Hmem. cbn [dget] in Hmem.
  destruct (String.eqb username k) eqn:E.
  - apply String.eqb_eq in E. subst k. cbn [validate_scan]. unfold bind.
    now rewrite (validate_entry_live now token i username r w expires user_id).
  - cbn [validate_scan]. unfold bind.
    rewrite validate_entry_other by (apply (Hun k); now left).
    apply IH; [|exact Hmem].
    intros n r' Hin. apply (Hun n). now right.
Qed.

Lemma update_record_found username f w r :
  dget username (users w) = Some r ->
  update_record username f w
  = (Ok tt, with_users (dset username (f r) (users w)) w).
Proof. intros H. unfold update_record. now rewrite H. Qed.

Lemma create_session_unknown token_bytes now username w :
  dmem username (users w) = false ->
  create_user_session token_bytes now username w
  = (Ok (_generate_session_token token_bytes), w).
Proof. intros H. unfold create_user_session. run. now rewrite H. Qed.

Lemma create_session_known token_bytes now username w r expires :
  dget username (users w) = Some r ->
  add_24_hours now = Ok expires ->
  writable w = true ->
  let token := _generate_session_token token_bytes in
  let us := dset username (grant token expires r) (users w) in
  create_user_session token_bytes now username w
  = (Ok token, mk_world us (Some (Json us)) true (log w)).
Proof.
  intros Hr Hexp Hwr token us. unfold create_user_session.
  assert (Hmem : dmem username (users w) = true) by (unfold dmem; now rewrite Hr).
  unfold bind at 1. unfold get_users. rewrite Hmem.
  unfold bind, lift, ret.
  rewrite (update_record_found _ _ _ r Hr). rewrite Hexp.
  rewrite (update_record_found _ _ _ (dset "session_token" (VStr token) r))
    by (cbn [users with_users]; apply dget_dset_same).
  cbn [users with_users]. rewrite dset_dset_same.
  rewrite save_users_writable by exact Hwr.
  unfold with_db_file, with_users. cbn [users db_file writable log].
  now rewrite Hwr.
Qed.

Lemma token_unused_tail token entry us :
  token_unused token (entry :: us) -> token_unused token us.
Proof. intros H n r Hin. apply (H n). now right. Qed.

(** C7.  After [create_user_session] returned a token for an existing
    user, [validate_session] of that token returns that user's [username]
    and [user_id] and changes nothing: at the very time of the grant, and
    at any time before the expiry written (24 hours after the grant).
    This for every [datetime.fromisoformat] that reads back what
    [isoformat] wrote. *)
Theorem granted_session_validates
    (token_bytes : list byte) (now : datetime) (username : string)
    (w : world) (r : record) (user_id : value) (expires : datetime) :
  reads_isoformat ->
  dget username (users w) = Some r ->
  dget "user_id" r = Some user_id ->
  token_unused (_generate_session_token token_bytes) (users w) ->
  writable w = true ->
  valid now = true ->
  add_24_hours now = Ok expires ->
  exists w',
    create_user_session token_bytes now username w
    = (Ok (_generate_session_token token_bytes), w')
    /\ validate_session now (_generate_session_token token_bytes) w'
       = (Ok (identity username user_id (py_get "thread_id" r)), w')
    /\ forall later,
         ltb later expires = true ->
         validate_session later (_generate_session_token token_bytes) w'
         = (Ok (identity username user_id (py_get "thread_id" r)), w').
Proof.
  intros Hreads Hr Hid Hfresh Hwr Hvalid Hexp.
  set (token := _generate_session_token token_bytes) in *.
  eexists. split.
  { now apply (create_session_known token_bytes now username w r expires). }
  assert (Hlater : forall later,
             ltb later expires = true ->
             validate_session later token
               (mk_world (dset username (grant token expires r) (users w))
                  (Some (Json (dset username (grant token expires r) (users w))))
                  true (log w))
             = (Ok (identity username user_id (py_get "thread_id" r)),
                mk_world (dset username (grant token expires r) (users w))
                  (Some (Json (dset username (grant token expires r) (users w))))
                  true (log w))).
  { intros later Hsoon.
    unfold validate_session, bind, get_users. cbn [users].
    assert (Hthread : py_get "thread_id" r
                      = py_get "thread_id" (grant token expires r)).
    { unfold py_get, grant. now rewrite !dget_dset_other by discriminate. }
    rewrite Hthread.
    apply (validate_scan_finds later token username
             (grant token expires r) expires user_id).
    - unfold grant, holds_token, py_get.
      rewrite dget_dset_other by discriminate. rewrite dget_dset_same.
      simpl. apply String.eqb_refl.
    - unfold grant, py_get_default. rewrite dget_dset_same.
      cbn [fromisoformat_value].
      apply Hreads.
      now apply (add_24_hours_valid now).
    - exact Hsoon.
    - unfold grant. now rewrite !dget_dset_other by discriminate.
    - exact Hfresh.
    - unfold dmem. now rewrite Hr. }
  split; [|exact Hlater].
  apply Hlater. now apply add_24_hours_later.
Qed.

Lemma has_holder_false token us :
  has_holder token us = false <-> token_unused token us.
Proof.
  unfold has_holder, token_unused. split.
  - intros H name r Hin.
    destruct (holds_token token r) eqn:E; auto.
    assert (X : existsb (fun entry => holds_token token (snd entry)) us = true).
    { apply existsb_exists. now exists (name, r). }
    congruence.
  - intros H.
    destruct (existsb _ us) eqn:E; auto.
    apply existsb_exists in E. destruct E as ([name r] & Hin & Hh).
    simpl in Hh. rewrite (H name r Hin) in Hh. discriminate.
Qed.


Lemma clear_holders_unused token us :
  token_unused token us -> clear_holders token us = us.
Proof.
  induction us as [|[k r] us IH]; intros H; [reflexivity|].
  cbn [clear_holders map fst snd]. rewrite (H k r) by now left.
  f_equal. apply IH. eapply token_unused_tail; eauto.
Qed.

Lemma expire_at_users i w :
  users (expire_at i w)
  = dmodify_at i (dpop "session_expires")
      (dmodify_at i (dpop "session_token") (users w)).
Proof.
  unfold expire_at, _save_users, try_except, json_dump, with_users.
  cbn [writable]. now destruct (writable w).
Qed.

Lemma expire_at_writable i w : writable (expire_at i w) = writable w.
Proof.
  unfold expire_at, _save_users, try_except, json_dump, with_users.
  cbn [writable]. now destruct (writable w).
Qed.

Lemma expire_at_saved i w :
  writable w = true ->
  db_file (expire_at i w) = Some (Json (users (expire_at i w)))
  /\ log (expire_at i w) = log w.
Proof.
  intros H. unfold expire_at, _save_users, try_except, json_dump, with_users.
  cbn [writable]. now rewrite H.
Qed.



(* ===================================================================== *)
(** ** Reachable states keep the keys of the store distinct *)
(* ===================================================================== *)

Section Keeps.
Variable Q : list (string * list (string * value)) -> Prop.
Context {A : Type}.

Lemma keeps_ret (a : A) w : Q (users w) -> keeps Q (ret a) w.
Proof. auto. Qed.

Lemma keeps_raise e w : Q (users w) -> keeps Q (@raise A e) w.
Proof. auto. Qed.

Lemma keeps_lift (r : result A) w : Q (users w) -> keeps Q (lift r) w.
Proof. auto. Qed.

Lemma keeps_bind {B} (c : M A) (k : A -> M B) w :
  keeps Q c w ->
  (forall a, keeps Q c w -> keeps Q (k a) (snd (c w))) ->
  keeps Q (bind c k) w.
Proof.
  unfold keeps, bind. intros Hc Hk.
  specialize (fun a => Hk a Hc).
  destruct (c w) as [[a|e] w']; cbn [snd] in *; auto.
Qed.

Lemma keeps_try_except (c : M A) (h : exn -> M A) w :
  keeps Q c w ->
  (forall e, keeps Q c w -> keeps Q (h e) (snd (c w))) ->
  keeps Q (try_except c h) w.
Proof.
  unfold keeps, try_except. intros Hc Hh.
  specialize (fun e => Hh e Hc).
  destruct (c w) as [[a|e] w']; cbn [snd] in *; auto.
Qed.

Lemma keeps_bind_get_users (k : list (string * list (string * value)) -> M A) w :
  keeps Q (k (users w)) w -> keeps Q (bind get_users k) w.
Proof. auto. Qed.
End Keeps.

Section KeepsPrimitives.
Variable Q : list (string * list (string * value)) -> Prop.

Lemma keeps_logger_error m e w : Q (users w) -> keeps Q (logger_error m e) w.
Proof. auto. Qed.

Lemma keeps_logger_info m w : Q (users w) -> keeps Q (logger_info m) w.
Proof. auto. Qed.

Lemma keeps_save_users w : Q (users w) -> keeps Q _save_users w.
Proof.
  unfold keeps, _save_users, try_except, json_dump.
  now destruct (writable w).
Qed.
End KeepsPrimitives.

(** *** Distinct keys *)

Lemma distinct_update_record username f w :
  distinct_keys (users w) -> keeps distinct_keys (update_record username f) w.
Proof.
  unfold keeps, distinct_keys, update_record. intros H.
  destruct (dget username (users w)) as [r|] eqn:E; cbn [snd users with_users]; auto.
  rewrite keys_dset_present; auto. unfold dmem. now rewrite E.
Qed.

Lemma distinct_update_record_at i f w :
  distinct_keys (users w) -> keeps distinct_keys (update_record_at i f) w.
Proof.
  unfold keeps, distinct_keys, update_record_at. cbn [snd users with_users].
  now rewrite keys_dmodify_at.
Qed.

Lemma distinct_put_users_new username (r : list (string * value)) w :
  distinct_keys (users w) ->
  dmem username (users w) = false ->
  keeps distinct_keys (put_users (dset username r (users w))) w.
Proof.
  unfold keeps, distinct_keys, put_users. cbn [snd users with_users].
  intros H Hfree. rewrite keys_dset_absent by exact Hfree.
  apply NoDup_app; [exact H | repeat constructor; intros [] |].
  intros k Hk [<-|[]].
  apply dmem_keys in Hk. congruence.
Qed.

(** *** A token that no record carries *)

Lemma in_dset {V} (d : list (string * V)) k v n x :
  In (n, x) (dset k v d) -> x = v \/ In (n, x) d.
Proof.
  induction d as [|[k0 v0] d IH]; cbn [dset]; intros Hin.
  - destruct Hin as [[= <- <-]|[]]. now left.
  - destruct (String.eqb k k0).
    + destruct Hin as [[= <- <-]|Hin]; [now left | right; now right].
    + destruct Hin as [Hin|Hin]; [right; now left|].
      destruct (IH Hin); [now left | right; now right].
Qed.

Lemma in_dmodify_at {V} (f : V -> V) : forall (d : list (string * V)) i n x,
  In (n, x) (dmodify_at i f d) -> In (n, x) d \/ exists y, In (n, y) d /\ x = f y.
Proof.
  induction d as [|[k v] d IH]; intros [|i] n x Hin; cbn [dmodify_at] in Hin;
    try now destruct Hin.
  - destruct Hin as [[= <- <-]|Hin].
    + right. exists v. split; [now left | reflexivity].
    + left. now right.
  - destruct Hin as [Hin|Hin]; [left; now left|].
    destruct (IH i n x Hin) as [?|(y & ? & ?)].
    + left. now right.
    + right. exists y. split; [now right | assumption].
Qed.

Section Unused.
Variable token : string.

Lemma unused_update_record username f w :
  harmless token f ->
  token_unused token (users w) ->
  keeps (token_unused token) (update_record username f) w.
Proof.
  unfold keeps, update_record. intros Hf H.
  destruct (dget username (users w)) as [r|] eqn:E; cbn [snd users with_users]; auto.
  intros n x Hin. apply in_dset in Hin. destruct Hin as [->|Hin].
  - apply Hf. apply dget_in in E. eapply H; eauto.
  - eapply H; eauto.
Qed.

Lemma unused_update_record_at i f w :
  harmless token f ->
  token_unused token (users w) ->
  keeps (token_unused token) (update_record_at i f) w.
Proof.
  unfold keeps, update_record_at. cbn [snd users with_users]. intros Hf H.
  intros n x Hin. apply in_dmodify_at in Hin.
  destruct Hin as [Hin|(y & Hin & ->)]; [|apply Hf]; eapply H; eauto.
Qed.

Lemma unused_put_users username (r : list (string * value)) w :
  holds_token token r = false ->
  token_unused token (users w) ->
  keeps (token_unused token) (put_users (dset username r (users w))) w.
Proof.
  unfold keeps, put_users. cbn [snd users with_users]. intros Hr H.
  intros n x Hin. apply in_dset in Hin. destruct Hin as [->|Hin]; auto.
  eapply H; eauto.
Qed.

Lemma harmless_dset field v :
  field <> "session_token" -> harmless token (dset field v).
Proof.
  intros Hne r Hr. unfold holds_token, py_get in *.
  now rewrite dget_dset_other by congruence.
Qed.

Lemma harmless_dset_token other :
  String.eqb other token = false ->
  harmless token (dset "session_token" (VStr other)).
Proof.
  intros Hne r _. unfold holds_token, py_get.
  now rewrite dget_dset_same.
Qed.

Lemma harmless_dpop field : harmless token (dpop field).
Proof.
  intros r Hr. unfold holds_token, py_get in *.
  destruct (String.eqb field "session_token") eqn:E.
  - apply String.eqb_eq in E. subst. now rewrite dget_dpop_same.
  - apply String.eqb_neq in E. now rewrite dget_dpop_other by congruence.
Qed.

Lemma harmless_write_chat chat_id chat_data :
  harmless token (fun r =>
              match dget "chats" r with
              | Some (VDict chats) =>
                  dset "chats" (VDict (dset chat_id chat_data chats)) r
              | _ => r
              end).
Proof.
  intros r Hr. destruct (dget "chats" r) as [[]|]; auto.
  apply harmless_dset; [discriminate | exact Hr].
Qed.
End Unused.

(** Peels one construct of a computation off a [keeps] goal. *)
Ltac keeps_step :=
  first
    [ assumption
    | apply keeps_ret
    | apply keeps_raise
    | apply keeps_lift
    | apply keeps_logger_error
    | apply keeps_logger_info
    | apply keeps_save_users
    | apply distinct_update_record
    | apply distinct_update_record_at
    | apply distinct_put_users_new
    | apply unused_update_record;
        [first [ apply harmless_dpop
               | apply harmless_write_chat
               | apply harmless_dset_token; assumption
               | apply harmless_dset; discriminate ] |]
    | apply unused_update_record_at; [apply harmless_dpop|]
    | apply unused_put_users; [reflexivity|]
    | apply keeps_bind_get_users
    | apply keeps_bind; [|intros ? ?]
    | apply keeps_try_except; [|intros ? ?]
    | match goal with
      | |- keeps _ (if ?b then _ else _) _ => destruct b eqn:?
      | |- keeps _ (match ?x with _ => _ end) _ => destruct x eqn:?
      | |- keeps _ (let _ := _ in _) _ => cbv zeta
      end ].

Ltac keeps_all := repeat keeps_step.

Section KeepsOperations.
Variable Q : list (string * list (string * value)) -> Prop.
Hypothesis Q_update_record :
  forall username chat_id chat_data w,
    Q (users w) -> keeps Q (write_chat username chat_id chat_data) w.
Hypothesis Q_update_record_at :
  forall i field w,
    Q (users w) -> keeps Q (update_record_at i (dpop field)) w.

Lemma keeps_chat_exists username chat_id w :
  Q (users w) -> keeps Q (chat_exists username chat_id) w.
Proof. intros H. unfold chat_exists. keeps_all. Qed.

Lemma keeps_chat_object username chat_id w :
  Q (users w) -> keeps Q (chat_object username chat_id) w.
Proof. intros H. unfold chat_object. keeps_all. Qed.

Lemma keeps_validate_entry now token i username user_data w :
  Q (users w) -> keeps Q (validate_entry now token i username user_data) w.
Proof.
  intros H. unfold validate_entry.
  repeat first [apply Q_update_record_at | keeps_step].
Qed.

Lemma keeps_validate_scan now token : forall items i w,
  Q (users w) -> keeps Q (validate_scan now token i items) w.
Proof.
  induction items as [|[k r] items IH]; intros i w H; cbn [validate_scan].
  - keeps_all.
  - apply keeps_bind; [now apply keeps_validate_entry|].
    intros [v|] Hk; [keeps_all | now apply IH].
Qed.

Lemma keeps_validate_session now token w :
  Q (users w) -> keeps Q (validate_session now token) w.
Proof.
  intros H. unfold validate_session. apply keeps_bind_get_users.
  now apply keeps_validate_scan.
Qed.

Lemma keeps_update_chat_thread username chat_id thread_id w :
  Q (users w) -> keeps Q (update_chat_thread username chat_id thread_id) w.
Proof.
  intros H. unfold update_chat_thread.
  repeat first [ apply keeps_chat_exists | apply keeps_chat_object
               | apply Q_update_record | keeps_step ].
Qed.

Lemma keeps_update_chat_last_message now username chat_id w :
  Q (users w) -> keeps Q (update_chat_last_message now username chat_id) w.
Proof.
  intros H. unfold update_chat_last_message.
  repeat first [ apply keeps_chat_exists | apply keeps_chat_object
               | apply Q_update_record | keeps_step ].
Qed.

Lemma keeps_update_chat_title username chat_id new_title w :
  Q (users w) -> keeps Q (update_chat_title username chat_id new_title) w.
Proof.
  intros H. unfold update_chat_title.
  repeat first [ apply keeps_chat_exists | apply keeps_chat_object
               | apply Q_update_record | keeps_step ].
Qed.
End KeepsOperations.

Lemma distinct_write_chat username chat_id chat_data w :
  distinct_keys (users w) ->
  keeps distinct_keys (write_chat username chat_id chat_data) w.
Proof. intros H. unfold write_chat. keeps_all. Qed.

Lemma unused_write_chat token username chat_id chat_data w :
  token_unused token (users w) ->
  keeps (token_unused token) (write_chat username chat_id chat_data) w.
Proof. intros H. unfold write_chat. keeps_all. Qed.

Lemma unused_pop_at token i field w :
  token_unused token (users w) ->
  keeps (token_unused token) (update_record_at i (dpop field)) w.
Proof. intros H. keeps_all. Qed.

(** Every call keeps the keys of [self.users] distinct. *)
Lemma perform_store_ok c w : store_ok w -> store_ok (perform c w).
Proof.
  unfold store_ok. intros H. destruct c; cbn [perform];
    match goal with
    | |- NoDup (map fst (users (snd (?c w)))) => change (keeps distinct_keys c w)
    end.
  - unfold register_user. keeps_all.
  - unfold authenticate_user. keeps_all.
  - unfold create_user_session. keeps_all.
  - apply keeps_validate_session; auto using distinct_update_record_at.
  - unfold create_user_chat. keeps_all.
  - apply keeps_update_chat_thread; auto using distinct_write_chat.
  - apply keeps_update_chat_last_message; auto using distinct_write_chat.
  - unfold delete_user_chat.
    repeat first [apply keeps_chat_exists | keeps_step].
  - apply keeps_update_chat_title; auto using distinct_write_chat.
  - unfold deactivate_user. keeps_all.
  - unfold logout_user. keeps_all.
Qed.

Lemma reachable_store_ok w : reachable w -> store_ok w.
Proof.
  induction 1 as [f wr Hf | c w _ IH | f wr w _ IH].
  - destruct f as [[e|u]|]; cbn; try constructor. exact Hf.
  - now apply perform_store_ok.
  - exact IH.
Qed.

(** A call that does not write the token leaves it unused. *)
Lemma perform_unused token c w :
  draws token c = false ->
  token_unused token (users w) ->
  token_unused token (users (perform c w)).
Proof.
  intros Hd H. destruct c; cbn [perform draws] in *;
    match goal with
    | |- token_unused token (users (snd (?c w))) =>
        change (keeps (token_unused token) c w)
    end.
  - unfold register_user. keeps_all.
  - unfold authenticate_user. keeps_all.
  - unfold create_user_session, _generate_session_token in *. keeps_all.
  - apply keeps_validate_session; auto using unused_pop_at.
  - unfold create_user_chat. keeps_all.
  - apply keeps_update_chat_thread; auto using unused_write_chat.
  - apply keeps_update_chat_last_message; auto using unused_write_chat.
  - unfold delete_user_chat.
    repeat first [apply keeps_chat_exists | keeps_step].
  - apply keeps_update_chat_title; auto using unused_write_chat.
  - unfold deactivate_user. keeps_all.
  - unfold logout_user. keeps_all.
Qed.

Lemma perform_all_unused token : forall cs w,
  forallb (fun c => negb (draws token c)) cs = true ->
  token_unused token (users w) ->
  token_unused token (users (perform_all cs w)).
Proof.
  induction cs as [|c cs IH]; intros w Hcs H; [exact H|].
  cbn [forallb] in Hcs. apply andb_prop in Hcs. destruct Hcs as [Hc Hcs].
  cbn [perform_all fold_left]. apply IH; [exact Hcs|].
  apply perform_unused; [|exact H]. now destruct (draws token c).
Qed.

(* ===================================================================== *)
(** ** One session per user *)
(* ===================================================================== *)

Lemma nodup_keys_functional {V} (d : list (string * V)) k a b :
  NoDup (map fst d) -> In (k, a) d -> In (k, b) d -> a = b.
Proof.
  induction d as [|[k0 v0] d IH]; cbn [map fst]; intros Hnd Ha Hb; [destruct Ha|].
  inversion Hnd as [|? ? Hnot Hnd']; subst.
  destruct Ha as [Ha|Ha], Hb as [Hb|Hb].
  - congruence.
  - injection Ha as -> ->. exfalso. apply Hnot.
    apply in_map_iff. now exists (k, b).
  - injection Hb as -> ->. exfalso. apply Hnot.
    apply in_map_iff. now exists (k, a).
  - now apply IH.
Qed.

Lemma in_dset_nodup {V} (d : list (string * V)) k v n x :
  NoDup (map fst d) ->
  In (n, x) (dset k v d) ->
  (n = k /\ x = v) \/ (n <> k /\ In (n, x) d).
Proof.
  induction d as [|[k0 v0] d IH]; cbn [dset map fst]; intros Hnd Hin.
  - destruct Hin as [[= <- <-]|[]]. now left.
  - inversion Hnd as [|? ? Hnot Hnd']; subst.
    destruct (String.eqb k k0) eqn:E.
    + apply String.eqb_eq in E. subst k0.
      destruct Hin as [[= <- <-]|Hin]; [now left|].
      right. split; [|now right].
      intros ->. apply Hnot. apply in_map_iff. now exists (k, x).
    + apply String.eqb_neq in E.
      destruct Hin as [[= <- <-]|Hin].
      * right. split; [congruence | now left].
      * destruct (IH Hnd' Hin) as [?|[? ?]]; [now left|].
        right. split; [assumption | now right].
Qed.

(** What the scan returns, other than [None], is the identity of an entry
    that carries the token. *)
Lemma validate_scan_returns now token : forall items i w v w',
  validate_scan now token i items w = (Ok v, w') ->
  v <> VNone ->
  exists name r user_id thread_id,
    In (name, r) items
    /\ holds_token token r = true
    /\ v = identity name user_id thread_id.
Proof.
  induction items as [|[k r] items IH]; intros i w v w' Hrun Hv.
  - cbn in Hrun. injection Hrun as <- _. now destruct Hv.
  - cbn [validate_scan] in Hrun. unfold bind in Hrun.
    destruct (validate_entry now token i k r w) as [[[v0|]|e] w1] eqn:E.
    + apply validate_entry_returns in E. destruct E as (Hh & uid & th & ->).
      injection Hrun as <- _. exists k, r, uid, th. repeat split; auto.
      now left.
    + destruct (IH _ _ _ _ Hrun Hv) as (n & r' & uid & th & Hin & Hh & ->).
      exists n, r', uid, th. repeat split; auto. now right.
    + discriminate.
Qed.

Lemma holds_token_functional t1 t2 r :
  holds_token t1 r = true -> holds_token t2 r = true -> t1 = t2.
Proof.
  unfold holds_token. intros H1 H2.
  apply py_eq_str_true in H1. apply py_eq_str_true in H2. congruence.
Qed.

Lemma identity_username n1 n2 u1 u2 t1 t2 :
  identity n1 u1 t1 = identity n2 u2 t2 -> n1 = n2.
Proof. now intros [= ->]. Qed.

(** In a store with distinct keys, two tokens that validate as the same
    user are the same token. *)
Lemma one_live_token now1 now2 t1 t2 name id1 id2 th1 th2 w :
  store_ok w ->
  fst (validate_session now1 t1 w) = Ok (identity name id1 th1) ->
  fst (validate_session now2 t2 w) = Ok (identity name id2 th2) ->
  t1 = t2.
Proof.
  unfold validate_session, bind, get_users. intros Hok H1 H2.
  destruct (validate_scan now1 t1 0 (users w) w) as [r1 w1] eqn:E1.
  destruct (validate_scan now2 t2 0 (users w) w) as [r2 w2] eqn:E2.
  cbn [fst] in *. subst r1 r2.
  apply validate_scan_returns in E1; [|discriminate].
  apply validate_scan_returns in E2; [|discriminate].
  destruct E1 as (n1 & r1 & ? & ? & Hin1 & Hh1 & Hid1).
  destruct E2 as (n2 & r2 & ? & ? & Hin2 & Hh2 & Hid2).
  apply identity_username in Hid1. apply identity_username in Hid2. subst n1 n2.
  assert (r1 = r2) by (eapply nodup_keys_functional; eauto). subst r2.
  eapply holds_token_functional; eauto.
Qed.

Lemma add_24_hours_defined now :
  valid now = true -> (year now < 9999)%Z ->
  exists expires, add_24_hours now = Ok expires.
Proof.
  intros _ Hy. unfold add_24_hours.
  destruct (day now <? _)%Z; [eauto|].
  destruct (month now <? 12)%Z; [eauto|].
  apply Z.ltb_lt in Hy. rewrite Hy. eauto.
Qed.

(** C6.  In a reachable state, [create_user_session] for an existing user
    draws a token and writes it, with an expiry, on that user's record in
    place of whatever was there, and saves.  The token is fresh: random
    draws that differ give tokens that differ.  The expiry is the clock
    reading plus twenty-four hours, counted in microseconds.  A token
    that was drawn from other bytes, and more generally any string other
    than the new token, that no other user's record carries, no longer
    validates from then on; and in every reachable state two tokens that
    validate as the same user are equal. *)
Theorem one_session_per_user
    (token_bytes : list byte) (now : datetime) (username : string)
    (w : world) (r : record) :
  reachable w ->
  dget username (users w) = Some r ->
  writable w = true ->
  valid now = true ->
  (year now < 9999)%Z ->
  exists expires w',
    create_user_session token_bytes now username w
    = (Ok (_generate_session_token token_bytes), w')
    /\ reachable w'
    /\ add_24_hours now = Ok expires
    /\ microseconds expires = (microseconds now + twenty_four_hours)%Z
    /\ users w' = dset username
                    (grant (_generate_session_token token_bytes) expires r)
                    (users w)
    /\ (exists r',
          dget username (users w') = Some r'
          /\ py_get "session_token" r'
             = VStr (_generate_session_token token_bytes)
          /\ py_get "session_expires" r' = VStr (isoformat expires)
          /\ forall field,
               field <> "session_token" -> field <> "session_expires" ->
               dget field r' = dget field r)
    /\ db_file w' = Some (Json (users w'))
    /\ (forall other_bytes,
          other_bytes <> token_bytes ->
          _generate_session_token other_bytes
          <> _generate_session_token token_bytes)
    /\ (forall old_bytes cs later,
          old_bytes <> token_bytes ->
          (forall name r', In (name, r') (users w) ->
                           holds_token (_generate_session_token old_bytes) r' = true ->
                           name = username) ->
          forallb (fun c => negb (draws (_generate_session_token old_bytes) c)) cs
          = true ->
          validate_session later (_generate_session_token old_bytes)
            (perform_all cs w')
          = (Ok VNone, perform_all cs w'))
    /\ (forall old cs later,
          old <> _generate_session_token token_bytes ->
          (forall name r', In (name, r') (users w) ->
                           holds_token old r' = true -> name = username) ->
          forallb (fun c => negb (draws old c)) cs = true ->
          validate_session later old (perform_all cs w')
          = (Ok VNone, perform_all cs w'))
    /\ (forall v now1 now2 t1 t2 name id1 id2 th1 th2,
          reachable v ->
          fst (validate_session now1 t1 v) = Ok (identity name id1 th1) ->
          fst (validate_session now2 t2 v) = Ok (identity name id2 th2) ->
          t1 = t2).
Proof.
  intros Hreach Hr Hwr Hvalid Hyear.
  destruct (add_24_hours_defined now Hvalid Hyear) as [expires Hexp].
  set (token := _generate_session_token token_bytes).
  pose proof (create_session_known token_bytes now username w r expires
                Hr Hexp Hwr) as Hrun.
  cbv zeta in Hrun. fold token in Hrun.
  assert (Hfresh : forall other_bytes,
             other_bytes <> token_bytes ->
             _generate_session_token other_bytes <> token).
  { intros other_bytes Hne Heq. apply Hne.
    now apply session_token_injective. }
  assert (Hold : forall old cs later,
             old <> token ->
             (forall name r', In (name, r') (users w) ->
                              holds_token old r' = true -> name = username) ->
             forallb (fun c => negb (draws old c)) cs = true ->
             validate_session later old
               (perform_all cs
                  (mk_world (dset username (grant token expires r) (users w))
                     (Some (Json (dset username (grant token expires r) (users w))))
                     true (log w)))
             = (Ok VNone,
                perform_all cs
                  (mk_world (dset username (grant token expires r) (users w))
                     (Some (Json (dset username (grant token expires r) (users w))))
                     true (log w)))).
  { intros old cs later Hne Honly Hcs.
    unfold validate_session, bind, get_users.
    apply validate_scan_unused. apply perform_all_unused; [exact Hcs|].
    cbn [users]. intros name r' Hin.
    apply in_dset_nodup in Hin; [|now apply reachable_store_ok].
    destruct Hin as [[-> ->]|[Hother Hin]].
    + unfold holds_token, grant, py_get.
      rewrite dget_dset_other by discriminate. rewrite dget_dset_same.
      cbn [py_eq_str]. apply String.eqb_neq. congruence.
    + destruct (holds_token old r') eqn:E; auto.
      now destruct (Hother (Honly name r' Hin E)). }
  exists expires. eexists. split; [exact Hrun|].
  cbn [users db_file].
  split; [|split; [exact Hexp|split; [|split; [reflexivity|split;
           [|split; [reflexivity|split; [exact Hfresh|split; [|split]]]]]]]].
  - match goal with
    | |- reachable ?w' =>
        replace w' with (perform (CreateSession token_bytes now username) w)
          by (cbn [perform]; now rewrite Hrun)
    end.
    now constructor.
  - now apply add_24_hours_elapsed.
  - exists (grant token expires r). rewrite dget_dset_same.
    unfold grant, py_get. repeat split.
    + rewrite dget_dset_other by discriminate. now rewrite dget_dset_same.
    + now rewrite dget_dset_same.
    + intros field H1 H2. now rewrite !dget_dset_other by assumption.
  - intros old_bytes cs later Hne. apply Hold. now apply Hfresh.
  - exact Hold.
  - intros v now1 now2 t1 t2 name id1 id2 th1 th2 Hv.
    apply one_live_token. now apply reachable_store_ok.
Qed.

(* ===================================================================== *)
(** ** A session for a user that does not exist *)
(* ===================================================================== *)

(** C10.  For a username that is not in the store, [create_user_session]
    returns the generated token and leaves the world as it was: no record
    changes and nothing is written.  The token being fresh (no record
    carries it), [validate_session] of it returns [None] from then on,
    after any sequence of calls that do not happen to write the same token
    again. *)
Theorem session_for_unknown_user_is_dead
    (token_bytes : list byte) (now : datetime) (username : string) (w : world) :
  dmem username (users w) = false ->
  token_unused (_generate_session_token token_bytes) (users w) ->
  create_user_session token_bytes now username w
  = (Ok (_generate_session_token token_bytes), w)
  /\ forall cs later,
       forallb (fun c => negb (draws (_generate_session_token token_bytes) c)) cs
       = true ->
       validate_session later (_generate_session_token token_bytes)
         (perform_all cs w)
       = (Ok VNone, perform_all cs w).
Proof.
  intros Hfree Hfresh. split.
  - now apply create_session_unknown.
  - intros cs later Hcs. unfold validate_session, bind, get_users.
    apply validate_scan_unused. now apply perform_all_unused.
Qed.

(* ===================================================================== *)
(** ** The chat registry: [update_chat_last_message] *)
(* ===================================================================== *)

Lemma chat_exists_unknown_user username chat_id w :
  dget username (users w) = None ->
  chat_exists username chat_id w = (Ok false, w).
Proof. intros H. unfold chat_exists. run. now rewrite H. Qed.

Lemma chat_exists_no_chats username chat_id w r :
  dget username (users w) = Some r ->
  dget "chats" r = None ->
  chat_exists username chat_id w = (Ok false, w).
Proof.
  intros H Hc. unfold chat_exists. run. rewrite H.
  unfold py_get_default. now rewrite Hc.
Qed.

Lemma chat_exists_dict username chat_id w r chats :
  dget username (users w) = Some r ->
  dget "chats" r = Some (VDict chats) ->
  chat_exists username chat_id w = (Ok (dmem chat_id chats), w).
Proof.
  intros H Hc. unfold chat_exists. run. rewrite H.
  unfold py_get_default. now rewrite Hc.
Qed.

Lemma chat_object_found username chat_id w r chats chat :
  dget username (users w) = Some r ->
  dget "chats" r = Some (VDict chats) ->
  dget chat_id chats = Some chat ->
  chat_object username chat_id w = (Ok chat, w).
Proof.
  intros H Hc Hchat. unfold chat_object. run. rewrite H.
  unfold py_getitem. rewrite Hc. cbn [py_value_getitem].
  unfold py_getitem. now rewrite Hchat.
Qed.

Lemma write_chat_found username chat_id chat_data w r chats :
  dget username (users w) = Some r ->
  dget "chats" r = Some (VDict chats) ->
  write_chat username chat_id chat_data w
  = (Ok tt,
     with_users
       (dset username
          (dset "chats" (VDict (dset chat_id chat_data chats)) r) (users w)) w).
Proof.
  intros H Hc. unfold write_chat.
  rewrite (update_record_found _ _ _ r H). now rewrite Hc.
Qed.

(** C8.  For an existing user and an existing chat whose [message_count]
    is an integer (or absent, which counts as 0), [update_chat_last_message]
    sets [last_message_at] to the current time and [message_count] to one
    more, saves, and changes no other field of the chat, no other chat, no
    other field of the user and no other user.  When the user is unknown,
    or has no chat of that id, it returns without changing the world. *)
Theorem record_message_updates
    (now : datetime) (username chat_id : string) (w : world) :
  (forall r chats chat count,
     dget username (users w) = Some r ->
     dget "chats" r = Some (VDict chats) ->
     dget chat_id chats = Some (VDict chat) ->
     py_get_default "message_count" (VInt 0) chat = VInt count ->
     writable w = true ->
     exists chat' chats' r' us',
       update_chat_last_message now username chat_id w
       = (Ok tt, mk_world us' (Some (Json us')) true (log w))
       /\ dget username us' = Some r'
       /\ dget "chats" r' = Some (VDict chats')
       /\ dget chat_id chats' = Some (VDict chat')
       /\ dget "last_message_at" chat' = Some (VStr (isoformat now))
       /\ dget "message_count" chat' = Some (VInt (count + 1))
       /\ (forall field, field <> "last_message_at" ->
                         field <> "message_count" ->
                         dget field chat' = dget field chat)
       /\ (forall other, other <> chat_id ->
                         dget other chats' = dget other chats)
       /\ (forall field, field <> "chats" -> dget field r' = dget field r)
       /\ (forall other, other <> username ->
                         dget other us' = dget other (users w)))
  /\ (dget username (users w) = None ->
      update_chat_last_message now username chat_id w = (Ok tt, w))
  /\ (forall r,
        dget username (users w) = Some r ->
        dget "chats" r = None
        \/ (exists chats, dget "chats" r = Some (VDict chats)
                          /\ dget chat_id chats = None) ->
        update_chat_last_message now username chat_id w = (Ok tt, w)).
Proof.
  split; [|split].
  - intros r chats chat count Hr Hchats Hchat Hcount Hwr.
    set (chat1 := dset "last_message_at" (VStr (isoformat now)) chat).
    set (chat2 := dset "message_count" (VInt (count + 1)) chat1).
    set (chats2 := dset chat_id (VDict chat2) chats).
    set (r2 := dset "chats" (VDict chats2) r).
    exists chat2, chats2, r2, (dset username r2 (users w)).
    split.
    + unfold update_chat_last_message.
      unfold bind at 1. rewrite (chat_exists_dict _ _ _ r chats Hr Hchats).
      unfold dmem. rewrite Hchat.
      unfold bind at 1.
      rewrite (chat_object_found _ _ _ r chats (VDict chat) Hr Hchats Hchat).
      unfold bind at 1. unfold lift at 1. cbn [py_value_setitem]. fold chat1.
      unfold bind at 1.
      rewrite (write_chat_found _ _ _ _ r chats Hr Hchats).
      unfold bind at 1. unfold lift at 1. cbn [py_value_get].
      assert (Hc1 : py_get_default "message_count" (VInt 0) chat1 = VInt count).
      { unfold chat1, py_get_default in *.
        now rewrite dget_dset_other by discriminate. }
      rewrite Hc1.
      unfold bind at 1. unfold lift at 1. cbn [py_add_one].
      unfold bind at 1. unfold lift at 1. cbn [py_value_setitem]. fold chat2.
      unfold bind at 1.
      rewrite (write_chat_found _ _ _ _
                 (dset "chats" (VDict (dset chat_id (VDict chat1) chats)) r)
                 (dset chat_id (VDict chat1) chats))
        by (cbn [users with_users]; apply dget_dset_same).
      cbn [users with_users]. rewrite !dset_dset_same. fold chats2. fold r2.
      rewrite save_users_writable by exact Hwr.
      unfold with_db_file, with_users. cbn [users db_file writable log].
      now rewrite Hwr.
    + unfold r2, chats2, chat2, chat1. repeat split.
      * apply dget_dset_same.
      * apply dget_dset_same.
      * apply dget_dset_same.
      * rewrite dget_dset_other by discriminate. apply dget_dset_same.
      * apply dget_dset_same.
      * intros field H1 H2. now rewrite !dget_dset_other by assumption.
      * intros other H. now rewrite dget_dset_other by assumption.
      * intros field H. now rewrite dget_dset_other by assumption.
      * intros other H. now rewrite dget_dset_other by assumption.
  - intros Hnone. unfold update_chat_last_message, bind.
    now rewrite chat_exists_unknown_user.
  - intros r Hr [Hc|(chats & Hc & Habs)]; unfold update_chat_last_message, bind.
    + now rewrite (chat_exists_no_chats _ _ _ r).
    + rewrite (chat_exists_dict _ _ _ r chats) by assumption.
      unfold dmem. now rewrite Habs.
Qed.

(* ===================================================================== *)
(** ** Further properties of the user store *)
(* ===================================================================== *)

Lemma dset_absent {V} k (v : V) d : dmem k d = false -> dset k v d = d ++ [(k, v)].
Proof.
  unfold dmem. induction d as [|[k' v'] d IH]; cbn [dset dget app]; auto.
  destruct (String.eqb k k'); [discriminate|]. intros H. now rewrite IH.
Qed.

Lemma dget_app_absent {V} k (d d' : list (string * V)) :
  dget k d = None -> dget k (d ++ d') = dget k d'.
Proof.
  induction d as [|[k' v'] d IH]; cbn [dget app]; auto.
  destruct (String.eqb k k'); [discriminate | exact IH].
Qed.

Lemma dget_app_present {V} k (d d' : list (string * V)) v :
  dget k d = Some v -> dget k (d ++ d') = Some v.
Proof.
  induction d as [|[k' v'] d IH]; cbn [dget app]; [discriminate|].
  destruct (String.eqb k k'); auto.
Qed.

(** *** Registration *)

Lemma register_fresh id_bytes salt_bytes now username email password w :
  dmem username (users w) = false ->
  email_taken email (users w) = false ->
  writable w = true ->
  let us := users w ++ [(username,
                         new_user_record id_bytes salt_bytes now
                           username email password)] in
  register_user id_bytes salt_bytes now username email password w
  = (Ok (VDict [ ("success", VBool true);
                 ("message", VStr "User registered successfully");
                 ("user_id", VStr (Encoding.token_urlsafe id_bytes)) ]),
     mk_world us (Some (Json us)) true
       (log w ++ [LogInfo ("New user registered: " ++ username)])).
Proof.
  intros Hfree Hemail Hwr us. unfold register_user.
  unfold bind at 1. unfold get_users. rewrite Hfree.
  unfold email_taken in Hemail. rewrite Hemail.
  cbv zeta. unfold bind, put_users, ret, logger_info.
  rewrite save_users_writable by exact Hwr.
  unfold with_db_file, with_users, with_log. cbn [users db_file writable log].
  rewrite Hwr. rewrite dset_absent by exact Hfree. reflexivity.
Qed.

Lemma register_taken_username id_bytes salt_bytes now username email password w :
  dmem username (users w) = true ->
  register_user id_bytes salt_bytes now username email password w
  = (Ok (failure "Username already exists"), w).
Proof. intros H. unfold register_user. run. now rewrite H. Qed.

Lemma register_taken_email id_bytes salt_bytes now username email password w :
  dmem username (users w) = false ->
  email_taken email (users w) = true ->
  register_user id_bytes salt_bytes now username email password w
  = (Ok (failure "Email already exists"), w).
Proof.
  intros H He. unfold register_user. run. rewrite H.
  unfold email_taken in He. now rewrite He.
Qed.

(** *** Authentication *)

Lemma authenticate_success now username password w r stored user_id name email :
  dget username (users w) = Some r ->
  active r = true ->
  dget "password_hash" r = Some stored ->
  _verify_password password stored = true ->
  dget "user_id" r = Some user_id ->
  dget "username" r = Some name ->
  dget "email" r = Some email ->
  writable w = true ->
  let r' := dset "last_login" (VStr (isoformat now)) r in
  let us := dset username r' (users w) in
  authenticate_user now username password w
  = (Ok (VDict [ ("success", VBool true);
                 ("message", VStr "Login successful");
                 ("user_data",
                  VDict [ ("user_id", user_id);
                          ("username", name);
                          ("email", email);
                          ("chats", py_get_default "chats" (VDict []) r) ]) ]),
     mk_world us (Some (Json us)) true
       (log w ++ [LogInfo ("User authenticated: " ++ username)])).
Proof.
  intros Hr Hact Hstored Hver Hid Hname Hemail Hwr r' us.
  unfold authenticate_user.
  unfold bind at 1. unfold get_users. rewrite Hr.
  unfold active in Hact. rewrite Hact. cbn [negb].
  unfold bind at 1. unfold lift at 1. unfold py_getitem at 1. rewrite Hstored.
  rewrite Hver. cbn [negb]. cbv zeta.
  unfold bind at 1. rewrite (update_record_found _ _ _ r Hr).
  unfold bind at 1. rewrite save_users_writable by exact Hwr.
  unfold bind, logger_info, lift, ret, py_getitem.
  rewrite !dget_dset_other by discriminate.
  rewrite Hid, Hname, Hemail.
  unfold py_get_default. rewrite dget_dset_other by discriminate.
  unfold with_db_file, with_users, with_log. cbn [users db_file writable log].
  now rewrite Hwr.
Qed.

Lemma authenticate_wrong_password now username password w r stored :
  dget username (users w) = Some r ->
  active r = true ->
  dget "password_hash" r = Some stored ->
  _verify_password password stored = false ->
  authenticate_user now username password w
  = (Ok (failure "Invalid username or password"), w).
Proof.
  intros Hr Hact Hstored Hver. unfold authenticate_user. run.
  rewrite Hr. unfold active in Hact. rewrite Hact. cbn [negb].
  unfold py_getitem. now rewrite Hstored, Hver.
Qed.

(** X1.  Registering a username and an email that are both free succeeds:
    the answer carries the new [user_id], exactly one record is appended
    after the existing ones (which are untouched), the new record is the
    active, chat-less one with a salted credential, and the file holds the
    new store. *)
Theorem register_appends_user
    (id_bytes salt_bytes : list byte) (now : datetime)
    (username email password : string) (w : world) :
  dmem username (users w) = false ->
  email_taken email (users w) = false ->
  writable w = true ->
  exists w1,
    register_user id_bytes salt_bytes now username email password w
    = (Ok (VDict [ ("success", VBool true);
                   ("message", VStr "User registered successfully");
                   ("user_id", VStr (Encoding.token_urlsafe id_bytes)) ]), w1)
    /\ users w1
       = users w ++ [(username,
                      new_user_record id_bytes salt_bytes now
                        username email password)]
    /\ in_sync w1
    /\ dget username (users w1)
       = Some (new_user_record id_bytes salt_bytes now username email password)
    /\ (forall other r, dget other (users w) = Some r ->
                        dget other (users w1) = Some r).
Proof.
  intros Hfree Hemail Hwr.
  pose proof (register_fresh id_bytes salt_bytes now username email password w
                Hfree Hemail Hwr) as Hrun.
  cbv zeta in Hrun. eexists. split; [exact Hrun|].
  cbn [users]. unfold in_sync. cbn [users db_file].
  repeat split.
  - rewrite dget_app_absent by (now apply dmem_false_iff).
    cbn [dget]. now rewrite String.eqb_refl.
  - intros other r Hr. now apply dget_app_present.
Qed.

(** X2.  Round trip of registration and login: after a successful
    [register_user], [authenticate_user] with the same username and
    password succeeds and returns the registered [user_id], [username] and
    [email] with an empty chat mapping; with another password it fails
    with the uniform message, unless SHA-256 collides on the two salted
    passwords. *)
Theorem register_then_login
    (id_bytes salt_bytes : list byte) (now later : datetime)
    (username email password : string) (w : world) :
  dmem username (users w) = false ->
  email_taken email (users w) = false ->
  writable w = true ->
  exists w1,
    snd (register_user id_bytes salt_bytes now username email password w) = w1
    /\ fst (authenticate_user later username password w1)
       = Ok (VDict [ ("success", VBool true);
                     ("message", VStr "Login successful");
                     ("user_data",
                      VDict [ ("user_id", VStr (Encoding.token_urlsafe id_bytes));
                              ("username", VStr username);
                              ("email", VStr email);
                              ("chats", VDict []) ]) ])
    /\ (forall other,
          other <> password ->
          ~ sha256_collision (other ++ Encoding.token_hex salt_bytes)
                             (password ++ Encoding.token_hex salt_bytes) ->
          authenticate_user later username other w1
          = (Ok (failure "Invalid username or password"), w1)).
Proof.
  intros Hfree Hemail Hwr.
  pose proof (register_fresh id_bytes salt_bytes now username email password w
                Hfree Hemail Hwr) as Hrun.
  cbv zeta in Hrun. rewrite Hrun. cbn [snd]. eexists. split; [reflexivity|].
  set (rec := new_user_record id_bytes salt_bytes now username email password).
  assert (Hrec : dget username (users w ++ [(username, rec)]) = Some rec).
  { rewrite dget_app_absent by (now apply dmem_false_iff).
    cbn [dget]. now rewrite String.eqb_refl. }
  split.
  - erewrite (authenticate_success later username password _ rec);
      [reflexivity | exact Hrec | reflexivity | reflexivity | | reflexivity
       | reflexivity | reflexivity | reflexivity].
    apply verify_own_hash.
  - intros other Hne Hfree'.
    apply (authenticate_wrong_password later username other _ rec
             (VStr (_hash_password salt_bytes password)));
      [exact Hrec | reflexivity | reflexivity |].
    now apply verify_other_hash.
Qed.

(** X3.  After a successful [register_user], registering the same
    username again (with any email and password) is refused with
    "Username already exists", registering another, free username with
    the same email is refused with "Email already exists", and neither
    attempt changes the world the first registration left. *)
Theorem register_then_duplicates_rejected
    (id_bytes salt_bytes : list byte) (now : datetime)
    (username email password : string) (w : world) :
  dmem username (users w) = false ->
  email_taken email (users w) = false ->
  writable w = true ->
  exists w1,
    snd (register_user id_bytes salt_bytes now username email password w) = w1
    /\ (forall id2 salt2 now2 email2 password2,
          register_user id2 salt2 now2 username email2 password2 w1
          = (Ok (failure "Username already exists"), w1))
    /\ (forall id2 salt2 now2 username2 password2,
          dmem username2 (users w1) = false ->
          register_user id2 salt2 now2 username2 email password2 w1
          = (Ok (failure "Email already exists"), w1)).
Proof.
  intros Hfree Hemail Hwr.
  pose proof (register_fresh id_bytes salt_bytes now username email password w
                Hfree Hemail Hwr) as Hrun.
  cbv zeta in Hrun. rewrite Hrun. cbn [snd]. eexists. split; [reflexivity|].
  set (rec := new_user_record id_bytes salt_bytes now username email password).
  split.
  - intros. apply register_taken_username. cbn [users].
    unfold dmem. rewrite dget_app_absent by (now apply dmem_false_iff).
    cbn [dget]. now rewrite String.eqb_refl.
  - intros id2 salt2 now2 username2 password2 Hfree2.
    apply register_taken_email; [exact Hfree2|]. cbn [users].
    unfold email_taken. rewrite existsb_app. apply orb_true_intro. right.
    cbn. now rewrite String.eqb_refl.
Qed.

(** *** Sessions that outlive, or do not outlive, other calls *)

(** In a store with distinct keys, the scan returns the identity of the
    only record that carries the token when that session is live. *)
Lemma validate_scan_owner now token username r expires user_id :
  holds_token token r = true ->
  fromisoformat_value (py_get_default "session_expires" (VStr "") r)
  = Ok (Naive expires) ->
  ltb now expires = true ->
  dget "user_id" r = Some user_id ->
  forall us i w,
    NoDup (map fst us) ->
    dget username us = Some r ->
    token_owner token username us ->
    validate_scan now token i us w
    = (Ok (identity username user_id (py_get "thread_id" r)), w).
Proof.
  intros Hh Hp Hlt Hid.
  induction us as [|[k v] us IH]; intros i w Hnd Hget Hown; [discriminate|].
  cbn [validate_scan]. unfold bind. cbn [dget] in Hget.
  destruct (String.eqb username k) eqn:E.
  - apply String.eqb_eq in E. subst k. injection Hget as ->.
    now rewrite (validate_entry_live now token i username r w expires user_id).
  - apply String.eqb_neq in E.
    assert (Hv : holds_token token v = false).
    { destruct (holds_token token v) eqn:Hv; auto.
      destruct E. symmetry. apply (Hown k v); [now left | exact Hv]. }
    rewrite validate_entry_other by exact Hv.
    cbn [map fst] in Hnd. inversion Hnd; subst.
    apply IH; auto.
    intros n x Hin. apply (Hown n x). now right.
Qed.

Lemma token_owner_dset token username r us :
  NoDup (map fst us) ->
  token_owner token username us ->
  token_owner token username (dset username r us).
Proof.
  intros Hnd Hown n x Hin Hh.
  apply in_dset_nodup in Hin; [|exact Hnd].
  destruct Hin as [[-> _]|[_ Hin]]; [reflexivity | eapply Hown; eauto].
Qed.

Lemma token_unused_dset token username r us :
  NoDup (map fst us) ->
  token_owner token username us ->
  holds_token token r = false ->
  token_unused token (dset username r us).
Proof.
  intros Hnd Hown Hr n x Hin.
  apply in_dset_nodup in Hin; [|exact Hnd].
  destruct Hin as [[_ ->]|[Hne Hin]]; [exact Hr|].
  destruct (holds_token token x) eqn:E; auto.
  now destruct (Hne (Hown n x Hin E)).
Qed.

Lemma deactivate_known username w r :
  dget username (users w) = Some r ->
  writable w = true ->
  let us := dset username (dset "is_active" (VBool false) r) (users w) in
  deactivate_user username w
  = (Ok true, mk_world us (Some (Json us)) true (log w)).
Proof.
  intros Hr Hwr us. unfold deactivate_user.
  unfold bind at 1. unfold get_users. unfold dmem. rewrite Hr.
  unfold bind at 1. rewrite (update_record_found _ _ _ r Hr).
  unfold bind, ret. rewrite save_users_writable by exact Hwr.
  unfold with_db_file, with_users. cbn [users db_file writable log].
  now rewrite Hwr.
Qed.

Lemma deactivate_unknown username w :
  dget username (users w) = None ->
  deactivate_user username w = (Ok false, w).
Proof.
  intros H. unfold deactivate_user. run. unfold dmem. now rewrite H.
Qed.

(** X4.  [deactivate_user] of an existing user sets [is_active] to
    [False] and saves; from then on [authenticate_user] answers "Account
    is deactivated" whatever the password.  It does not end a session:
    [validate_session] never looks at [is_active], so a live token of the
    deactivated user still validates as that user.  For an unknown
    username it returns [False] and changes nothing. *)
Theorem deactivate_blocks_login_keeps_session (username : string) (w : world) :
  (forall r,
     store_ok w ->
     dget username (users w) = Some r ->
     writable w = true ->
     exists w1,
       deactivate_user username w = (Ok true, w1)
       /\ in_sync w1
       /\ (exists r1, dget username (users w1) = Some r1
                      /\ dget "is_active" r1 = Some (VBool false)
                      /\ forall field, field <> "is_active" ->
                                       dget field r1 = dget field r)
       /\ (forall now password,
             authenticate_user now username password w1
             = (Ok (failure "Account is deactivated"), w1))
       /\ (forall now token user_id,
             holds_token token r = true ->
             session_live now r ->
             dget "user_id" r = Some user_id ->
             token_owner token username (users w) ->
             validate_session now token w1
             = (Ok (identity username user_id (py_get "thread_id" r)), w1)))
  /\ (dget username (users w) = None ->
      deactivate_user username w = (Ok false, w)).
Proof.
  split; [|apply deactivate_unknown].
  intros r Hok Hr Hwr.
  pose proof (deactivate_known username w r Hr Hwr) as Hrun.
  cbv zeta in Hrun. eexists. split; [exact Hrun|].
  set (r1 := dset "is_active" (VBool false) r).
  unfold in_sync. cbn [users db_file].
  split; [reflexivity|]. split; [|split].
  - exists r1. rewrite dget_dset_same. unfold r1. repeat split.
    + apply dget_dset_same.
    + intros field H. now rewrite dget_dset_other by assumption.
  - intros now password.
    apply (authenticate_deactivated now username password _ r1).
    + cbn [users]. apply dget_dset_same.
    + unfold r1, py_get_default. now rewrite dget_dset_same.
  - intros now token user_id Hh (expires & Hp & Hlt) Hid Hown.
    unfold validate_session, bind, get_users. cbn [users].
    assert (Hthread : py_get "thread_id" r = py_get "thread_id" r1).
    { unfold py_get, r1. now rewrite dget_dset_other by discriminate. }
    rewrite Hthread.
    apply (validate_scan_owner now token username r1 expires user_id).
    + unfold holds_token, py_get, r1 in *.
      now rewrite dget_dset_other by discriminate.
    + unfold py_get_default, r1 in *.
      now rewrite dget_dset_other by discriminate.
    + exact Hlt.
    + unfold r1. now rewrite dget_dset_other by discriminate.
    + unfold store_ok in Hok. rewrite keys_dset_present; auto.
      unfold dmem. now rewrite Hr.
    + apply dget_dset_same.
    + now apply token_owner_dset.
Qed.

Lemma logout_known username w r :
  dget username (users w) = Some r ->
  r <> [] ->
  writable w = true ->
  let us := dset username (clear_session r) (users w) in
  logout_user username w = (Ok tt, mk_world us (Some (Json us)) true (log w)).
Proof.
  intros Hr Hne Hwr us. unfold logout_user.
  unfold bind at 1. unfold get_users. rewrite Hr.
  destruct r as [|entry r]; [now destruct Hne|].
  unfold bind at 1. rewrite (update_record_found _ _ _ (entry :: r) Hr).
  unfold bind at 1.
  rewrite (update_record_found _ _ _ (dpop "session_token" (entry :: r)))
    by (cbn [users with_users]; apply dget_dset_same).
  cbn [users with_users]. rewrite dset_dset_same.
  rewrite save_users_writable by exact Hwr.
  unfold with_db_file, with_users. cbn [users db_file writable log].
  now rewrite Hwr.
Qed.

(** X5.  Logging out (the body of the logout endpoint) removes
    [session_token] and [session_expires] from the user's record, keeps
    every other field, and saves; the token the record carried, if no
    other record carries it, validates as [None] from then on, after any
    calls that do not write it again.  For an unknown username nothing
    changes. *)
Theorem logout_ends_session (username : string) (w : world) :
  (forall r token,
     store_ok w ->
     dget username (users w) = Some r ->
     holds_token token r = true ->
     token_owner token username (users w) ->
     writable w = true ->
     exists w1,
       logout_user username w = (Ok tt, w1)
       /\ in_sync w1
       /\ (exists r1, dget username (users w1) = Some r1
                      /\ dget "session_token" r1 = None
                      /\ dget "session_expires" r1 = None
                      /\ forall field,
                           field <> "session_token" ->
                           field <> "session_expires" ->
                           dget field r1 = dget field r)
       /\ (forall cs later,
             forallb (fun c => negb (draws token c)) cs = true ->
             validate_session later token (perform_all cs w1)
             = (Ok VNone, perform_all cs w1)))
  /\ (dget username (users w) = None -> logout_user username w = (Ok tt, w)).
Proof.
  split.
  - intros r token Hok Hr Hh Hown Hwr.
    assert (Hne : r <> []) by (intros ->; discriminate Hh).
    pose proof (logout_known username w r Hr Hne Hwr) as Hrun.
    cbv zeta in Hrun. eexists. split; [exact Hrun|].
    unfold in_sync. cbn [users db_file].
    split; [reflexivity|]. split.
    + exists (clear_session r). rewrite dget_dset_same.
      unfold clear_session. repeat split.
      * rewrite dget_dpop_other by discriminate. apply dget_dpop_same.
      * apply dget_dpop_same.
      * intros field H1 H2. now rewrite !dget_dpop_other by assumption.
    + intros cs later Hcs. unfold validate_session, bind, get_users.
      apply validate_scan_unused. apply perform_all_unused; [exact Hcs|].
      cbn [users]. apply token_unused_dset; auto.
      apply holds_token_cleared.
  - intros H. unfold logout_user. run. now rewrite H.
Qed.

(* ===================================================================== *)
(** ** The chat registry: create, rename, bind, delete, count *)
(* ===================================================================== *)

Lemma create_chat_known id_bytes now username title w r chats :
  dget username (users w) = Some r ->
  dget "chats" r = Some (VDict chats) ->
  writable w = true ->
  let chat_id := Encoding.token_urlsafe id_bytes in
  let chats' := dset chat_id (VDict (new_chat chat_id title now)) chats in
  let us := dset username (dset "chats" (VDict chats') r) (users w) in
  create_user_chat id_bytes now username title w
  = (Ok (VStr chat_id),
     mk_world us (Some (Json us)) true
       (log w ++ [LogInfo ("Created new chat for user " ++ username
                           ++ ": " ++ chat_id)])).
Proof.
  intros Hr Hc Hwr chat_id chats' us. unfold create_user_chat.
  unfold bind at 1. unfold get_users. rewrite Hr. cbv zeta.
  unfold bind at 1. unfold lift at 1. unfold py_getitem at 1. rewrite Hc.
  unfold bind at 1. unfold lift at 1. cbn [py_value_setitem].
  unfold bind at 1. rewrite (update_record_found _ _ _ r Hr).
  unfold bind at 1. rewrite save_users_writable by exact Hwr.
  unfold bind, logger_info, ret.
  unfold with_db_file, with_users, with_log. cbn [users db_file writable log].
  now rewrite Hwr.
Qed.

(** X6.  [create_user_chat] for a user whose record has a chat mapping
    returns a new id and saves; [get_user_chats] then shows, under that
    id, a chat with the given title, no thread, no message and a zero
    count, after the chats that were there (an id that was in use is
    overwritten in place); everything else is as before.  For an unknown
    user it returns [None] and changes nothing.  For a record without a
    ["chats"] key it raises [KeyError], although [get_user_chats] reads
    such a record as having no chats. *)
Theorem create_chat_is_listed
    (id_bytes : list byte) (now : datetime) (username title : string)
    (w : world) :
  (forall r chats,
     dget username (users w) = Some r ->
     dget "chats" r = Some (VDict chats) ->
     writable w = true ->
     exists w1,
       create_user_chat id_bytes now username title w
       = (Ok (VStr (Encoding.token_urlsafe id_bytes)), w1)
       /\ in_sync w1
       /\ get_user_chats username w1
          = VDict (dset (Encoding.token_urlsafe id_bytes)
                     (VDict (new_chat (Encoding.token_urlsafe id_bytes) title now))
                     chats)
       /\ (dmem (Encoding.token_urlsafe id_bytes) chats = false ->
           get_user_chats username w1
           = VDict (chats
                    ++ [(Encoding.token_urlsafe id_bytes,
                         VDict (new_chat (Encoding.token_urlsafe id_bytes)
                                  title now))]))
       /\ (exists r1, dget username (users w1) = Some r1
                      /\ forall field, field <> "chats" ->
                                       dget field r1 = dget field r)
       /\ (forall other, other <> username ->
                         dget other (users w1) = dget other (users w)))
  /\ (dget username (users w) = None ->
      create_user_chat id_bytes now username title w = (Ok VNone, w))
  /\ (forall r,
        dget username (users w) = Some r ->
        dget "chats" r = None ->
        create_user_chat id_bytes now username title w
        = (Raise (KeyError "chats"), w)
        /\ get_user_chats username w = VDict []).
Proof.
  split; [|split].
  - intros r chats Hr Hc Hwr.
    pose proof (create_chat_known id_bytes now username title w r chats
                  Hr Hc Hwr) as Hrun.
    cbv zeta in Hrun. eexists. split; [exact Hrun|].
    set (cid := Encoding.token_urlsafe id_bytes).
    set (chats' := dset cid (VDict (new_chat cid title now)) chats).
    assert (Hlist : get_user_chats username
                      (mk_world
                         (dset username (dset "chats" (VDict chats') r) (users w))
                         (Some (Json (dset username (dset "chats" (VDict chats') r)
                                        (users w))))
                         true
                         (log w ++ [LogInfo ("Created new chat for user "
                                             ++ username ++ ": " ++ cid)]))
                    = VDict chats').
    { unfold get_user_chats. cbn [users]. rewrite dget_dset_same.
      unfold py_get_default. now rewrite dget_dset_same. }
    unfold in_sync. cbn [users db_file].
    split; [reflexivity|]. split; [exact Hlist|]. split; [|split].
    + intros Hnew. rewrite Hlist. unfold chats'. now rewrite dset_absent.
    + exists (dset "chats" (VDict chats') r). rewrite dget_dset_same.
      split; [reflexivity|].
      intros field H. now rewrite dget_dset_other by assumption.
    + intros other H. now rewrite dget_dset_other by assumption.
  - intros H. unfold create_user_chat. run. now rewrite H.
  - intros r Hr Hc. split.
    + unfold create_user_chat. run. rewrite Hr. cbv zeta.
      unfold py_getitem. now rewrite Hc.
    + unfold get_user_chats, py_get_default. now rewrite Hr, Hc.
Qed.

Lemma delete_chat_known username chat_id w r chats chat :
  dget username (users w) = Some r ->
  dget "chats" r = Some (VDict chats) ->
  dget chat_id chats = Some chat ->
  writable w = true ->
  let us := dset username (dset "chats" (VDict (dpop chat_id chats)) r) (users w) in
  delete_user_chat username chat_id w
  = (Ok true,
     mk_world us (Some (Json us)) true
       (log w ++ [LogInfo ("Deleted chat " ++ chat_id ++ " for user "
                           ++ username)])).
Proof.
  intros Hr Hc Hchat Hwr us. unfold delete_user_chat.
  unfold bind at 1. rewrite (chat_exists_dict _ _ _ r chats Hr Hc).
  unfold dmem at 1. rewrite Hchat.
  unfold bind at 1. unfold get_users at 1.
  unfold bind at 1. unfold lift at 1. rewrite Hr.
  unfold bind at 1. unfold lift at 1. unfold py_getitem at 1. rewrite Hc.
  unfold bind at 1. unfold lift at 1. cbn [py_value_delitem].
  unfold dmem. rewrite Hchat.
  unfold bind at 1. rewrite (update_record_found _ _ _ r Hr).
  unfold bind at 1. rewrite save_users_writable by exact Hwr.
  unfold bind, logger_info, ret.
  unfold with_db_file, with_users, with_log. cbn [users db_file writable log].
  now rewrite Hwr.
Qed.

Lemma delete_chat_absent username chat_id w :
  (dget username (users w) = None
   \/ exists r, dget username (users w) = Some r
                /\ (dget "chats" r = None
                    \/ exists chats, dget "chats" r = Some (VDict chats)
                                     /\ dget chat_id chats = None)) ->
  delete_user_chat username chat_id w = (Ok false, w).
Proof.
  intros [H|(r & Hr & [Hc|(chats & Hc & Hchat)])];
    unfold delete_user_chat, bind.
  - now rewrite chat_exists_unknown_user.
  - now rewrite (chat_exists_no_chats _ _ _ r).
  - rewrite (chat_exists_dict _ _ _ r chats) by assumption.
    unfold dmem. now rewrite Hchat.
Qed.

(** X7.  [delete_user_chat] of an existing chat returns [True], removes
    that chat from the user's mapping, leaves the other chats, fields and
    users alone, and saves; deleting it a second time returns [False] and
    changes nothing, as does deleting a chat, or for a user, that does not
    exist. *)
Theorem delete_chat_removes_it (username chat_id : string) (w : world) :
  (forall r chats chat,
     dget username (users w) = Some r ->
     dget "chats" r = Some (VDict chats) ->
     dget chat_id chats = Some chat ->
     writable w = true ->
     exists w1,
       delete_user_chat username chat_id w = (Ok true, w1)
       /\ in_sync w1
       /\ get_user_chats username w1 = VDict (dpop chat_id chats)
       /\ dget chat_id (dpop chat_id chats) = None
       /\ (forall other, other <> chat_id ->
                         dget other (dpop chat_id chats) = dget other chats)
       /\ (exists r1, dget username (users w1) = Some r1
                      /\ forall field, field <> "chats" ->
                                       dget field r1 = dget field r)
       /\ (forall other, other <> username ->
                         dget other (users w1) = dget other (users w))
       /\ delete_user_chat username chat_id w1 = (Ok false, w1))
  /\ ((dget username (users w) = None
       \/ exists r, dget username (users w) = Some r
                    /\ (dget "chats" r = None
                        \/ exists chats, dget "chats" r = Some (VDict chats)
                                         /\ dget chat_id chats = None)) ->
      delete_user_chat username chat_id w = (Ok false, w)).
Proof.
  split; [|apply delete_chat_absent].
  intros r chats chat Hr Hc Hchat Hwr.
  pose proof (delete_chat_known username chat_id w r chats chat
                Hr Hc Hchat Hwr) as Hrun.
  cbv zeta in Hrun. eexists. split; [exact Hrun|].
  unfold in_sync. cbn [users db_file].
  split; [reflexivity|]. split; [|split; [|split; [|split; [|split]]]].
  - unfold get_user_chats. cbn [users]. rewrite dget_dset_same.
    unfold py_get_default. now rewrite dget_dset_same.
  - apply dget_dpop_same.
  - intros other H. now apply dget_dpop_other.
  - exists (dset "chats" (VDict (dpop chat_id chats)) r).
    rewrite dget_dset_same. split; [reflexivity|].
    intros field H. now rewrite dget_dset_other by assumption.
  - intros other H. now rewrite dget_dset_other by assumption.
  - apply delete_chat_absent. right.
    exists (dset "chats" (VDict (dpop chat_id chats)) r). cbn [users].
    split; [apply dget_dset_same|]. right.
    exists (dpop chat_id chats). split; [apply dget_dset_same|].
    apply dget_dpop_same.
Qed.

Lemma update_title_known username chat_id new_title w r chats chat :
  dget username (users w) = Some r ->
  dget "chats" r = Some (VDict chats) ->
  dget chat_id chats = Some (VDict chat) ->
  writable w = true ->
  let chat' := dset "title" (VStr new_title) chat in
  let us := dset username
              (dset "chats" (VDict (dset chat_id (VDict chat') chats)) r)
              (users w) in
  update_chat_title username chat_id new_title w
  = (Ok true, mk_world us (Some (Json us)) true (log w)).
Proof.
  intros Hr Hc Hchat Hwr chat' us. unfold update_chat_title.
  unfold bind at 1. rewrite (chat_exists_dict _ _ _ r chats Hr Hc).
  unfold dmem. rewrite Hchat.
  unfold bind at 1.
  rewrite (chat_object_found _ _ _ r chats (VDict chat) Hr Hc Hchat).
  unfold bind at 1. unfold lift at 1. cbn [py_value_setitem].
  unfold bind at 1. rewrite (write_chat_found _ _ _ _ r chats Hr Hc).
  unfold bind, ret. rewrite save_users_writable by exact Hwr.
  unfold with_db_file, with_users. cbn [users db_file writable log].
  now rewrite Hwr.
Qed.

Lemma update_thread_known username chat_id thread_id w r chats chat :
  dget username (users w) = Some r ->
  dget "chats" r = Some (VDict chats) ->
  dget chat_id chats = Some (VDict chat) ->
  writable w = true ->
  let chat' := dset "thread_id" (VStr thread_id) chat in
  let us := dset username
              (dset "chats" (VDict (dset chat_id (VDict chat') chats)) r)
              (users w) in
  update_chat_thread username chat_id thread_id w
  = (Ok tt, mk_world us (Some (Json us)) true (log w)).
Proof.
  intros Hr Hc Hchat Hwr chat' us. unfold update_chat_thread.
  unfold bind at 1. rewrite (chat_exists_dict _ _ _ r chats Hr Hc).
  unfold dmem. rewrite Hchat.
  unfold bind at 1.
  rewrite (chat_object_found _ _ _ r chats (VDict chat) Hr Hc Hchat).
  unfold bind at 1. unfold lift at 1. cbn [py_value_setitem].
  unfold bind at 1. rewrite (write_chat_found _ _ _ _ r chats Hr Hc).
  rewrite save_users_writable by exact Hwr.
  unfold with_db_file, with_users. cbn [users db_file writable log].
  now rewrite Hwr.
Qed.

Lemma chat_at_after_write username chat_id r chats (chat' : list (string * value))
    us f wr lg :
  chat_at username chat_id
    (mk_world
       (dset username (dset "chats" (VDict (dset chat_id (VDict chat') chats)) r) us)
       f wr lg) chat'.
Proof.
  exists (dset "chats" (VDict (dset chat_id (VDict chat') chats)) r),
         (dset chat_id (VDict chat') chats).
  cbn [users]. repeat split; apply dget_dset_same.
Qed.

(** X8.  [update_chat_title] of an existing chat returns [True], sets
    its [title] to the new one, keeps every other field of the chat (its
    thread, its message count and its timestamps), every other chat and
    every other user, and saves.  For an unknown user or chat it returns
    [False] and changes nothing. *)
Theorem rename_chat_sets_title (username chat_id new_title : string) (w : world) :
  (forall chat,
     chat_at username chat_id w chat ->
     writable w = true ->
     exists w1 chat',
       update_chat_title username chat_id new_title w = (Ok true, w1)
       /\ in_sync w1
       /\ chat_at username chat_id w1 chat'
       /\ dget "title" chat' = Some (VStr new_title)
       /\ (forall field, field <> "title" -> dget field chat' = dget field chat)
       /\ (forall other chat0, other <> chat_id ->
                               chat_at username other w chat0 ->
                               chat_at username other w1 chat0)
       /\ (forall other, other <> username ->
                         dget other (users w1) = dget other (users w)))
  /\ ((dget username (users w) = None
       \/ exists r, dget username (users w) = Some r
                    /\ (dget "chats" r = None
                        \/ exists chats, dget "chats" r = Some (VDict chats)
                                         /\ dget chat_id chats = None)) ->
      update_chat_title username chat_id new_title w = (Ok false, w)).
Proof.
  split.
  - intros chat (r & chats & Hr & Hc & Hchat) Hwr.
    pose proof (update_title_known username chat_id new_title w r chats chat
                  Hr Hc Hchat Hwr) as Hrun.
    cbv zeta in Hrun. eexists. exists (dset "title" (VStr new_title) chat).
    split; [exact Hrun|]. unfold in_sync. cbn [users db_file].
    split; [reflexivity|]. split; [apply chat_at_after_write|].
    split; [apply dget_dset_same|]. split; [|split].
    + intros field H. now rewrite dget_dset_other by assumption.
    + intros other chat0 Hne (r0 & chats0 & Hr0 & Hc0 & Hchat0).
      rewrite Hr in Hr0. injection Hr0 as <-.
      rewrite Hc in Hc0. injection Hc0 as <-.
      eexists. eexists. cbn [users].
      split; [apply dget_dset_same|]. split; [apply dget_dset_same|].
      now rewrite dget_dset_other by assumption.
    + intros other H. now rewrite dget_dset_other by assumption.
  - intros [H|(r & Hr & [Hc|(chats & Hc & Hchat)])];
      unfold update_chat_title, bind.
    + now rewrite chat_exists_unknown_user.
    + now rewrite (chat_exists_no_chats _ _ _ r).
    + rewrite (chat_exists_dict _ _ _ r chats) by assumption.
      unfold dmem. now rewrite Hchat.
Qed.

(** X9.  [update_chat_thread] of an existing chat sets its [thread_id],
    keeps every other field of the chat, every other chat and every other
    user, and saves.  For an unknown user or chat it changes nothing. *)
Theorem bind_thread_sets_thread_id
    (username chat_id thread_id : string) (w : world) :
  (forall chat,
     chat_at username chat_id w chat ->
     writable w = true ->
     exists w1 chat',
       update_chat_thread username chat_id thread_id w = (Ok tt, w1)
       /\ in_sync w1
       /\ chat_at username chat_id w1 chat'
       /\ dget "thread_id" chat' = Some (VStr thread_id)
       /\ (forall field, field <> "thread_id" ->
                         dget field chat' = dget field chat)
       /\ (forall other chat0, other <> chat_id ->
                               chat_at username other w chat0 ->
                               chat_at username other w1 chat0)
       /\ (forall other, other <> username ->
                         dget other (users w1) = dget other (users w)))
  /\ ((dget username (users w) = None
       \/ exists r, dget username (users w) = Some r
                    /\ (dget "chats" r = None
                        \/ exists chats, dget "chats" r = Some (VDict chats)
                                         /\ dget chat_id chats = None)) ->
      update_chat_thread username chat_id thread_id w = (Ok tt, w)).
Proof.
  split.
  - intros chat (r & chats & Hr & Hc & Hchat) Hwr.
    pose proof (update_thread_known username chat_id thread_id w r chats chat
                  Hr Hc Hchat Hwr) as Hrun.
    cbv zeta in Hrun. eexists. exists (dset "thread_id" (VStr thread_id) chat).
    split; [exact Hrun|]. unfold in_sync. cbn [users db_file].
    split; [reflexivity|]. split; [apply chat_at_after_write|].
    split; [apply dget_dset_same|]. split; [|split].
    + intros field H. now rewrite dget_dset_other by assumption.
    + intros other chat0 Hne (r0 & chats0 & Hr0 & Hc0 & Hchat0).
      rewrite Hr in Hr0. injection Hr0 as <-.
      rewrite Hc in Hc0. injection Hc0 as <-.
      eexists. eexists. cbn [users].
      split; [apply dget_dset_same|]. split; [apply dget_dset_same|].
      now rewrite dget_dset_other by assumption.
    + intros other H. now rewrite dget_dset_other by assumption.
  - intros [H|(r & Hr & [Hc|(chats & Hc & Hchat)])];
      unfold update_chat_thread, bind.
    + now rewrite chat_exists_unknown_user.
    + now rewrite (chat_exists_no_chats _ _ _ r).
    + rewrite (chat_exists_dict _ _ _ r chats) by assumption.
      unfold dmem. now rewrite Hchat.
Qed.

Lemma record_message_known now username chat_id w r chats chat count :
  dget username (users w) = Some r ->
  dget "chats" r = Some (VDict chats) ->
  dget chat_id chats = Some (VDict chat) ->
  py_get_default "message_count" (VInt 0) chat = VInt count ->
  writable w = true ->
  let chat' := dset "message_count" (VInt (count + 1))
                 (dset "last_message_at" (VStr (isoformat now)) chat) in
  let us := dset username
              (dset "chats" (VDict (dset chat_id (VDict chat') chats)) r)
              (users w) in
  update_chat_last_message now username chat_id w
  = (Ok tt, mk_world us (Some (Json us)) true (log w)).
Proof.
  intros Hr Hchats Hchat Hcount Hwr.
  set (chat1 := dset "last_message_at" (VStr (isoformat now)) chat).
  cbv zeta. fold chat1.
  unfold update_chat_last_message.
  unfold bind at 1. rewrite (chat_exists_dict _ _ _ r chats Hr Hchats).
  unfold dmem. rewrite Hchat.
  unfold bind at 1.
  rewrite (chat_object_found _ _ _ r chats (VDict chat) Hr Hchats Hchat).
  unfold bind at 1. unfold lift at 1. cbn [py_value_setitem]. fold chat1.
  unfold bind at 1.
  rewrite (write_chat_found _ _ _ _ r chats Hr Hchats).
  unfold bind at 1. unfold lift at 1. cbn [py_value_get].
  assert (Hc1 : py_get_default "message_count" (VInt 0) chat1 = VInt count).
  { unfold chat1, py_get_default in *.
    now rewrite dget_dset_other by discriminate. }
  rewrite Hc1.
  unfold bind at 1. unfold lift at 1. cbn [py_add_one].
  unfold bind at 1. unfold lift at 1. cbn [py_value_setitem].
  unfold bind at 1.
  rewrite (write_chat_found _ _ _ _
             (dset "chats" (VDict (dset chat_id (VDict chat1) chats)) r)
             (dset chat_id (VDict chat1) chats))
    by (cbn [users with_users]; apply dget_dset_same).
  cbn [users with_users]. rewrite !dset_dset_same.
  rewrite save_users_writable by exact Hwr.
  unfold with_db_file, with_users. cbn [users db_file writable log].
  now rewrite Hwr.
Qed.

(** X10.  Messages are counted one by one: after [update_chat_last_message]
    has run once per clock reading of [nows] on an existing chat whose
    count is the integer [count] (an absent count is 0), the count is
    [count] plus the number of calls, [last_message_at] is the last
    reading, every other field of the chat is as before, and the store is
    saved. *)
Theorem messages_are_counted (username chat_id : string) :
  forall (nows : list datetime) (w : world) (chat : list (string * value))
         (count : Z),
    chat_at username chat_id w chat ->
    py_get_default "message_count" (VInt 0) chat = VInt count ->
    writable w = true ->
    exists chat',
      chat_at username chat_id (record_messages nows username chat_id w) chat'
      /\ py_get_default "message_count" (VInt 0) chat'
         = VInt (count + Z.of_nat (List.length nows))
      /\ (forall field, field <> "last_message_at" ->
                        field <> "message_count" ->
                        dget field chat' = dget field chat)
      /\ (forall default,
            nows <> [] ->
            dget "last_message_at" chat'
            = Some (VStr (isoformat (last nows default))))
      /\ (nows <> [] -> in_sync (record_messages nows username chat_id w)).
Proof.
  induction nows as [|now nows IH]; intros w chat count Hat Hcount Hwr.
  - exists chat. cbn [record_messages fold_left List.length].
    rewrite Z.add_0_r. repeat split; auto; intros; exfalso; auto.
  - destruct Hat as (r & chats & Hr & Hc & Hchat).
    pose proof (record_message_known now username chat_id w r chats chat count
                  Hr Hc Hchat Hcount Hwr) as Hrun.
    cbv zeta in Hrun.
    set (chat1 := dset "message_count" (VInt (count + 1))
                    (dset "last_message_at" (VStr (isoformat now)) chat)) in *.
    unfold record_messages. cbn [fold_left]. rewrite Hrun. cbn [snd].
    match goal with
    | |- context [fold_left _ nows ?w1] => set (w1' := w1)
    end.
    assert (Hat1 : chat_at username chat_id w1' chat1)
      by apply chat_at_after_write.
    assert (Hcount1 : py_get_default "message_count" (VInt 0) chat1
                      = VInt (count + 1)).
    { unfold chat1, py_get_default. now rewrite dget_dset_same. }
    destruct (IH w1' chat1 (count + 1)%Z Hat1 Hcount1 eq_refl)
      as (chat' & Hat' & Hcount' & Hframe & Hlast & Hsync).
    exists chat'. fold (record_messages nows username chat_id w1').
    split; [exact Hat'|]. split; [|split; [|split]].
    + rewrite Hcount'. f_equal. cbn [List.length]. lia.
    + intros field H1 H2. rewrite Hframe by assumption.
      unfold chat1. now rewrite !dget_dset_other by assumption.
    + intros d _. destruct nows as [|now2 nows].
      * cbn [last]. cbn [record_messages fold_left] in Hat'.
        destruct Hat' as (r' & chats' & Hr' & Hc' & Hchat').
        destruct Hat1 as (r1 & chats1 & Hr1 & Hc1 & Hchat1).
        rewrite Hr1 in Hr'. injection Hr' as <-.
        rewrite Hc1 in Hc'. injection Hc' as <-.
        rewrite Hchat1 in Hchat'. injection Hchat' as <-.
        unfold chat1. rewrite dget_dset_other by discriminate.
        apply dget_dset_same.
      * change (last (now :: now2 :: nows) d) with (last (now2 :: nows) d).
        apply Hlast. discriminate.
    + intros _. destruct nows as [|now2 nows].
      * cbn [record_messages fold_left]. reflexivity.
      * apply Hsync. discriminate.
Qed.

(* ===================================================================== *)
(** ** What [validate_session] can and cannot do *)
(* ===================================================================== *)

Lemma cleared_only_refl token us : cleared_only token us us.
Proof. induction us; constructor; auto. Qed.

Lemma cleared_only_cons token e e' us us' :
  fst e' = fst e ->
  snd e' = snd e \/ (holds_token token (snd e) = true
                     /\ snd e' = clear_session (snd e)) ->
  cleared_only token us us' ->
  cleared_only token (e :: us) (e' :: us').
Proof. intros. constructor; auto. Qed.

Lemma validate_scan_framed now token : forall items done w,
  users w = done ++ items ->
  exists v w' items',
    validate_scan now token (List.length done) items w = (Ok v, w')
    /\ users w' = done ++ items'
    /\ cleared_only token items items'
    /\ writable w' = writable w.
Proof.
  induction items as [|[k r] items IH]; intros done w Hus.
  - exists VNone, w, []. repeat split; auto. constructor.
  - cbn [validate_scan]. unfold bind.
    assert (Hsame : forall w0,
               w0 = w ->
               exists v w' items',
                 (let (r0, w1) := (@Ok (option value) None, w0) in
                  match r0 with
                  | Ok a =>
                      match a with
                      | Some v0 => ret v0 w1
                      | None => validate_scan now token (S (List.length done)) items w1
                      end
                  | Raise e => (Raise e, w1)
                  end) = (Ok v, w')
                 /\ users w' = done ++ items'
                 /\ cleared_only token ((k, r) :: items) items'
                 /\ writable w' = writable w).
    { intros w0 ->.
      assert (Hus1 : users w = (done ++ [(k, r)]) ++ items)
        by now rewrite <- app_assoc.
      destruct (IH (done ++ [(k, r)]) w Hus1) as (v & w' & items' & Hrun & A & B & C).
      rewrite length_app, Nat.add_comm in Hrun. cbn [List.length Nat.add] in Hrun.
      exists v, w', ((k, r) :: items'). split; [exact Hrun|].
      split; [now rewrite A, <- app_assoc|]. split; [|exact C].
      apply cleared_only_cons; auto. }
    destruct (holds_token token r) eqn:Hh.
    2:{ rewrite validate_entry_other by exact Hh. now apply Hsame. }
    destruct (fromisoformat_value (py_get_default "session_expires" (VStr "") r))
      as [[expires|expires utcoffset]|e] eqn:Hp.
    2:{ rewrite (validate_entry_aware now token _ k r w expires utcoffset) by assumption.
        now apply Hsame. }
    2:{ rewrite (validate_entry_unreadable now token _ k r w e) by assumption.
        now apply Hsame. }
    destruct (ltb now expires) eqn:Hlt.
    + destruct (dget "user_id" r) as [user_id|] eqn:Hid.
      * rewrite (validate_entry_live now token _ k r w expires user_id)
          by assumption.
        eexists. exists w, ((k, r) :: items). split; [reflexivity|].
        repeat split; auto. apply cleared_only_refl.
      * rewrite (validate_entry_live_no_id now token _ k r w expires)
          by assumption.
        now apply Hsame.
    + rewrite (validate_entry_expired now token _ k r w expires Hh Hp Hlt).
      set (w1 := expire_at (List.length done) w).
      assert (Hus1 : users w1 = (done ++ [(k, clear_session r)]) ++ items).
      { unfold w1. rewrite expire_at_users, Hus.
        rewrite !dmodify_at_length. now rewrite <- app_assoc. }
      destruct (IH (done ++ [(k, clear_session r)]) w1 Hus1)
        as (v & w' & items' & Hrun & A & B & C).
      rewrite length_app, Nat.add_comm in Hrun. cbn [List.length Nat.add] in Hrun.
      exists v, w', ((k, clear_session r) :: items'). split; [exact Hrun|].
      split; [now rewrite A, <- app_assoc|]. split.
      * apply cleared_only_cons; auto.
      * rewrite C. apply expire_at_writable.
Qed.

(** X11.  [validate_session] never raises, whatever the store holds and
    whether or not the file can be written: it returns [None] or the
    identity of a record that carries the token.  The only change it can
    make to the store is to remove [session_token] and [session_expires]
    from records that carry the presented token; it adds, removes and
    reorders no user and touches no other field. *)
Theorem validate_session_is_total_and_framed
    (now : datetime) (token : string) (w : world) :
  exists v w',
    validate_session now token w = (Ok v, w')
    /\ cleared_only token (users w) (users w')
    /\ writable w' = writable w
    /\ (v = VNone
        \/ exists name r user_id thread_id,
             In (name, r) (users w)
             /\ holds_token token r = true
             /\ v = identity name user_id thread_id).
Proof.
  destruct (validate_scan_framed now token (users w) [] w eq_refl)
    as (v & w' & items' & Hrun & A & B & C).
  cbn [List.length app] in *.
  exists v, w'. unfold validate_session, bind, get_users.
  split; [exact Hrun|]. split; [now rewrite A|]. split; [exact C|].
  destruct v; try (right; eapply validate_scan_returns; eauto; discriminate).
  now left.
Qed.

(* ===================================================================== *)
(** ** The file follows the store *)
(* ===================================================================== *)

(** Splits a run, given as the hypothesis [H], into its paths, innermost
    test first. *)
Ltac split_run H :=
  cbv beta iota delta
    [bind ret raise lift try_except get_users put_users logger_error
     logger_info update_record update_record_at json_dump _save_users
     with_users with_db_file with_log chat_exists chat_object write_chat] in H;
  cbn [users db_file writable log] in H;
  repeat (first
            [ match goal with
              | Hw : writable ?w = true |- _ =>
                  rewrite Hw in H; cbv beta iota in H
              end
            | match type of H with
              | context [match ?x with _ => _ end] =>
                  lazymatch x with
                  | context [match _ with _ => _ end] => fail
                  | _ => destruct x eqn:?
                  end
              end ];
          cbn [users db_file writable log] in H;
          try discriminate H).

Ltac sync_leaf H :=
  injection H as <- <-; unfold in_sync; cbn [users db_file writable];
  auto.

Lemma validate_scan_sync now token : forall items i w v w',
  writable w = true ->
  in_sync w ->
  validate_scan now token i items w = (Ok v, w') ->
  writable w' = true /\ in_sync w'.
Proof.
  induction items as [|[k r] items IH]; intros i w v w' Hwr Hs Hrun.
  - injection Hrun as <- <-. now split.
  - cbn [validate_scan] in Hrun. unfold bind in Hrun.
    destruct (holds_token token r) eqn:Hh.
    2:{ rewrite validate_entry_other in Hrun by exact Hh. eapply IH; eauto. }
    destruct (fromisoformat_value (py_get_default "session_expires" (VStr "") r))
      as [[expires|expires utcoffset]|e] eqn:Hp.
    2:{ rewrite (validate_entry_aware now token _ k r w expires utcoffset) in Hrun
          by assumption.
        eapply IH; eauto. }
    2:{ rewrite (validate_entry_unreadable now token _ k r w e) in Hrun
          by assumption.
        eapply IH; eauto. }
    destruct (ltb now expires) eqn:Hlt.
    + destruct (dget "user_id" r) as [user_id|] eqn:Hid.
      * rewrite (validate_entry_live now token _ k r w expires user_id) in Hrun
          by assumption.
        injection Hrun as <- <-. now split.
      * rewrite (validate_entry_live_no_id now token _ k r w expires) in Hrun
          by assumption.
        eapply IH; eauto.
    + rewrite (validate_entry_expired now token _ k r w expires Hh Hp Hlt) in Hrun.
      eapply IH; [| |exact Hrun].
      * now rewrite expire_at_writable.
      * now apply expire_at_saved.
Qed.

(** X12.  Whenever the file is writable and holds the store, a call that
    returns normally leaves a file that again holds the store: every
    change made by a call that succeeds has been saved by the time it
    returns. *)
Theorem successful_calls_are_saved (c : call) (w : world) :
  writable w = true ->
  in_sync w ->
  returns c w = true ->
  in_sync (perform c w) /\ writable (perform c w) = true.
Proof.
  intros Hwr Hs Hret. destruct c; cbn [returns perform] in *;
    match goal with
    | |- in_sync (snd ?run) /\ _ => destruct run as [[a|e] w'] eqn:Hrun
    end; cbn [fst snd is_ok] in *; try discriminate Hret; clear Hret.
  - unfold register_user in Hrun. cbv zeta in Hrun. split_run Hrun; sync_leaf Hrun.
  - unfold authenticate_user in Hrun. cbv zeta in Hrun. split_run Hrun; sync_leaf Hrun.
  - unfold create_user_session in Hrun. cbv zeta in Hrun. split_run Hrun; sync_leaf Hrun.
  - unfold validate_session, bind, get_users in Hrun.
    apply validate_scan_sync in Hrun; auto. tauto.
  - unfold create_user_chat in Hrun. cbv zeta in Hrun. split_run Hrun; sync_leaf Hrun.
  - unfold update_chat_thread in Hrun. split_run Hrun; sync_leaf Hrun.
  - unfold update_chat_last_message in Hrun. split_run Hrun; sync_leaf Hrun.
  - unfold delete_user_chat in Hrun. split_run Hrun; sync_leaf Hrun.
  - unfold update_chat_title in Hrun. split_run Hrun; sync_leaf Hrun.
  - unfold deactivate_user in Hrun. split_run Hrun; sync_leaf Hrun.
  - unfold logout_user in Hrun. split_run Hrun; sync_leaf Hrun.
Qed.

(** X13.  When the file cannot be written, [register_user] of a free
    username and email raises [OSError] after logging it, and leaves the
    file as it was; the new record is in the store in memory all the
    same, so that registering the username again is then refused with
    "Username already exists". *)
Theorem register_on_readonly_file
    (id_bytes salt_bytes : list byte) (now : datetime)
    (username email password : string) (w : world) :
  dmem username (users w) = false ->
  email_taken email (users w) = false ->
  writable w = false ->
  exists w1,
    register_user id_bytes salt_bytes now username email password w
    = (Raise OSError, w1)
    /\ users w1
       = users w ++ [(username,
                      new_user_record id_bytes salt_bytes now
                        username email password)]
    /\ db_file w1 = db_file w
    /\ log w1 = log w ++ [LogError "Error saving users database: " OSError]
    /\ (forall id2 salt2 now2 email2 password2,
          register_user id2 salt2 now2 username email2 password2 w1
          = (Ok (failure "Username already exists"), w1)).
Proof.
  intros Hfree Hemail Hwr. eexists. split.
  - unfold register_user.
    unfold bind at 1. unfold get_users. rewrite Hfree.
    unfold email_taken in Hemail. rewrite Hemail. cbv zeta.
    unfold bind at 1. unfold put_users at 1.
    unfold bind at 1. rewrite save_users_readonly by exact Hwr.
    reflexivity.
  - cbn [users db_file log with_log with_users].
    split; [now apply dset_absent|]. split; [reflexivity|].
    split; [reflexivity|].
    intros. apply register_taken_username. cbn [users].
    apply dmem_dset_same.
Qed.

(* ===================================================================== *)
(** ** Users are never removed, and identities never change *)
(* ===================================================================== *)

Lemma dget_dmodify_at {V} (f : V -> V) k : forall (d : list (string * V)) i,
  dget k (dmodify_at i f d) = dget k d
  \/ exists y, dget k d = Some y /\ dget k (dmodify_at i f d) = Some (f y).
Proof.
  induction d as [|[k0 v0] d IH]; intros [|i]; cbn [dmodify_at dget]; auto.
  - destruct (String.eqb k k0); auto. right. now exists v0.
  - destruct (String.eqb k k0); auto.
Qed.

Lemma stable_dset field v : ~ In field identity_fields -> stable (dset field v).
Proof.
  intros Hnot r f Hf. apply dget_dset_other. intros ->. now apply Hnot.
Qed.

Lemma stable_dpop field : ~ In field identity_fields -> stable (dpop field).
Proof.
  intros Hnot r f Hf. apply dget_dpop_other. intros ->. now apply Hnot.
Qed.

Lemma stable_write_chat chat_id chat_data :
  stable (fun r =>
            match dget "chats" r with
            | Some (VDict chats) =>
                dset "chats" (VDict (dset chat_id chat_data chats)) r
            | _ => r
            end).
Proof.
  intros r f Hf. destruct (dget "chats" r) as [[]|]; auto.
  apply dget_dset_other. intros ->. cbn in Hf. intuition discriminate.
Qed.

(** Discharges [~ In field identity_fields] for a literal field. *)
Ltac not_identity := cbn; intuition discriminate.

Section SameUser.
Variables (username : string) (r : list (string * value)).

Lemma same_user_update_record name f w :
  stable f ->
  same_user username r (users w) ->
  keeps (same_user username r) (update_record name f) w.
Proof.
  unfold keeps, update_record. intros Hf (r' & Hr' & Hsame).
  destruct (dget name (users w)) as [r0|] eqn:E; cbn [snd users with_users].
  2:{ now exists r'. }
  destruct (String.eqb username name) eqn:En.
  - apply String.eqb_eq in En. subst name.
    rewrite Hr' in E. injection E as <-.
    exists (f r'). rewrite dget_dset_same. split; [reflexivity|].
    intros field Hin. now rewrite Hf, Hsame.
  - apply String.eqb_neq in En. exists r'.
    now rewrite dget_dset_other by assumption.
Qed.

Lemma same_user_update_record_at i f w :
  stable f ->
  same_user username r (users w) ->
  keeps (same_user username r) (update_record_at i f) w.
Proof.
  unfold keeps, update_record_at. cbn [snd users with_users].
  intros Hf (r' & Hr' & Hsame).
  destruct (dget_dmodify_at f username (users w) i) as [E|(y & Hy & E)].
  - exists r'. now rewrite E.
  - rewrite Hr' in Hy. injection Hy as <-.
    exists (f r'). split; [exact E|].
    intros field Hin. now rewrite Hf, Hsame.
Qed.

Lemma same_user_put_users_new name (r0 : list (string * value)) w :
  same_user username r (users w) ->
  dmem name (users w) = false ->
  keeps (same_user username r) (put_users (dset name r0 (users w))) w.
Proof.
  unfold keeps, put_users. cbn [snd users with_users].
  intros (r' & Hr' & Hsame) Hfree. exists r'. split; [|exact Hsame].
  rewrite dget_dset_other; [exact Hr'|].
  intros ->. apply dmem_false_iff in Hfree. congruence.
Qed.
End SameUser.

Ltac same_user_step :=
  first
    [ apply same_user_update_record;
        [first [ apply stable_write_chat
               | apply stable_dpop; not_identity
               | apply stable_dset; not_identity ] |]
    | apply same_user_update_record_at; [apply stable_dpop; not_identity|]
    | apply same_user_put_users_new
    | keeps_step ].

Lemma same_user_write_chat username r name chat_id chat_data w :
  same_user username r (users w) ->
  keeps (same_user username r) (write_chat name chat_id chat_data) w.
Proof. intros H. unfold write_chat. repeat same_user_step. Qed.

Lemma same_user_pop_at username r i field w :
  ~ In field identity_fields ->
  same_user username r (users w) ->
  keeps (same_user username r) (update_record_at i (dpop field)) w.
Proof. intros Hf H. apply same_user_update_record_at; auto using stable_dpop. Qed.

Lemma same_user_validate_scan username r now token : forall items i w,
  same_user username r (users w) ->
  keeps (same_user username r) (validate_scan now token i items) w.
Proof.
  induction items as [|[k v] items IH]; intros i w H; cbn [validate_scan].
  - repeat same_user_step.
  - apply keeps_bind.
    + unfold validate_entry. repeat same_user_step.
    + intros [v0|] Hk; [repeat same_user_step | now apply IH].
Qed.

Lemma perform_same_user username r c w :
  same_user username r (users w) ->
  same_user username r (users (perform c w)).
Proof.
  intros H. destruct c; cbn [perform];
    match goal with
    | |- same_user _ _ (users (snd (?c w))) =>
        change (keeps (same_user username r) c w)
    end.
  - unfold register_user. repeat same_user_step.
  - unfold authenticate_user. repeat same_user_step.
  - unfold create_user_session. repeat same_user_step.
  - unfold validate_session. apply keeps_bind_get_users.
    now apply same_user_validate_scan.
  - unfold create_user_chat. repeat same_user_step.
  - apply keeps_update_chat_thread; auto using same_user_write_chat.
  - apply keeps_update_chat_last_message; auto using same_user_write_chat.
  - unfold delete_user_chat.
    repeat first [apply keeps_chat_exists | same_user_step].
  - apply keeps_update_chat_title; auto using same_user_write_chat.
  - unfold deactivate_user. repeat same_user_step.
  - unfold logout_user. repeat same_user_step.
Qed.

(** X14.  No sequence of calls removes a user or changes a user's
    [user_id], [username], [email], [password_hash] or [created_at]:
    a username found in the store is found after the calls, with the same
    values (or the same absence) of these five fields. *)
Theorem users_and_identities_persist
    (cs : list call) (w : world) (username : string) (r : list (string * value)) :
  dget username (users w) = Some r ->
  exists r',
    dget username (users (perform_all cs w)) = Some r'
    /\ forall field, In field identity_fields -> dget field r' = dget field r.
Proof.
  intros Hr.
  assert (H : same_user username r (users w)) by (exists r; auto).
  clear Hr. revert w H. induction cs as [|c cs IH]; intros w H; [exact H|].
  cbn [perform_all fold_left]. apply IH. now apply perform_same_user.
Qed.

(* ===================================================================== *)
(** ** Emails stay unique *)
(* ===================================================================== *)

Lemma stable_email f r : stable f -> py_get "email" (f r) = py_get "email" r.
Proof.
  intros Hf. unfold py_get. rewrite Hf; [reflexivity|].
  cbn. auto.
Qed.

Lemma unique_users_update_record name f w :
  stable f ->
  unique_users (users w) ->
  keeps unique_users (update_record name f) w.
Proof.
  unfold keeps, update_record. intros Hf [Hnd Huniq].
  destruct (dget name (users w)) as [r0|] eqn:E; cbn [snd users with_users].
  2:{ now split. }
  assert (Hin0 : In (name, r0) (users w)) by now apply dget_in.
  split.
  { rewrite keys_dset_present; auto. unfold dmem. now rewrite E. }
  assert (Hback : forall n x e,
             In (n, x) (dset name (f r0) (users w)) ->
             py_get "email" x = VStr e ->
             exists y, In (n, y) (users w) /\ py_get "email" y = VStr e).
  { intros n x e Hin He. apply in_dset_nodup in Hin; [|exact Hnd].
    destruct Hin as [[-> ->]|[_ Hin]].
    - exists r0. split; [exact Hin0|]. now rewrite <- (stable_email f r0 Hf).
    - now exists x. }
  intros n1 r1 n2 r2 e H1 H2 E1 E2.
  destruct (Hback n1 r1 e H1 E1) as (y1 & Hy1 & Ey1).
  destruct (Hback n2 r2 e H2 E2) as (y2 & Hy2 & Ey2).
  eapply Huniq; eauto.
Qed.

Lemma unique_users_update_record_at i f w :
  stable f ->
  unique_users (users w) ->
  keeps unique_users (update_record_at i f) w.
Proof.
  unfold keeps, update_record_at. cbn [snd users with_users].
  intros Hf [Hnd Huniq]. split.
  { now rewrite keys_dmodify_at. }
  assert (Hback : forall n x e,
             In (n, x) (dmodify_at i f (users w)) ->
             py_get "email" x = VStr e ->
             exists y, In (n, y) (users w) /\ py_get "email" y = VStr e).
  { intros n x e Hin He. apply in_dmodify_at in Hin.
    destruct Hin as [Hin|(y & Hin & ->)].
    - now exists x.
    - exists y. split; [exact Hin|]. now rewrite <- (stable_email f y Hf). }
  intros n1 r1 n2 r2 e H1 H2 E1 E2.
  destruct (Hback n1 r1 e H1 E1) as (y1 & Hy1 & Ey1).
  destruct (Hback n2 r2 e H2 E2) as (y2 & Hy2 & Ey2).
  eapply Huniq; eauto.
Qed.

Lemma email_taken_false email us name r :
  email_taken email us = false ->
  In (name, r) us ->
  py_get "email" r <> VStr email.
Proof.
  unfold email_taken. intros Hfree Hin He.
  assert (X : existsb (fun entry => py_eq_str (py_get "email" (snd entry)) email)
                us = true).
  { apply existsb_exists. exists (name, r). split; [exact Hin|].
    cbn [snd]. rewrite He. cbn. apply String.eqb_refl. }
  congruence.
Qed.

Lemma unique_users_register id_bytes salt_bytes now username email password w :
  unique_users (users w) ->
  dmem username (users w) = false ->
  email_taken email (users w) = false ->
  keeps unique_users
    (put_users
       (dset username
          (new_user_record id_bytes salt_bytes now username email password)
          (users w))) w.
Proof.
  unfold keeps, put_users. cbn [snd users with_users].
  intros [Hnd Huniq] Hfree Hemail.
  rewrite dset_absent by exact Hfree. split.
  - rewrite map_app. cbn [map fst].
    apply NoDup_app; [exact Hnd | repeat constructor; intros [] |].
    intros k Hk [<-|[]]. apply dmem_keys in Hk. congruence.
  - intros n1 r1 n2 r2 e H1 H2 E1 E2.
    apply in_app_or in H1. apply in_app_or in H2.
    destruct H1 as [H1|[[= <- <-]|[]]], H2 as [H2|[[= <- <-]|[]]].
    + eapply Huniq; eauto.
    + cbn in E2. injection E2 as <-.
      now destruct (email_taken_false email (users w) n1 r1 Hemail H1).
    + cbn in E1. injection E1 as <-.
      now destruct (email_taken_false email (users w) n2 r2 Hemail H2).
    + reflexivity.
Qed.

Ltac unique_step :=
  first
    [ apply unique_users_update_record;
        [first [ apply stable_write_chat
               | apply stable_dpop; not_identity
               | apply stable_dset; not_identity ] |]
    | apply unique_users_update_record_at; [apply stable_dpop; not_identity|]
    | apply unique_users_register; assumption
    | keeps_step ].

Lemma unique_users_write_chat name chat_id chat_data w :
  unique_users (users w) ->
  keeps unique_users (write_chat name chat_id chat_data) w.
Proof. intros H. unfold write_chat. repeat unique_step. Qed.

Lemma unique_users_validate_scan now token : forall items i w,
  unique_users (users w) ->
  keeps unique_users (validate_scan now token i items) w.
Proof.
  induction items as [|[k v] items IH]; intros i w H; cbn [validate_scan].
  - repeat unique_step.
  - apply keeps_bind.
    + unfold validate_entry. repeat unique_step.
    + intros [v0|] Hk; [repeat unique_step | now apply IH].
Qed.

Lemma perform_unique_users c w :
  unique_users (users w) -> unique_users (users (perform c w)).
Proof.
  intros H. destruct c; cbn [perform];
    match goal with
    | |- unique_users (users (snd (?c w))) => change (keeps unique_users c w)
    end.
  - unfold register_user. apply keeps_bind_get_users.
    destruct (dmem username (users w)) eqn:Hfree; [repeat unique_step|].
    destruct (existsb _ (users w)) eqn:Hemail; [repeat unique_step|].
    cbv zeta. apply keeps_bind.
    + now apply unique_users_register.
    + intros ? ?. repeat unique_step.
  - unfold authenticate_user. repeat unique_step.
  - unfold create_user_session. repeat unique_step.
  - unfold validate_session. apply keeps_bind_get_users.
    now apply unique_users_validate_scan.
  - unfold create_user_chat. repeat unique_step.
  - apply keeps_update_chat_thread; auto using unique_users_write_chat.
  - apply keeps_update_chat_last_message; auto using unique_users_write_chat.
  - unfold delete_user_chat.
    repeat first [apply keeps_chat_exists | unique_step].
  - apply keeps_update_chat_title; auto using unique_users_write_chat.
  - unfold deactivate_user. repeat unique_step.
  - unfold logout_user. repeat unique_step.
Qed.

(** X15.  Usernames and emails stay unique: if the store has no repeated
    username and no two users with the same email string, then after any
    sequence of calls it still has none.  ([register_user] is the only
    call that writes an email, and it refuses one that is taken.) *)
Theorem usernames_and_emails_stay_unique (cs : list call) (w : world) :
  unique_users (users w) -> unique_users (users (perform_all cs w)).
Proof.
  revert w. induction cs as [|c cs IH]; intros w H; [exact H|].
  cbn [perform_all fold_left]. apply IH. now apply perform_unique_users.
Qed.

(* ===================================================================== *)
(** ** The request layer: who is the caller *)
(* ===================================================================== *)

Lemma prefix_count c : forall old s,
  String.prefix old s = true -> (count_char c old <= count_char c s)%nat.
Proof.
  induction old as [|a old IH]; intros s H; cbn [count_char]; [lia|].
  destruct s as [|b s]; cbn [String.prefix] in H; [discriminate|].
  destruct (ascii_dec a b) as [->|]; [|discriminate].
  cbn [count_char]. specialize (IH s H). lia.
Qed.

Lemma replace_skip_without_space : forall s,
  count_char " " s = O -> replace_skip "Bearer " "" 0 s = s.
Proof.
  induction s as [|c s IH]; intros Hc; [reflexivity|].
  cbn [replace_skip].
  destruct (String.prefix "Bearer " (String c s)) eqn:E.
  - apply (prefix_count " ") in E. cbn [count_char] in E, Hc.
    change (Ascii.eqb "B" " ") with false in E.
    cbn in E. cbn [count_char] in Hc. lia.
  - f_equal. apply IH. cbn [count_char] in Hc.
    destruct (Ascii.eqb c " "); [discriminate | exact Hc].
Qed.

Lemma bearer_is_dropped s :
  str_replace "Bearer " "" ("Bearer " ++ s) = str_replace "Bearer " "" s.
Proof. unfold str_replace. vm_compute ("Bearer " ++ s)%string. cbn. now destruct s. Qed.

Lemma token_is_extracted token :
  count_char " " token = O ->
  str_replace "Bearer " "" ("Bearer " ++ token) = token
  /\ str_replace "Bearer " "" token = token.
Proof.
  intros H. rewrite bearer_is_dropped. split;
    now apply replace_skip_without_space.
Qed.

Lemma b64url_digit_no_space n :
  Ascii.eqb (Encoding.b64url_digit n) " " = false.
Proof.
  unfold Encoding.b64url_digit.
  remember (N.to_nat n) as k eqn:Hk. clear Hk n.
  do 64 (destruct k as [|k]; [reflexivity|]). reflexivity.
Qed.

Lemma token_urlsafe_no_space : forall n bs,
  (List.length bs <= n)%nat ->
  count_char " " (Encoding.token_urlsafe bs) = O.
Proof.
  unfold Encoding.token_urlsafe.
  induction n as [n IH] using (well_founded_induction lt_wf).
  intros bs Hlen.
  destruct bs as [|a [|b [|c rest]]]; cbn [Encoding.b64url_nopad count_char];
    rewrite ?b64url_digit_no_space; cbn [Nat.add]; auto.
  apply (IH (List.length rest)); cbn [List.length] in Hlen; lia.
Qed.

Lemma session_token_no_space token_bytes :
  count_char " " (_generate_session_token token_bytes) = O.
Proof. apply (token_urlsafe_no_space (List.length token_bytes)). lia. Qed.

Lemma lawful_strict : lawful strict.
Proof. now repeat split. Qed.

Lemma session_user_of_identity V username user_id thread_id thread :
  lawful V ->
  as_thread thread_id = Some thread ->
  SessionUser_of V (identity username (VStr user_id) thread_id)
  = Some (Models.mk_SessionUser username user_id thread).
Proof.
  intros (Hs & _ & _) Ht. unfold SessionUser_of, identity.
  change (py_get "username" _) with (VStr username).
  change (py_get "user_id" _) with (VStr user_id).
  change (py_get "thread_id" _) with thread_id.
  rewrite !Hs. unfold optional.
  destruct thread_id; try discriminate; cbn in Ht; injection Ht as <-;
    [reflexivity | now rewrite Hs].
Qed.

Lemma get_current_user_live V now header token username r user_id thread w :
  lawful V ->
  header <> EmptyString ->
  str_replace "Bearer " "" header = token ->
  store_ok w ->
  dget username (users w) = Some r ->
  token_owner token username (users w) ->
  holds_token token r = true ->
  session_live now r ->
  dget "user_id" r = Some (VStr user_id) ->
  as_thread (py_get "thread_id" r) = Some thread ->
  get_current_user V now (Some header) w
  = (Sent (Models.mk_SessionUser username user_id thread), w).
Proof.
  intros HV Hne Htok Hok Hr Hown Hh (expires & Hp & Hlt) Hid Hth.
  destruct header as [|c header]; [now destruct Hne|].
  unfold get_current_user, h_try, h_bind, call_store. rewrite Htok.
  unfold validate_session, bind, get_users.
  rewrite (validate_scan_owner now token username r expires (VStr user_id)
             Hh Hp Hlt Hid (users w) 0%nat w Hok Hr Hown).
  cbn [identity py_truthy negb].
  change (VDict _) with (identity username (VStr user_id) (py_get "thread_id" r)).
  now rewrite (session_user_of_identity V _ _ _ thread HV Hth).
Qed.

Lemma get_current_user_dead V now header w w' :
  header <> EmptyString ->
  validate_session now (str_replace "Bearer " "" header) w = (Ok VNone, w') ->
  get_current_user V now (Some header) w
  = (Thrown (Http (HTTPException 401 (Text "Invalid session token"))), w').
Proof.
  intros Hne Hv. destruct header as [|c header]; [now destruct Hne|].
  unfold get_current_user, h_try, h_bind, call_store. now rewrite Hv.
Qed.

(** X16.  Whatever the header, the validators and the store,
    [get_current_user] either returns a [SessionUser] or raises an
    [HTTPException] with status 401, never another exception.  Without a
    header, or with an empty one, the detail is "Authorization header
    required" and the store is not touched.  With a header, every failure
    (no such session, an expired one, a record that does not validate as
    a [SessionUser], an exception of the store) carries the detail
    "Invalid session token": the handler's own "Invalid or expired
    session" is raised inside the [try] and replaced.  The store that is
    left is the one [validate_session] leaves on the header without its
    occurrences of "Bearer ". *)
Theorem get_current_user_answers_401
    (V : validators) (now : datetime) (authorization : option string) (w : world) :
  let unauthorized d := Thrown (Http (HTTPException 401 (Text d))) in
  match authorization with
  | None | Some EmptyString =>
      get_current_user V now authorization w
      = (unauthorized "Authorization header required", w)
  | Some header =>
      snd (get_current_user V now authorization w)
      = snd (validate_session now (str_replace "Bearer " "" header) w)
      /\ ((exists user, fst (get_current_user V now authorization w) = Sent user)
          \/ fst (get_current_user V now authorization w)
             = unauthorized "Invalid session token")
  end.
Proof.
  intros unauthorized. destruct authorization as [[|c header]|]; try reflexivity.
  unfold get_current_user, h_try, h_bind, call_store.
  destruct (validate_session now _ w) as [[user_data|e] w1]; cbn [fst snd].
  - destruct (negb (py_truthy user_data)); [split; [reflexivity | now right]|].
    unfold validated.
    destruct (SessionUser_of V user_data) as [user|]; cbn [ret raise fst snd];
      unfold ret, raise; cbn [fst snd]; split; eauto.
  - split; [reflexivity | now right].
Qed.

(** X17.  A header that carries a live session token authenticates as the
    owner of the token.  If [token] has no space in it, is held by
    [username]'s record only, the record's expiry is after [now], its
    [user_id] is a string and its [thread_id] a string, [None] or absent,
    then both the header "Bearer " followed by the token and the bare
    token give the [SessionUser] of that user, and the store is left as
    it was; this for any validators that return a value of the declared
    type as it is. *)
Theorem bearer_token_identifies_caller
    (V : validators) (now : datetime) (token username : string)
    (r : list (string * value)) (user_id : string) (thread : option string)
    (w : world) :
  lawful V ->
  store_ok w ->
  dget username (users w) = Some r ->
  token_owner token username (users w) ->
  holds_token token r = true ->
  session_live now r ->
  dget "user_id" r = Some (VStr user_id) ->
  as_thread (py_get "thread_id" r) = Some thread ->
  token <> EmptyString ->
  count_char " " token = O ->
  get_current_user V now (Some ("Bearer " ++ token)%string) w
  = (Sent (Models.mk_SessionUser username user_id thread), w)
  /\ get_current_user V now (Some token) w
     = (Sent (Models.mk_SessionUser username user_id thread), w).
Proof.
  intros HV Hok Hr Hown Hh Hlive Hid Hth Hne Hsp.
  destruct (token_is_extracted token Hsp) as [H1 H2].
  split.
  - apply (get_current_user_live V now _ token username r); auto. discriminate.
  - apply (get_current_user_live V now _ token username r); auto.
Qed.

(* ===================================================================== *)
(** ** The request layer: register, log in, log out *)
(* ===================================================================== *)

Lemma token_owner_granted token username r us :
  NoDup (map fst us) ->
  token_unused token us ->
  token_owner token username (dset username r us).
Proof.
  intros Hnd Hun n x Hin Hh.
  apply in_dset_nodup in Hin; [|exact Hnd].
  destruct Hin as [[-> _]|[_ Hin]]; [reflexivity|].
  rewrite (Hun n x Hin) in Hh. discriminate.
Qed.

Lemma nodup_keys_dset {V} k (v : V) d :
  NoDup (map fst d) -> NoDup (map fst (dset k v d)).
Proof.
  intros Hnd. destruct (dmem k d) eqn:E.
  - rewrite keys_dset_present by exact E. exact Hnd.
  - rewrite keys_dset_absent by exact E.
    apply NoDup_app; [exact Hnd | repeat constructor; intros [] |].
    intros k' Hk [<-|[]]. apply dmem_keys in Hk. congruence.
Qed.

(** The world [create_user_session] leaves authenticates the bearer of
    the token it returned, until the expiry. *)
Lemma granted_world_authenticates V token_bytes expires username r user_id
    thread us file_log at_time :
  reads_isoformat ->
  lawful V ->
  NoDup (map fst us) ->
  dget username us = Some r ->
  token_unused (_generate_session_token token_bytes) us ->
  valid expires = true ->
  ltb at_time expires = true ->
  dget "user_id" r = Some (VStr user_id) ->
  as_thread (py_get "thread_id" r) = Some thread ->
  let token := _generate_session_token token_bytes in
  let us' := dset username (grant token expires r) us in
  let w' := mk_world us' (Some (Json us')) true file_log in
  get_current_user V at_time (Some ("Bearer " ++ token)%string) w'
  = (Sent (Models.mk_SessionUser username user_id thread), w').
Proof.
  intros Hreads HV Hnd Hr Hun Hval Hlt Hid Hth token us' w'.
  apply (get_current_user_live V at_time _ token username
           (grant token expires r)).
  - exact HV.
  - discriminate.
  - apply token_is_extracted, session_token_no_space.
  - unfold store_ok, w', us'. cbn [users]. now apply nodup_keys_dset.
  - unfold w', us'. cbn [users]. apply dget_dset_same.
  - unfold w', us'. cbn [users]. now apply token_owner_granted.
  - unfold grant, holds_token, py_get.
    rewrite dget_dset_other by discriminate. rewrite dget_dset_same.
    simpl. apply String.eqb_refl.
  - exists expires. split; [|exact Hlt].
    unfold grant, py_get_default. rewrite dget_dset_same.
    cbn [fromisoformat_value].
    now apply Hreads.
  - unfold grant. now rewrite !dget_dset_other by discriminate.
  - unfold grant, py_get. now rewrite !dget_dset_other by discriminate.
Qed.

Lemma new_user_record_unused token id_bytes salt_bytes now username email password :
  holds_token token
    (new_user_record id_bytes salt_bytes now username email password) = false.
Proof. reflexivity. Qed.

Lemma token_unused_app token us us' :
  token_unused token us -> token_unused token us' -> token_unused token (us ++ us').
Proof.
  intros H1 H2 n x Hin. apply in_app_or in Hin.
  destruct Hin; [eapply H1 | eapply H2]; eauto.
Qed.

(** X18.  [POST /api/auth/register] with a free username and a free email
    answers [success=True] with the new [user_id], the username and the
    email as given and no chats, and with a session token; the header
    "Bearer " followed by that token then authenticates as the new user
    at any time before the expiry, 24 hours after the session was made.
    The file holds the store that is left. *)
Theorem register_endpoint_opens_session
    (V : validators) (id_bytes salt_bytes token_bytes : list byte)
    (now later expires : datetime) (username email password : string)
    (w : world) :
  reads_isoformat ->
  lawful V ->
  store_ok w ->
  dmem username (users w) = false ->
  email_taken email (users w) = false ->
  writable w = true ->
  valid later = true ->
  add_24_hours later = Ok expires ->
  token_unused (_generate_session_token token_bytes) (users w) ->
  let token := _generate_session_token token_bytes in
  let user_id := Encoding.token_urlsafe id_bytes in
  exists w',
    register_endpoint V id_bytes salt_bytes token_bytes now later
      username email password w
    = (Sent (Models.mk_AuthResponse true "User registered successfully"
               (Some (Models.mk_UserResponse user_id username email None))
               (Some token)),
       w')
    /\ in_sync w'
    /\ forall at_time,
         ltb at_time expires = true ->
         get_current_user V at_time (Some ("Bearer " ++ token)%string) w'
         = (Sent (Models.mk_SessionUser username user_id None), w').
Proof.
  intros Hreads HV Hok Hfree Hemail Hwr Hval Hexp Hun token user_id.
  pose proof HV as (Hs & _ & _).
  set (r := new_user_record id_bytes salt_bytes now username email password).
  set (us1 := users w ++ [(username, r)]).
  assert (Hnone : dget username (users w) = None) by now apply dmem_false_iff.
  assert (Hr : dget username us1 = Some r).
  { unfold us1. rewrite dget_app_absent by exact Hnone.
    cbn [dget]. now rewrite String.eqb_refl. }
  assert (Hnd : NoDup (map fst us1)).
  { unfold us1. rewrite map_app.
    apply NoDup_app; [exact Hok | repeat constructor; intros [] |].
    intros k Hk Hin. cbn [map fst In] in Hin. destruct Hin as [Hin|[]].
    subst k. apply dmem_keys in Hk. congruence. }
  assert (Hun1 : token_unused token us1).
  { apply token_unused_app; [exact Hun|].
    intros n x [H|[]]. injection H as _ <-. reflexivity. }
  eexists. split; [|split].
  - unfold register_endpoint, try_or_500.
    unfold bind at 1.
    rewrite (register_fresh id_bytes salt_bytes now username email password w
               Hfree Hemail Hwr).
    fold r. fold us1.
    unfold bind at 1. unfold lift at 1. cbn [py_value_getitem py_getitem dget String.eqb Ascii.eqb Bool.eqb].
    cbn [py_truthy].
    unfold bind at 1.
    rewrite (create_session_known token_bytes later username
               (mk_world us1 (Some (Json us1)) true
                  (log w ++ [LogInfo ("New user registered: " ++ username)]))
               r expires Hr Hexp eq_refl).
    cbn [users log].
    unfold bind, lift, validated, UserResponse_of, AuthResponse_of, optional, ret.
    cbn [py_value_getitem py_getitem dget String.eqb Ascii.eqb Bool.eqb].
    rewrite !Hs. reflexivity.
  - reflexivity.
  - intros at_time Hlt.
    apply (granted_world_authenticates V token_bytes expires username r
             user_id None us1); auto.
    now apply (add_24_hours_valid later).
Qed.

(** X19.  [POST /api/auth/register] with a username or an email that a
    record already has answers [success=False] with the message of
    [register_user], without user data and without a session token, and
    leaves the store, the file and the log as they were: no session is
    made, and a session of the existing account stays. *)
Theorem register_endpoint_rejects_duplicate
    (V : validators) (id_bytes salt_bytes token_bytes : list byte)
    (now later : datetime) (username email password : string) (w : world) :
  lawful V ->
  dmem username (users w) = true \/ email_taken email (users w) = true ->
  exists message,
    register_endpoint V id_bytes salt_bytes token_bytes now later
      username email password w
    = (Sent (Models.mk_AuthResponse false message None None), w)
    /\ (message = "Username already exists"
        \/ message = "Email already exists").
Proof.
  intros (Hs & _ & _) Htaken.
  assert (Hreg : exists message,
             register_user id_bytes salt_bytes now username email password w
             = (Ok (failure message), w)
             /\ (message = "Username already exists"
                 \/ message = "Email already exists")).
  { destruct (dmem username (users w)) eqn:Hname.
    - eexists. split; [now apply register_taken_username | now left].
    - destruct Htaken as [|Hmail]; [discriminate|].
      eexists. split; [now apply register_taken_email | now right]. }
  destruct Hreg as (message & Hreg & Hmsg).
  exists message. split; [|exact Hmsg].
  unfold register_endpoint, try_or_500. unfold bind at 1. rewrite Hreg.
  unfold failure, bind, lift, validated, AuthResponse_of, ret.
  cbn [py_value_getitem py_getitem dget String.eqb Ascii.eqb Bool.eqb py_truthy].
  now rewrite Hs.
Qed.

Lemma token_unused_dset_record token username r us :
  token_unused token us ->
  holds_token token r = false ->
  token_unused token (dset username r us).
Proof.
  intros Hun Hr n x Hin. apply in_dset in Hin.
  destruct Hin as [->|Hin]; [exact Hr | eapply Hun; eauto].
Qed.

(** X20.  [POST /api/auth/login] with the password of an active account
    answers [success=True] with the stored [user_id], [username], [email]
    and chats, and with a session token; the header "Bearer " followed by
    that token then authenticates as that account at any time before the
    expiry, 24 hours after the session was made.  The file holds the
    store that is left. *)
Theorem login_endpoint_opens_session
    (V : validators) (token_bytes : list byte) (now later expires : datetime)
    (username password : string) (w : world)
    (r : list (string * value)) (stored : value) (user_id name email : string)
    (chats : list (string * value)) (thread : option string) :
  reads_isoformat ->
  lawful V ->
  store_ok w ->
  dget username (users w) = Some r ->
  active r = true ->
  dget "password_hash" r = Some stored ->
  _verify_password password stored = true ->
  dget "user_id" r = Some (VStr user_id) ->
  dget "username" r = Some (VStr name) ->
  dget "email" r = Some (VStr email) ->
  py_get_default "chats" (VDict []) r = VDict chats ->
  as_thread (py_get "thread_id" r) = Some thread ->
  writable w = true ->
  valid later = true ->
  add_24_hours later = Ok expires ->
  token_unused (_generate_session_token token_bytes) (users w) ->
  let token := _generate_session_token token_bytes in
  exists w',
    login_endpoint V token_bytes now later username password w
    = (Sent (Models.mk_AuthResponse true "Login successful"
               (Some (Models.mk_UserResponse user_id name email (Some chats)))
               (Some token)),
       w')
    /\ in_sync w'
    /\ forall at_time,
         ltb at_time expires = true ->
         get_current_user V at_time (Some ("Bearer " ++ token)%string) w'
         = (Sent (Models.mk_SessionUser username user_id thread), w').
Proof.
  intros Hreads HV Hok Hr Hact Hstored Hver Hid Hname Hemail Hchats Hth Hwr Hval Hexp
    Hun token.
  pose proof HV as (Hs & _ & Hd).
  set (r1 := dset "last_login" (VStr (isoformat now)) r).
  set (us1 := dset username r1 (users w)).
  assert (Hr1 : dget username us1 = Some r1) by apply dget_dset_same.
  assert (Hnd : NoDup (map fst us1)) by now apply nodup_keys_dset.
  assert (Hun1 : token_unused token us1).
  { apply token_unused_dset_record; [exact Hun|].
    unfold r1, holds_token, py_get. rewrite dget_dset_other by discriminate.
    apply (Hun username r). now apply dget_in. }
  eexists. split; [|split].
  - unfold login_endpoint, try_or_500.
    unfold bind at 1.
    rewrite (authenticate_success now username password w r stored
               (VStr user_id) (VStr name) (VStr email)
               Hr Hact Hstored Hver Hid Hname Hemail Hwr).
    fold r1. fold us1. rewrite Hchats.
    unfold bind at 1. unfold lift at 1.
    cbn [py_value_getitem py_getitem dget String.eqb Ascii.eqb Bool.eqb py_truthy].
    unfold bind at 1.
    rewrite (create_session_known token_bytes later username
               (mk_world us1 (Some (Json us1)) true
                  (log w ++ [LogInfo ("User authenticated: " ++ username)]))
               r1 expires Hr1 Hexp eq_refl).
    cbn [users log].
    unfold bind, lift, validated, UserResponse_of, AuthResponse_of, optional, ret.
    cbn [py_value_getitem py_getitem dget String.eqb Ascii.eqb Bool.eqb].
    rewrite !Hs, Hd. reflexivity.
  - reflexivity.
  - intros at_time Hlt.
    apply (granted_world_authenticates V token_bytes expires username r1
             user_id thread us1); auto.
    + now apply (add_24_hours_valid later).
    + unfold r1. now rewrite dget_dset_other by discriminate.
    + unfold r1, py_get. now rewrite dget_dset_other by discriminate.
Qed.

(** X21.  [POST /api/auth/login] for an unknown username, a deactivated
    account or a password that does not verify answers [success=False]
    without user data and without a session token, and leaves the store,
    the file and the log as they were: no session is made and
    [last_login] is not written. *)
Theorem login_endpoint_rejects
    (V : validators) (token_bytes : list byte) (now later : datetime)
    (username password : string) (w : world) :
  lawful V ->
  match dget username (users w) with
  | None => True
  | Some r =>
      active r = false
      \/ exists stored, dget "password_hash" r = Some stored
                        /\ _verify_password password stored = false
  end ->
  exists message,
    login_endpoint V token_bytes now later username password w
    = (Sent (Models.mk_AuthResponse false message None None), w)
    /\ (message = "Invalid username or password"
        \/ message = "Account is deactivated").
Proof.
  intros (Hs & _ & _) Hcase.
  assert (Hauth : exists message,
             authenticate_user now username password w
             = (Ok (failure message), w)
             /\ (message = "Invalid username or password"
                 \/ message = "Account is deactivated")).
  { destruct (dget username (users w)) as [r|] eqn:Hr.
    - destruct (active r) eqn:Hact.
      + destruct Hcase as [|(stored & Hstored & Hver)]; [discriminate|].
        eexists. split; [|now left].
        now apply (authenticate_wrong_password now username password w r stored).
      + eexists. split; [|now right].
        now apply (authenticate_deactivated now username password w r).
    - eexists. split; [|now left].
      unfold authenticate_user, bind, get_users. now rewrite Hr. }
  destruct Hauth as (message & Hauth & Hmsg).
  exists message. split; [|exact Hmsg].
  unfold login_endpoint, try_or_500. unfold bind at 1. rewrite Hauth.
  unfold failure, bind, lift, validated, AuthResponse_of, ret.
  cbn [py_value_getitem py_getitem dget String.eqb Ascii.eqb Bool.eqb py_truthy].
  now rewrite Hs.
Qed.

Lemma holds_token_nonempty token r : holds_token token r = true -> r <> [].
Proof. intros H ->. discriminate. Qed.

(** X22.  [POST /api/auth/logout] with a header that carries a live
    session token answers success, removes the two session fields from
    the caller's record and saves; from then on the same header is
    refused with 401 "Invalid session token", by [get_current_user] and
    so by the logout endpoint itself, at any time. *)
Theorem logout_endpoint_revokes_token
    (V : validators) (now : datetime) (token username : string)
    (r : list (string * value)) (user_id : string) (thread : option string)
    (w : world) :
  lawful V ->
  store_ok w ->
  dget username (users w) = Some r ->
  token_owner token username (users w) ->
  holds_token token r = true ->
  session_live now r ->
  dget "user_id" r = Some (VStr user_id) ->
  as_thread (py_get "thread_id" r) = Some thread ->
  count_char " " token = O ->
  writable w = true ->
  let header := Some ("Bearer " ++ token)%string in
  let refused := Http (HTTPException 401 (Text "Invalid session token")) in
  exists w',
    logout_endpoint V now header w
    = (Sent (VDict [ ("success", VBool true);
                     ("message", VStr "Logged out successfully") ]), w')
    /\ users w' = dset username (clear_session r) (users w)
    /\ in_sync w'
    /\ forall later,
         get_current_user V later header w' = (Thrown refused, w')
         /\ logout_endpoint V later header w' = (Thrown refused, w').
Proof.
  intros HV Hok Hr Hown Hh Hlive Hid Hth Hsp Hwr header refused.
  set (us1 := dset username (clear_session r) (users w)).
  set (w1 := mk_world us1 (Some (Json us1)) true (log w)).
  assert (Hlive1 : get_current_user V now header w
                   = (Sent (Models.mk_SessionUser username user_id thread), w)).
  { apply (get_current_user_live V now _ token username r); auto.
    - discriminate.
    - now apply token_is_extracted. }
  assert (Hdead : forall later, get_current_user V later header w1 = (Thrown refused, w1)).
  { intros later. apply get_current_user_dead; [discriminate|].
    destruct (token_is_extracted token Hsp) as [-> _].
    unfold validate_session, bind, get_users. cbn [users w1].
    apply validate_scan_unused.
    apply token_unused_dset; auto. apply holds_token_cleared. }
  exists w1. split; [|split; [|split]].
  - unfold logout_endpoint, h_bind. rewrite Hlive1.
    cbn [Models.su_username]. unfold try_or_500, bind.
    rewrite (logout_known username w r Hr (holds_token_nonempty token r Hh) Hwr).
    reflexivity.
  - reflexivity.
  - reflexivity.
  - intros later. split; [apply Hdead|].
    unfold logout_endpoint, h_bind. now rewrite Hdead.
Qed.

(* ===================================================================== *)
(** ** The request layer: the list of chats *)
(* ===================================================================== *)

Lemma ascii_compare_lt_trans a b c :
  Ascii.compare a b = Lt -> Ascii.compare b c = Lt -> Ascii.compare a c = Lt.
Proof. unfold Ascii.compare. rewrite !N.compare_lt_iff. lia. Qed.

Lemma ascii_compare_refl a : Ascii.compare a a = Eq.
Proof. unfold Ascii.compare. apply N.compare_refl. Qed.

Lemma string_compare_lt_trans : forall a b c,
  String.compare a b = Lt -> String.compare b c = Lt -> String.compare a c = Lt.
Proof.
  induction a as [|x a IH]; intros [|y b] [|z c]; cbn [String.compare];
    try congruence.
  destruct (Ascii.compare x y) eqn:Exy; try discriminate;
    destruct (Ascii.compare y z) eqn:Eyz; try discriminate; intros H1 H2.
  - apply Ascii.compare_eq_iff in Exy, Eyz. subst.
    rewrite ascii_compare_refl. eauto.
  - apply Ascii.compare_eq_iff in Exy. subst. now rewrite Eyz.
  - apply Ascii.compare_eq_iff in Eyz. subst. now rewrite Exy.
  - now rewrite (ascii_compare_lt_trans x y z).
Qed.

Lemma string_compare_refl : forall a, String.compare a a = Eq.
Proof.
  induction a as [|x a IH]; cbn [String.compare]; [reflexivity|].
  now rewrite ascii_compare_refl.
Qed.

Lemma string_leb_cases a b :
  String.leb a b = true <-> String.compare a b = Lt \/ a = b.
Proof.
  unfold String.leb. destruct (String.compare a b) eqn:E; split; auto.
  - intros _. right. now apply String.compare_eq_iff.
  - discriminate.
  - intros [H|H]; [discriminate|]. subst.
    rewrite string_compare_refl in E. discriminate.
Qed.

Lemma string_leb_trans a b c :
  String.leb a b = true -> String.leb b c = true -> String.leb a c = true.
Proof.
  rewrite !string_leb_cases. intros [H1| ->] [H2| ->]; auto.
  left. now apply (string_compare_lt_trans a b c).
Qed.

Lemma string_ltb_leb a b : String.ltb a b = true -> String.leb a b = true.
Proof. unfold String.ltb, String.leb. now destruct (String.compare a b). Qed.

Lemma string_not_ltb_leb a b : String.ltb a b = false -> String.leb b a = true.
Proof.
  unfold String.ltb, String.leb. rewrite (String.compare_antisym b a).
  now destruct (String.compare a b).
Qed.

Lemma insert_recent_perm x : forall l, Permutation (insert_recent x l) (x :: l).
Proof.
  induction l as [|y l IH]; cbn [insert_recent]; [reflexivity|].
  destruct (String.ltb (recency x) (recency y)); [|reflexivity].
  rewrite IH. apply perm_swap.
Qed.

Lemma sort_recent_perm : forall l, Permutation (sort_recent l) l.
Proof.
  induction l as [|x l IH]; [reflexivity|].
  change (sort_recent (x :: l)) with (insert_recent x (sort_recent l)).
  rewrite insert_recent_perm. now constructor.
Qed.

Lemma insert_recent_sorted x : forall l,
  StronglySorted not_older l -> StronglySorted not_older (insert_recent x l).
Proof.
  induction l as [|y l IH]; intros Hs; cbn [insert_recent].
  - repeat constructor.
  - apply StronglySorted_inv in Hs. destruct Hs as [Hl Hy].
    destruct (String.ltb (recency x) (recency y)) eqn:E.
    + constructor; [now apply IH|].
      apply (Permutation_Forall (Permutation_sym (insert_recent_perm x l))).
      constructor; [|exact Hy].
      unfold not_older. now apply string_ltb_leb.
    + apply string_not_ltb_leb in E.
      constructor; [now constructor|].
      constructor; [exact E|].
      revert Hy. apply Forall_impl. intros z Hz. unfold not_older in *.
      now apply (string_leb_trans _ (recency y)).
Qed.

Lemma sort_recent_sorted : forall l, StronglySorted not_older (sort_recent l).
Proof.
  induction l as [|x l IH]; [constructor|].
  change (sort_recent (x :: l)) with (insert_recent x (sort_recent l)).
  now apply insert_recent_sorted.
Qed.

(** The loop builds one response per chat, under the chat's key and in
    the order of the mapping, and leaves the store alone. *)
Lemma chat_responses_ids V : forall items w chats w',
  chat_responses V items w = (Ok chats, w') ->
  w' = w /\ map Models.cr_chat_id chats = map fst items.
Proof.
  induction items as [|[chat_id chat_data] items IH]; intros w chats w' H.
  - injection H as <- <-. now split.
  - cbn [chat_responses] in H. unfold bind, lift, validated, ret, raise in H.
    destruct (py_value_getitem chat_data "title") as [title|]; [|discriminate].
    destruct (py_value_getitem chat_data "created_at") as [created_at|];
      [|discriminate].
    destruct (py_value_get chat_data "last_message_at" VNone)
      as [last_message_at|]; [|discriminate].
    destruct (py_value_get chat_data "message_count" (VInt 0))
      as [message_count|]; [|discriminate].
    destruct (ChatResponse_of V chat_id title created_at last_message_at
                message_count) as [chat|] eqn:Hc; [|discriminate].
    destruct (chat_responses V items w) as [[rest|e] w1] eqn:Hrest;
      [|discriminate].
    injection H as <- <-. destruct (IH w rest w1 Hrest) as [-> Hids].
    split; [reflexivity|]. cbn [map fst]. f_equal; [|exact Hids].
    unfold ChatResponse_of in Hc.
    destruct (as_str V title), (as_str V created_at),
      (optional (as_str V) last_message_at), (as_int V message_count);
      try discriminate.
    now injection Hc as <-.
Qed.

(** X23.  When [GET /api/chats] answers with a list, the caller was
    authenticated by [get_current_user], the list has exactly one
    response per chat of that user, under the chat's key, and it has the
    most recent first: every response stands before all those whose
    [last_message_at or created_at] is smaller.  Listing changes nothing
    beyond what authenticating did.  This holds for any validators. *)
Theorem chat_list_has_most_recent_first
    (V : validators) (now : datetime) (authorization : option string)
    (w w' : world) (listed : list Models.ChatResponse) :
  chats_endpoint V now authorization w = (Sent listed, w') ->
  exists user chats,
    get_current_user V now authorization w = (Sent user, w')
    /\ get_user_chats (Models.su_username user) w' = VDict chats
    /\ Permutation (map Models.cr_chat_id listed) (map fst chats)
    /\ StronglySorted not_older listed.
Proof.
  unfold chats_endpoint, h_bind. intros H.
  destruct (get_current_user V now authorization w) as [[user|e] w1];
    [|discriminate].
  unfold try_or_500, bind, lift, ret in H.
  destruct (get_user_chats (Models.su_username user) w1) as [| | | |chats0|chats]
    eqn:Hchats; try discriminate.
  cbn [py_items] in H.
  destruct (chat_responses V chats w1) as [[built|e] w2] eqn:Hbuilt;
    [|discriminate].
  injection H as <- <-.
  destruct (chat_responses_ids V chats w1 built w2 Hbuilt) as [-> Hids].
  exists user, chats. split; [reflexivity|]. split; [exact Hchats|]. split.
  - rewrite <- Hids. apply Permutation_map, sort_recent_perm.
  - apply sort_recent_sorted.
Qed.

(* ===================================================================== *)
(** ** The list of all users *)
(* ===================================================================== *)

Lemma stable_listed f r :
  stable f ->
  dmem "email" r = true /\ dmem "created_at" r = true ->
  dmem "email" (f r) = true /\ dmem "created_at" (f r) = true.
Proof.
  intros Hf [H1 H2]. unfold dmem in *.
  rewrite !Hf by (cbn; tauto). now split.
Qed.

Lemma listable_update_record name f w :
  stable f ->
  listable (users w) ->
  keeps listable (update_record name f) w.
Proof.
  unfold keeps, update_record. intros Hf H.
  destruct (dget name (users w)) as [r0|] eqn:E; cbn [snd users with_users];
    [|exact H].
  intros n x Hin. apply in_dset in Hin. destruct Hin as [->|Hin].
  - apply stable_listed; [exact Hf|]. apply (H name). now apply dget_in.
  - now apply (H n).
Qed.

Lemma listable_update_record_at i f w :
  stable f ->
  listable (users w) ->
  keeps listable (update_record_at i f) w.
Proof.
  unfold keeps, update_record_at. cbn [snd users with_users].
  intros Hf H n x Hin. apply in_dmodify_at in Hin.
  destruct Hin as [Hin|(y & Hin & ->)]; [now apply (H n)|].
  apply stable_listed; [exact Hf|]. now apply (H n).
Qed.

Lemma listable_register id_bytes salt_bytes now username email password w :
  listable (users w) ->
  keeps listable
    (put_users
       (dset username
          (new_user_record id_bytes salt_bytes now username email password)
          (users w))) w.
Proof.
  unfold keeps, put_users. cbn [snd users with_users].
  intros H n x Hin. apply in_dset in Hin. destruct Hin as [->|Hin].
  - now split.
  - now apply (H n).
Qed.

Ltac listable_step :=
  first
    [ apply listable_update_record;
        [first [ apply stable_write_chat
               | apply stable_dpop; not_identity
               | apply stable_dset; not_identity ] |]
    | apply listable_update_record_at; [apply stable_dpop; not_identity|]
    | apply listable_register; assumption
    | keeps_step ].

Lemma listable_write_chat name chat_id chat_data w :
  listable (users w) ->
  keeps listable (write_chat name chat_id chat_data) w.
Proof. intros H. unfold write_chat. repeat listable_step. Qed.

Lemma listable_validate_scan now token : forall items i w,
  listable (users w) ->
  keeps listable (validate_scan now token i items) w.
Proof.
  induction items as [|[k v] items IH]; intros i w H; cbn [validate_scan].
  - repeat listable_step.
  - apply keeps_bind.
    + unfold validate_entry. repeat listable_step.
    + intros [v0|] Hk; [repeat listable_step | now apply IH].
Qed.

Lemma perform_listable c w :
  listable (users w) -> listable (users (perform c w)).
Proof.
  intros H. destruct c; cbn [perform];
    match goal with
    | |- listable (users (snd (?c w))) => change (keeps listable c w)
    end.
  - unfold register_user. repeat listable_step.
  - unfold authenticate_user. repeat listable_step.
  - unfold create_user_session. repeat listable_step.
  - unfold validate_session. apply keeps_bind_get_users.
    now apply listable_validate_scan.
  - unfold create_user_chat. repeat listable_step.
  - apply keeps_update_chat_thread; auto using listable_write_chat.
  - apply keeps_update_chat_last_message; auto using listable_write_chat.
  - unfold delete_user_chat.
    repeat first [apply keeps_chat_exists | listable_step].
  - apply keeps_update_chat_title; auto using listable_write_chat.
  - unfold deactivate_user. repeat listable_step.
  - unfold logout_user. repeat listable_step.
Qed.

Lemma summaries_listable : forall us,
  listable us ->
  exists out, summaries us = Ok out /\ Forall2 summary_of us out.
Proof.
  induction us as [|[name r] us IH]; intros H.
  - exists []. split; [reflexivity | constructor].
  - destruct (H name r (or_introl eq_refl)) as [He Hc].
    apply dmem_true_iff in He, Hc.
    destruct He as [email He], Hc as [created_at Hc].
    destruct IH as (out & Hout & Hall).
    { intros n x Hin. apply (H n). now right. }
    eexists. cbn [summaries user_summary]. unfold py_getitem.
    rewrite He, Hc, Hout. split; [reflexivity|].
    constructor; [|exact Hall].
    do 4 eexists. cbn [fst snd]. repeat split; eauto.
Qed.

Lemma summaries_ok_listable : forall us out,
  summaries us = Ok out -> listable us.
Proof.
  induction us as [|[name r] us IH]; intros out H n x Hin; [destruct Hin|].
  cbn [summaries user_summary] in H. unfold py_getitem in H.
  destruct (dget "email" r) eqn:He; [|discriminate].
  destruct (dget "created_at" r) eqn:Hc; [|discriminate].
  destruct (summaries us) as [rest|] eqn:Hrest; [|discriminate].
  destruct Hin as [[= <- <-]|Hin].
  - unfold dmem. now rewrite He, Hc.
  - now apply (IH rest eq_refl n).
Qed.

(** X24.  [get_all_users] returns exactly when every record has an
    [email] and a [created_at] (otherwise the subscript raises), a
    condition that no call into the store ever breaks once it holds.  So
    after any sequence of calls from such a store it returns one summary
    per user, in the order of the store; each summary is a dict of the
    five keys [username], [email], [created_at], [last_login] and
    [is_active], with the key of the store as [username] and the stored
    email: the [user_id], the password hash and the session token are not
    in it. *)
Theorem get_all_users_lists_every_user (cs : list call) (w : world) :
  listable (users w) ->
  (forall w0, listable (users w0) <-> exists out, get_all_users w0 = Ok out)
  /\ exists out,
       get_all_users (perform_all cs w) = Ok out
       /\ Forall2 summary_of (users (perform_all cs w)) out.
Proof.
  intros H. split.
  - intros w0. split.
    + intros H0. destruct (summaries_listable _ H0) as (out & Hout & _).
      now exists out.
    + intros [out Hout]. now apply (summaries_ok_listable _ out).
  - apply summaries_listable.
    revert w H. induction cs as [|c cs IH]; intros w H; [exact H|].
    cbn [perform_all fold_left]. apply IH. now apply perform_listable.
Qed.

(* ===================================================================== *)
(** ** Who gets in *)
(* ===================================================================== *)

(** What the scan returns, other than [None], is the identity of a record
    that carries the token and has not expired; the record is in the
    store that is left, as it was. *)
Lemma validate_scan_found now token : forall items done w v w',
  users w = done ++ items ->
  validate_scan now token (List.length done) items w = (Ok v, w') ->
  v <> VNone ->
  exists name r user_id,
    v = identity name user_id (py_get "thread_id" r)
    /\ In (name, r) items
    /\ In (name, r) (users w')
    /\ map fst (users w') = map fst (users w)
    /\ holds_token token r = true
    /\ session_live now r
    /\ dget "user_id" r = Some user_id.
Proof.
  induction items as [|[k r] items IH]; intros done w v w' Hus Hrun Hv.
  - cbn in Hrun. injection Hrun as <- _. now destruct Hv.
  - cbn [validate_scan] in Hrun. unfold bind in Hrun.
    assert (Hnext : forall r1 w1,
               users w1 = (done ++ [(k, r1)]) ++ items ->
               map fst (users w1) = map fst (users w) ->
               validate_scan now token (S (List.length done)) items w1
               = (Ok v, w') ->
               exists name r0 user_id,
                 v = identity name user_id (py_get "thread_id" r0)
                 /\ In (name, r0) ((k, r) :: items)
                 /\ In (name, r0) (users w')
                 /\ map fst (users w') = map fst (users w)
                 /\ holds_token token r0 = true
                 /\ session_live now r0
                 /\ dget "user_id" r0 = Some user_id).
    { intros r1 w1 Hus1 Hkeys Hrun1.
      replace (S (List.length done)) with (List.length (done ++ [(k, r1)]))
        in Hrun1 by (rewrite length_app; cbn; lia).
      destruct (IH _ _ _ _ Hus1 Hrun1 Hv)
        as (name & r0 & uid & A & B & C & D & E & F & G).
      exists name, r0, uid. repeat split; auto.
      - now right.
      - congruence. }
    assert (Hsame : users w = (done ++ [(k, r)]) ++ items)
      by now rewrite <- app_assoc.
    destruct (holds_token token r) eqn:Hh.
    2:{ rewrite validate_entry_other in Hrun by exact Hh.
        now apply (Hnext r w). }
    destruct (fromisoformat_value (py_get_default "session_expires" (VStr "") r))
      as [[expires|expires utcoffset]|e] eqn:Hp.
    2:{ rewrite (validate_entry_aware now token _ k r w expires utcoffset) in Hrun
          by assumption.
        now apply (Hnext r w). }
    2:{ rewrite (validate_entry_unreadable now token _ k r w e) in Hrun
          by assumption.
        now apply (Hnext r w). }
    destruct (ltb now expires) eqn:Hlt.
    + destruct (dget "user_id" r) as [user_id|] eqn:Hid.
      * rewrite (validate_entry_live now token _ k r w expires user_id) in Hrun
          by assumption.
        injection Hrun as <- <-.
        exists k, r, user_id. repeat split; auto.
        -- now left.
        -- rewrite Hus. apply in_or_app. right. now left.
        -- now exists expires.
      * rewrite (validate_entry_live_no_id now token _ k r w expires) in Hrun
          by assumption.
        now apply (Hnext r w).
    + rewrite (validate_entry_expired now token _ k r w expires Hh Hp Hlt)
        in Hrun.
      apply (Hnext (clear_session r) (expire_at (List.length done) w)); auto.
      * rewrite expire_at_users, Hus.
        rewrite !dmodify_at_length. now rewrite <- app_assoc.
      * rewrite expire_at_users. now rewrite !keys_dmodify_at.
Qed.

Lemma in_nodup_dget {V} (d : list (string * V)) k v :
  NoDup (map fst d) -> In (k, v) d -> dget k d = Some v.
Proof.
  intros Hnd Hin.
  assert (Hk : dmem k d = true).
  { apply dmem_keys. apply in_map_iff. now exists (k, v). }
  apply dmem_true_iff in Hk. destruct Hk as [v' Hv'].
  rewrite Hv'. f_equal.
  apply (nodup_keys_functional d k v' v Hnd); [now apply dget_in | exact Hin].
Qed.

(** Whom [get_current_user] lets in. *)
Lemma get_current_user_admits V now header w user w' :
  get_current_user V now (Some header) w = (Sent user, w') ->
  exists name r user_id,
    SessionUser_of V (identity name user_id (py_get "thread_id" r)) = Some user
    /\ In (name, r) (users w)
    /\ In (name, r) (users w')
    /\ map fst (users w') = map fst (users w)
    /\ holds_token (str_replace "Bearer " "" header) r = true
    /\ session_live now r
    /\ dget "user_id" r = Some user_id.
Proof.
  intros H. destruct header as [|c header]; [discriminate|].
  unfold get_current_user, h_try, h_bind, call_store in H.
  set (token := str_replace "Bearer " "" (String c header)) in *.
  destruct (validate_session now token w) as [[v|e] w1] eqn:Hv; [|discriminate].
  destruct (negb (py_truthy v)) eqn:Htruthy; [discriminate|].
  unfold validated in H.
  destruct (SessionUser_of V v) as [u|] eqn:Hu; [|discriminate].
  injection H as <- <-.
  unfold validate_session, bind, get_users in Hv.
  destruct (validate_scan_found now token (users w) [] w v w1 eq_refl Hv)
    as (name & r & uid & -> & A & B & C & D & E & F).
  { intros ->. discriminate. }
  exists name, r, uid. repeat split; auto.
Qed.

Lemma session_user_of_username V name user_id thread_id user :
  lawful V ->
  SessionUser_of V (identity name user_id thread_id) = Some user ->
  Models.su_username user = name.
Proof.
  intros (Hs & _ & _). unfold SessionUser_of, identity.
  change (py_get "username" _) with (VStr name). rewrite Hs.
  destruct (as_str V _); [|discriminate].
  destruct (optional _ _); [|discriminate].
  now intros [= <-].
Qed.

(** X25.  [get_current_user] lets in only the bearer of a live session:
    whenever it returns a [SessionUser], some record of the store carries
    the token of the header (the header without its occurrences of
    "Bearer "), with a stored expiry that [datetime.fromisoformat] reads,
    in whatever spelling it reads, as a time after [now];
    that record is the same before and after the call, the store has the
    same users in the same order, and (for validators that return a
    string as it is) the [username] returned is the key of that record.
    A request without a header is never let in. *)
Theorem only_live_sessions_are_admitted
    (V : validators) (now : datetime) (authorization : option string)
    (w w' : world) (user : Models.SessionUser) :
  get_current_user V now authorization w = (Sent user, w') ->
  exists header name r,
    authorization = Some header
    /\ In (name, r) (users w)
    /\ In (name, r) (users w')
    /\ map fst (users w') = map fst (users w)
    /\ holds_token (str_replace "Bearer " "" header) r = true
    /\ session_live now r
    /\ (lawful V -> Models.su_username user = name).
Proof.
  intros H. destruct authorization as [header|]; [|discriminate].
  destruct (get_current_user_admits V now header w user w' H)
    as (name & r & uid & Hu & A & B & C & D & E & F).
  exists header, name, r. repeat split; auto.
  intros HV. exact (session_user_of_username V name uid _ user HV Hu).
Qed.

Lemma get_current_user_throws V now authorization w e w' :
  get_current_user V now authorization w = (Thrown e, w') ->
  exists d, e = Http (HTTPException 401 (Text d)).
Proof.
  destruct authorization as [[|c header]|];
    try (intros [= <- _]; now eexists).
  unfold get_current_user, h_try, h_bind, call_store.
  destruct (validate_session now _ w) as [[user_data|e0] w1].
  - destruct (negb (py_truthy user_data)); [intros [= <- _]; now eexists|].
    unfold validated.
    destruct (SessionUser_of V user_data); unfold ret, raise;
      [discriminate | intros [= <- _]; now eexists].
  - intros [= <- _]. now eexists.
Qed.

(** The caller that [get_current_user] let in has a record in the store
    that is left, and the record is not empty. *)
Lemma admitted_caller_has_record V now authorization w user w1 :
  lawful V ->
  store_ok w ->
  get_current_user V now authorization w = (Sent user, w1) ->
  exists r, dget (Models.su_username user) (users w1) = Some r /\ r <> [].
Proof.
  intros HV Hok Hu.
  destruct authorization as [header|]; [|discriminate].
  destruct (get_current_user_admits V now header w user w1 Hu)
    as (name & r & uid & Hs & A & B & C & D & E & F).
  apply (session_user_of_username V name uid (py_get "thread_id" r) user HV)
    in Hs.
  exists r. rewrite Hs. split.
  - apply in_nodup_dget; [|exact B]. rewrite C. exact Hok.
  - intros ->. discriminate.
Qed.

(** X26.  [GET /api/auth/me] answers from the record of the caller that
    [get_current_user] let in, and never answers 404: that caller is a
    user of the store, with a record that is not empty, so the test
    [if not user_data] cannot succeed.  When the record has strings as
    [user_id], [username] and [email] and a dict (or nothing) as [chats],
    the answer is those four values; the store is left as authentication
    left it.  This in a store without repeated usernames, for validators
    that return a value of the declared type as it is. *)
Theorem me_answers_from_the_callers_record
    (V : validators) (now : datetime) (authorization : option string)
    (w : world) :
  lawful V ->
  store_ok w ->
  let answer := get_current_user_info V now authorization w in
  (forall d, fst answer <> Thrown (Http (HTTPException 404 d)))
  /\ (forall user w1,
        get_current_user V now authorization w = (Sent user, w1) ->
        snd answer = w1
        /\ exists r,
             dget (Models.su_username user) (users w1) = Some r
             /\ forall user_id name email chats,
                  dget "user_id" r = Some (VStr user_id) ->
                  dget "username" r = Some (VStr name) ->
                  dget "email" r = Some (VStr email) ->
                  py_get_default "chats" (VDict []) r = VDict chats ->
                  fst answer
                  = Sent (Models.mk_UserResponse user_id name email (Some chats))).
Proof.
  intros HV Hok answer. unfold answer, get_current_user_info, h_bind.
  destruct (get_current_user V now authorization w) as [[user|e] w1] eqn:Hu.
  - destruct (admitted_caller_has_record V now authorization w user w1 HV Hok Hu)
      as (r & Hr & Hne).
    unfold get_user_by_username. rewrite Hr.
    destruct r as [|entry r]; [now destruct Hne|].
    cbn [py_truthy negb]. unfold call_store. split.
    + intros d.
      match goal with
      | |- fst (match ?c w1 with _ => _ end) <> _ =>
          destruct (c w1) as [[a|e] w2]; discriminate
      end.
    + intros user0 w0 [= <- <-]. split.
      * unfold bind, lift, validated, ret, raise.
        repeat match goal with
               | |- context [match ?x with _ => _ end] =>
                   lazymatch x with
                   | context [match _ with _ => _ end] => fail
                   | _ => destruct x
                   end
               end; reflexivity.
      * exists (entry :: r). split; [exact Hr|].
        intros user_id name email chats Hid Hname Hemail Hchats.
        pose proof HV as (Hs & _ & Hd).
        unfold bind, lift, py_value_getitem, py_value_get, py_getitem.
        rewrite Hid, Hname, Hemail, Hchats.
        unfold validated, UserResponse_of, optional.
        now rewrite !Hs, Hd.
  - split; [|discriminate].
    cbn [fst]. intros d [= ->].
    destruct (get_current_user_throws V now authorization w _ w1 Hu) as [d' X].
    discriminate.
Qed.

(* ===================================================================== *)
(** ** A call touches the record of the user it names, and no other *)
(* ===================================================================== *)

Section Frame.
Variables (other : string) (kept : option (list (string * value))).

Let untouched (us : list (string * list (string * value))) : Prop :=
  dget other us = kept.

Lemma frame_update_record name f w :
  other <> name ->
  untouched (users w) ->
  keeps untouched (update_record name f) w.
Proof.
  unfold keeps, untouched, update_record. intros Hne H.
  destruct (dget name (users w)); cbn [snd users with_users]; [|exact H].
  now rewrite dget_dset_other by exact Hne.
Qed.

Lemma frame_put_users name (r : list (string * value)) w :
  other <> name ->
  untouched (users w) ->
  keeps untouched (put_users (dset name r (users w))) w.
Proof.
  unfold keeps, untouched, put_users. cbn [snd users with_users].
  intros Hne H. now rewrite dget_dset_other by exact Hne.
Qed.

Lemma perform_frame c name w :
  subject c = Some name ->
  other <> name ->
  untouched (users w) ->
  untouched (users (perform c w)).
Proof.
  intros Hc Hne H.
  destruct c; cbn [subject] in Hc; try discriminate; injection Hc as ->;
    cbn [perform];
    match goal with
    | |- untouched (users (snd (?c w))) => change (keeps untouched c w)
    end;
    unfold register_user, authenticate_user, create_user_session,
      create_user_chat, update_chat_thread, update_chat_last_message,
      delete_user_chat, update_chat_title, deactivate_user, logout_user,
      chat_exists, chat_object, write_chat;
    repeat first [ apply frame_update_record; [exact Hne|]
                 | apply frame_put_users; [exact Hne|]
                 | keeps_step ].
Qed.
End Frame.

(** X27.  Every call of the store that names a user ([register_user],
    [authenticate_user], [create_user_session], the five chat calls,
    [deactivate_user], logging out) leaves the record of every other user
    exactly as it was, and adds and removes no other user, whether the
    call returns or raises.  ([validate_session], which names no user, is
    the one call that can write to several records.) *)
Theorem calls_touch_only_their_user
    (c : call) (username other : string) (w : world) :
  subject c = Some username ->
  other <> username ->
  dget other (users (perform c w)) = dget other (users w).
Proof.
  intros Hc Hne.
  now apply (perform_frame other (dget other (users w)) c username w).
Qed.

Lemma get_user_chats_absent username chat_id w chats :
  get_user_chats username w = VDict chats ->
  dget chat_id chats = None ->
  delete_user_chat username chat_id w = (Ok false, w).
Proof.
  unfold get_user_chats, py_get_default. intros Hc Hchat.
  apply delete_chat_absent.
  destruct (dget username (users w)) as [r|]; [right | now left].
  exists r. split; [reflexivity|].
  destruct (dget "chats" r) as [v|]; [right | now left].
  exists chats. subst v. now split.
Qed.

(** X28.  [DELETE /api/chats/{chat_id}] acts on the chats of the caller
    that [get_current_user] let in, and on nothing else.  Whatever it
    answers, the record of every other user is as authentication left it.
    A [chat_id] that is not among the caller's chats is answered 404
    "Chat not found" and nothing changes, also when it is a chat of
    another user.  A [chat_id] among the caller's chats is answered with
    success, and the caller's chats are then the others, in their order.
    This holds for any validators. *)
Theorem delete_chat_is_scoped_to_caller
    (V : validators) (now : datetime) (authorization : option string)
    (chat_id : string) (w w1 : world) (user : Models.SessionUser) :
  get_current_user V now authorization w = (Sent user, w1) ->
  let caller := Models.su_username user in
  let answer := delete_chat V now authorization chat_id w in
  (forall other, other <> caller ->
                 dget other (users (snd answer)) = dget other (users w1))
  /\ (forall chats,
        get_user_chats caller w1 = VDict chats ->
        dget chat_id chats = None ->
        answer = (Thrown (Http (HTTPException 404 (Text "Chat not found"))), w1))
  /\ (forall r chats chat,
        dget caller (users w1) = Some r ->
        dget "chats" r = Some (VDict chats) ->
        dget chat_id chats = Some chat ->
        writable w1 = true ->
        fst answer = Sent (VDict [ ("success", VBool true);
                                   ("message", VStr "Chat deleted successfully") ])
        /\ get_user_chats caller (snd answer) = VDict (dpop chat_id chats)).
Proof.
  intros Hu caller answer. unfold answer, delete_chat, h_bind.
  rewrite Hu. fold caller.
  unfold try_http_or_500, h_bind, call_store, h_raise, h_ret.
  split; [|split].
  - intros other Hne.
    pose proof (perform_frame other (dget other (users w1))
                  (DeleteChat caller chat_id) caller w1 eq_refl Hne eq_refl)
      as Hframe.
    cbn [perform] in Hframe.
    destruct (delete_user_chat caller chat_id w1) as [[[|]|e] w2];
      cbn [negb snd users with_log] in *; exact Hframe.
  - intros chats Hc Hchat.
    now rewrite (get_user_chats_absent caller chat_id w1 chats Hc Hchat).
  - intros r chats chat Hr Hc Hchat Hwr.
    rewrite (delete_chat_known caller chat_id w1 r chats chat Hr Hc Hchat Hwr).
    cbn [negb fst snd]. split; [reflexivity|].
    unfold get_user_chats. cbn [users]. rewrite dget_dset_same.
    unfold py_get_default. now rewrite dget_dset_same.
Qed.

(* ===================================================================== *)
(** ** No call gives a user a [thread_id] *)
(* ===================================================================== *)

Lemma threadless_dset field v : field <> "thread_id" -> threadless (dset field v).
Proof.
  intros Hne r H. rewrite dget_dset_other; [exact H|].
  intros E. now apply Hne.
Qed.

Lemma threadless_dpop field : threadless (dpop field).
Proof.
  intros r H. destruct (String.eqb "thread_id" field) eqn:E.
  - apply String.eqb_eq in E. subst field. apply dget_dpop_same.
  - apply String.eqb_neq in E. now rewrite dget_dpop_other.
Qed.

Lemma threadless_write_chat chat_id chat_data :
  threadless
    (fun r =>
       match dget "chats" r with
       | Some (VDict chats) => dset "chats" (VDict (dset chat_id chat_data chats)) r
       | _ => r
       end).
Proof.
  intros r H. destruct (dget "chats" r) as [[]|]; auto.
  now rewrite dget_dset_other by discriminate.
Qed.

Lemma no_thread_update_record name f w :
  threadless f ->
  no_user_thread (users w) ->
  keeps no_user_thread (update_record name f) w.
Proof.
  unfold keeps, update_record. intros Hf H.
  destruct (dget name (users w)) as [r0|] eqn:E; cbn [snd users with_users];
    [|exact H].
  intros n x Hin. apply in_dset in Hin. destruct Hin as [->|Hin].
  - apply Hf. apply (H name). now apply dget_in.
  - now apply (H n).
Qed.

Lemma no_thread_update_record_at i f w :
  threadless f ->
  no_user_thread (users w) ->
  keeps no_user_thread (update_record_at i f) w.
Proof.
  unfold keeps, update_record_at. cbn [snd users with_users].
  intros Hf H n x Hin. apply in_dmodify_at in Hin.
  destruct Hin as [Hin|(y & Hin & ->)]; [now apply (H n)|].
  apply Hf. now apply (H n).
Qed.

Lemma no_thread_put_users name (r : list (string * value)) w :
  dget "thread_id" r = None ->
  no_user_thread (users w) ->
  keeps no_user_thread (put_users (dset name r (users w))) w.
Proof.
  unfold keeps, put_users. cbn [snd users with_users].
  intros Hr H n x Hin. apply in_dset in Hin. destruct Hin as [->|Hin].
  - exact Hr.
  - now apply (H n).
Qed.

Ltac no_thread_step :=
  first
    [ apply no_thread_update_record;
        [first [ apply threadless_write_chat
               | apply threadless_dpop
               | apply threadless_dset; discriminate ] |]
    | apply no_thread_update_record_at; [apply threadless_dpop|]
    | apply no_thread_put_users; [reflexivity|]
    | keeps_step ].

Lemma no_thread_validate_scan now token : forall items i w,
  no_user_thread (users w) ->
  keeps no_user_thread (validate_scan now token i items) w.
Proof.
  induction items as [|[k v] items IH]; intros i w H; cbn [validate_scan].
  - repeat no_thread_step.
  - apply keeps_bind.
    + unfold validate_entry. repeat no_thread_step.
    + intros [v0|] Hk; [repeat no_thread_step | now apply IH].
Qed.

Lemma perform_no_thread c w :
  no_user_thread (users w) -> no_user_thread (users (perform c w)).
Proof.
  intros H. destruct c; cbn [perform];
    match goal with
    | |- no_user_thread (users (snd (?c w))) => change (keeps no_user_thread c w)
    end;
    unfold register_user, authenticate_user, create_user_session,
      validate_session, create_user_chat, update_chat_thread,
      update_chat_last_message, delete_user_chat, update_chat_title,
      deactivate_user, logout_user, chat_exists, chat_object, write_chat;
    try (apply keeps_bind_get_users; now apply no_thread_validate_scan);
    repeat no_thread_step.
Qed.

(** X29.  No call of the store writes a [thread_id] on a user's record
    ([update_chat_thread] writes the one of a chat): from a store in
    which no record has one, no sequence of calls gives one to any
    record, and every [SessionUser] that [get_current_user] returns from
    then on has [thread_id] [None], for any validators. *)
Theorem session_user_has_no_thread
    (cs : list call) (w : world) :
  no_user_thread (users w) ->
  no_user_thread (users (perform_all cs w))
  /\ forall V now authorization user w',
       get_current_user V now authorization (perform_all cs w) = (Sent user, w') ->
       Models.su_thread_id user = None.
Proof.
  intros H.
  assert (Hall : no_user_thread (users (perform_all cs w))).
  { revert w H. induction cs as [|c cs IH]; intros w H; [exact H|].
    cbn [perform_all fold_left]. apply IH. now apply perform_no_thread. }
  split; [exact Hall|].
  intros V now authorization user w' Hu.
  destruct authorization as [header|]; [|discriminate].
  destruct (get_current_user_admits V now header _ user w' Hu)
    as (name & r & uid & Hs & A & _).
  unfold py_get in Hs. rewrite (Hall name r A) in Hs.
  unfold SessionUser_of, identity in Hs.
  destruct (as_str V _); [|discriminate].
  destruct (as_str V _); [|discriminate].
  change (py_get "thread_id" _) with VNone in Hs. cbn [optional] in Hs.
  now injection Hs as <-.
Qed.

End Library.

Lemma isoparse_reads_isoformat : reads_isoformat isoparse.
Proof. exact isoparse_isoformat. Qed.

Example sha256_constants :
  firstn 2 SHA256.round_constants = [0x428a2f98; 0x71374491]%N
  /\ nth 63 SHA256.round_constants 0%N = 0xc67178f2%N
  /\ firstn 2 SHA256.initial_hash = [0x6a09e667; 0xbb67ae85]%N
  /\ nth 7 SHA256.initial_hash 0%N = 0x5be0cd19%N.
Proof. vm_compute. repeat split. Qed.

(** The test vectors of FIPS 180-4 and two digests computed with CPython. *)
Example sha256_abc :
  SHA256.hexdigest "abc"
  = "ba7816bf8f01cfea414140de5dae2223b00361a396177a9cb410ff61f20015ad".
Proof. vm_compute. reflexivity. Qed.

Example sha256_empty :
  SHA256.hexdigest ""
  = "e3b0c44298fc1c149afbf4c8996fb92427ae41e4649b934ca495991b7852b855".
Proof. vm_compute. reflexivity. Qed.

Example sha256_two_blocks :
  SHA256.hexdigest "abcdbcdecdefdefgefghfghighijhijkijkljklmklmnlmnomnopnopq"
  = "248d6a61d20638b8e5c026930c3e6039a33ce45964ff2167f6ecedd419db06c1".
Proof. vm_compute. reflexivity. Qed.

Example token_hex_run :
  Encoding.token_hex [x00; x0f; xa5; xff] = "000fa5ff".
Proof. reflexivity. Qed.

Example token_urlsafe_run :
  Encoding.token_urlsafe [xfb; xff; xbe; x00; x10] = "-_--ABA".
Proof. reflexivity. Qed.

Example split_run : split ":" "ab:cd" = ["ab"; "cd"].
Proof. reflexivity. Qed.

Example split_edges :
  split ":" "" = [""] /\ split ":" ":" = [""; ""] /\ split ":" "a:b:" = ["a"; "b"; ""].
Proof. repeat split. Qed.

Example isoformat_run :
  Datetime.isoformat (Datetime.mk_datetime 2024 3 9 7 5 0 0)
  = "2024-03-09T07:05:00".
Proof. reflexivity. Qed.

Example isoformat_micro_run :
  Datetime.isoformat (Datetime.mk_datetime 2024 12 31 23 59 59 1234)
  = "2024-12-31T23:59:59.001234".
Proof. reflexivity. Qed.

Example isoparse_run :
  Datetime.isoparse "2024-12-31T23:59:59.001234"
  = Ok (Datetime.Naive (Datetime.mk_datetime 2024 12 31 23 59 59 1234))
  /\ Datetime.isoparse "2024-05-16 09:30:00"
     = Ok (Datetime.Naive (Datetime.mk_datetime 2024 5 16 9 30 0 0))
  /\ Datetime.isoparse "2024-05-16"
     = Ok (Datetime.Naive (Datetime.mk_datetime 2024 5 16 0 0 0 0))
  /\ Datetime.isoparse "2024-05-16T09:30"
     = Ok (Datetime.Naive (Datetime.mk_datetime 2024 5 16 9 30 0 0))
  /\ Datetime.isoparse "2024-05-16T09"
     = Ok (Datetime.Naive (Datetime.mk_datetime 2024 5 16 9 0 0 0))
  /\ Datetime.isoparse "2024-05-16T09:30:00.123"
     = Ok (Datetime.Naive (Datetime.mk_datetime 2024 5 16 9 30 0 123000))
  /\ Datetime.isoparse "2023-02-29T00:00:00" = Raise ValueError
  /\ Datetime.isoparse "2024-05-16T09:30:00.12" = Raise ValueError
  /\ Datetime.isoparse "2024-05-16T09:30.5" = Raise ValueError
  /\ Datetime.isoparse "2024-5-16" = Raise ValueError
  /\ Datetime.isoparse "2024-05-16T" = Raise ValueError
  /\ Datetime.isoparse "" = Raise ValueError.
Proof. repeat split. Qed.

Example toordinal_run :
  toordinal (Datetime.mk_datetime 1 1 1 0 0 0 0) = 1%Z
  /\ toordinal (Datetime.mk_datetime 2024 5 17 10 30 0 0) = 739023%Z
  /\ (microseconds (Datetime.mk_datetime 2024 3 1 0 0 0 0)
      - microseconds (Datetime.mk_datetime 2024 2 28 0 0 0 0)
      = 2 * twenty_four_hours)%Z.
Proof. repeat split. Qed.

Example add_24_hours_run :
  Datetime.add_24_hours (Datetime.mk_datetime 2024 2 28 10 0 0 0)
  = Ok (Datetime.mk_datetime 2024 2 29 10 0 0 0)
  /\ Datetime.add_24_hours (Datetime.mk_datetime 2023 12 31 10 0 0 5)
     = Ok (Datetime.mk_datetime 2024 1 1 10 0 0 5)
  /\ Datetime.add_24_hours (Datetime.mk_datetime 9999 12 31 0 0 0 0)
     = Raise OverflowError.
Proof. repeat split. Qed.

Example hash_password_run :
  _hash_password sample_salt1 "pw123"
  = "000102030405060708090a0b0c0d0e0f:ba9970b1fcdbdcc0f4c21adec0d42aefa546bf13eda1e8dd15ddf94b65173349".
Proof. vm_compute. reflexivity. Qed.

Example add_24_hours_leap_run :
  Datetime.isoformat (Datetime.mk_datetime 2024 2 29 23 59 59 5)
  = "2024-02-29T23:59:59.000005"
  /\ Datetime.add_24_hours (Datetime.mk_datetime 2024 2 29 23 59 59 5)
     = Ok (Datetime.mk_datetime 2024 3 1 23 59 59 5).
Proof. split; reflexivity. Qed.

(** The end-to-end scenario: register, log in with a wrong and with the
    right password, open a session and validate it, create a chat, record
    a message, delete the chat. *)
Example scenario_register :
  fst (register_user sample_salt2 sample_salt1 sample_now
         "alice" "alice@x.com" "pw123" fresh_world)
  = Ok (VDict [ ("success", VBool true);
                ("message", VStr "User registered successfully");
                ("user_id", VStr "8OHSw7Sllod4aVpLPC0eDw") ])
  /\ db_file after_register = Some (Json (users after_register)).
Proof. vm_compute. split; reflexivity. Qed.

Example scenario_login :
  fst (authenticate_user sample_now "alice" "wrongpw" after_register)
  = Ok (failure "Invalid username or password")
  /\ fst (authenticate_user sample_now "alice" "pw123" after_register)
     = Ok (VDict [ ("success", VBool true);
                   ("message", VStr "Login successful");
                   ("user_data",
                    VDict [ ("user_id", VStr "8OHSw7Sllod4aVpLPC0eDw");
                            ("username", VStr "alice");
                            ("email", VStr "alice@x.com");
                            ("chats", VDict []) ]) ]).
Proof. vm_compute. split; reflexivity. Qed.

Example scenario_session :
  fst (create_user_session sample_salt1 sample_now "alice" after_login)
  = Ok "AAECAwQFBgcICQoLDA0ODw"
  /\ fst (validate_session isoparse sample_now "AAECAwQFBgcICQoLDA0ODw" after_session)
     = Ok (identity "alice" (VStr "8OHSw7Sllod4aVpLPC0eDw") VNone)
  /\ fst (validate_session isoparse sample_now "not-a-token" after_session) = Ok VNone
  /\ fst (validate_session isoparse (Datetime.mk_datetime 2024 5 18 9 30 0 0)
            "AAECAwQFBgcICQoLDA0ODw" after_session) = Ok VNone.
Proof. vm_compute. repeat split; reflexivity. Qed.

Example scenario_chat :
  fst (create_user_chat sample_salt1 sample_now "alice" "My Chat" after_session)
  = Ok (VStr "AAECAwQFBgcICQoLDA0ODw")
  /\ get_user_chats "alice" after_chat
     = VDict [ ("AAECAwQFBgcICQoLDA0ODw",
                VDict [ ("chat_id", VStr "AAECAwQFBgcICQoLDA0ODw");
                        ("title", VStr "My Chat");
                        ("thread_id", VNone);
                        ("created_at", VStr "2024-05-17T09:30:00");
                        ("last_message_at", VNone);
                        ("message_count", VInt 0) ]) ]
  /\ py_value_get
       (py_get "AAECAwQFBgcICQoLDA0ODw"
          match get_user_chats "alice" after_message with
          | VDict chats => chats
          | _ => []
          end)
       "message_count" VNone
     = Ok (VInt 1)
  /\ fst (delete_user_chat "alice" "AAECAwQFBgcICQoLDA0ODw" after_message)
     = Ok true
  /\ get_user_chats "alice"
       (snd (delete_user_chat "alice" "AAECAwQFBgcICQoLDA0ODw" after_message))
     = VDict []
  /\ fst (delete_user_chat "alice" "bm8tc3VjaA" after_message) = Ok false.
Proof. vm_compute. repeat split; reflexivity. Qed.

Example str_replace_run :
  str_replace "Bearer " "" "Bearer abc" = "abc"
  /\ str_replace "Bearer " "" "Bearer Bearer x" = "x"
  /\ str_replace "Bearer " "" "BearerBearer  y" = "Bearer y"
  /\ str_replace "Bearer " "" "abc" = "abc"
  /\ str_replace "aa" "b" "aaa" = "ba"
  /\ str_replace "" "-" "abc" = "-a-b-c-"
  /\ str_replace "" "-" "" = "-".
Proof. repeat split. Qed.

Example sort_recent_run :
  map Models.cr_chat_id
    (sort_recent
       [ Models.mk_ChatResponse "a" "" "2024-01-02" None 0;
         Models.mk_ChatResponse "b" "" "2024-01-01" (Some "2024-03-01") 0;
         Models.mk_ChatResponse "c" "" "2024-01-02" (Some "") 0;
         Models.mk_ChatResponse "d" "" "2024-01-05" None 0;
         Models.mk_ChatResponse "e" "" "2024-01-02" None 0 ])
  = ["b"; "d"; "a"; "c"; "e"].
Proof. reflexivity. Qed.

Example hash_verify_run :
  _verify_password "pw123" (VStr (_hash_password sample_salt1 "pw123")) = true
  /\ _verify_password "pw123" (VStr (_hash_password sample_salt1 "wrongpw")) = false
  /\ _hash_password sample_salt1 "pw123" <> _hash_password sample_salt2 "pw123"
  /\ _verify_password "pw123" (VStr (_hash_password sample_salt2 "pw123")) = true.
Proof. vm_compute. repeat split; discriminate. Qed.


Lemma verify_fails_closed_witness :
  (verify_password_body "pw123" (VStr "no delimiter here") = Raise ValueError
   /\ _verify_password "pw123" (VStr "no delimiter here") = false)
  /\ (verify_password_body "pw123" (VStr "a:b:c") = Raise ValueError
      /\ _verify_password "pw123" (VStr "a:b:c") = false).
Proof.
  split.
  - apply (verify_fails_closed "pw123" "no delimiter here"). simpl. lia.
  - apply (verify_fails_closed "pw123" "a:b:c"). simpl. lia.
Defined.

Lemma register_duplicate_rejected_witness :
  register_user sample_salt2 sample_salt1 sample_now
    "alice" "other@x.com" "secret" (alice_world true)
  = (Ok (failure "Username already exists"), alice_world true)
  /\ register_user sample_salt2 sample_salt1 sample_now
       "bob" "alice@x.com" "secret" (alice_world true)
     = (Ok (failure "Email already exists"), alice_world true).
Proof.
  split.
  - apply (proj1 (register_duplicate_rejected sample_salt2 sample_salt1
                    sample_now "alice" "other@x.com" "secret" (alice_world true))).
    reflexivity.
  - apply (proj2 (register_duplicate_rejected sample_salt2 sample_salt1
                    sample_now "bob" "alice@x.com" "secret" (alice_world true))).
    + reflexivity.
    + exists "alice", (alice_record true). split; [left|]; reflexivity.
Defined.

Lemma authenticate_failure_uniform_witness :
  authenticate_user sample_now "alice" "wrongpw" (alice_world true)
  = (Ok (failure "Invalid username or password"), alice_world true)
  /\ authenticate_user sample_now "bob" "pw123" (alice_world true)
     = (Ok (failure "Invalid username or password"), alice_world true).
Proof.
  apply (authenticate_failure_uniform sample_now sample_now (alice_world true)
           "alice" "wrongpw" "bob" "pw123" (alice_record true)
           (VStr (_hash_password sample_salt1 "pw123"))).
  - reflexivity.
  - reflexivity.
  - reflexivity.
  - vm_compute. reflexivity.
  - reflexivity.
Defined.

Lemma granted_session_validates_witness :
  exists w',
    create_user_session sample_salt2 sample_now "alice" (alice_world true)
    = (Ok (_generate_session_token sample_salt2), w')
    /\ validate_session isoparse sample_now (_generate_session_token sample_salt2) w'
       = (Ok (identity "alice" (VStr "dXNlci1hbGljZQ") VNone), w')
    /\ forall later,
         ltb later (mk_datetime 2024 5 18 9 30 0 0) = true ->
         validate_session isoparse later (_generate_session_token sample_salt2) w'
         = (Ok (identity "alice" (VStr "dXNlci1hbGljZQ") VNone), w').
Proof.
  apply (granted_session_validates isoparse sample_salt2 sample_now "alice"
           (alice_world true) (alice_record true) (VStr "dXNlci1hbGljZQ")
           (mk_datetime 2024 5 18 9 30 0 0)).
  - exact isoparse_reads_isoformat.
  - reflexivity.
  - reflexivity.
  - intros name r [[= <- <-]|[]]. reflexivity.
  - reflexivity.
  - reflexivity.
  - reflexivity.
Defined.


Example expired_session_run :
  validate_session isoparse sample_now "tok-old" expired_world
  = (Ok VNone,
     mk_world [("alice", alice_record true)]
       (Some (Json [("alice", alice_record true)])) true [])
  /\ validate_session isoparse sample_now "tok-x" spaced_past_world
     = (Ok VNone,
        mk_world [("alice", alice_record true)]
          (Some (Json [("alice", alice_record true)])) true []).
Proof. split; vm_compute; reflexivity. Qed.

Lemma one_session_per_user_witness :
  let old := _generate_session_token sample_salt1 in
  let new := _generate_session_token sample_salt2 in
  validate_session isoparse sample_later old session_world
  = (Ok (identity "alice" (VStr "dXNlci1hbGljZQ") VNone), session_world)
  /\ exists w',
       create_user_session sample_salt2 sample_later "alice" session_world
       = (Ok new, w')
       /\ (exists r',
             dget "alice" (users w') = Some r'
             /\ py_get "session_token" r' = VStr new
             /\ py_get "session_expires" r' = VStr "2024-05-18T10:30:00")
       /\ old <> new
       /\ validate_session isoparse sample_later old w' = (Ok VNone, w').
Proof.
  intros old new. split; [vm_compute; reflexivity|].
  edestruct (one_session_per_user isoparse sample_salt2 sample_later "alice"
               session_world)
    as (expires & w' & Hrun & _ & Hexp & _ & _ & (r' & Hr' & Htok & Hfield & _)
        & _ & Hfresh & Hdrawn & _).
  - change session_world
      with (perform isoparse (CreateSession sample_salt1 sample_now "alice")
              (alice_world true)).
    apply reachable_call.
    apply (reachable_init isoparse
             (Some (Json [("alice", alice_record true)])) true).
    cbn. repeat constructor. intros [].
  - vm_compute. reflexivity.
  - reflexivity.
  - reflexivity.
  - reflexivity.
  - injection Hexp as <-.
    exists w'. split; [exact Hrun|]. split; [|split].
    + exists r'. repeat split; assumption.
    + apply Hfresh. discriminate.
    + apply (Hdrawn sample_salt1 [] sample_later).
      * discriminate.
      * intros name r0 Hin _. vm_compute in Hin.
        destruct Hin as [[= <- _]|[]]. reflexivity.
      * reflexivity.
Defined.

Lemma session_for_unknown_user_is_dead_witness :
  create_user_session sample_salt2 sample_now "bob" (alice_world true)
  = (Ok (_generate_session_token sample_salt2), alice_world true)
  /\ forall cs later,
       forallb (fun c => negb (draws (_generate_session_token sample_salt2) c)) cs
       = true ->
       validate_session isoparse later (_generate_session_token sample_salt2)
         (perform_all isoparse cs (alice_world true))
       = (Ok VNone, perform_all isoparse cs (alice_world true)).
Proof.
  apply (session_for_unknown_user_is_dead isoparse sample_salt2 sample_now "bob"
           (alice_world true)).
  - reflexivity.
  - intros name r [[= <- <-]|[]]. reflexivity.
Defined.

Lemma record_message_updates_witness :
  (exists chat' chats' r' us',
     update_chat_last_message sample_now "alice" "Y2hhdC0x" chat_world
     = (Ok tt, mk_world us' (Some (Json us')) true (log chat_world))
     /\ dget "alice" us' = Some r'
     /\ dget "chats" r' = Some (VDict chats')
     /\ dget "Y2hhdC0x" chats' = Some (VDict chat')
     /\ dget "last_message_at" chat' = Some (VStr (isoformat sample_now))
     /\ dget "message_count" chat' = Some (VInt 3))
  /\ update_chat_last_message sample_now "bob" "Y2hhdC0x" chat_world
     = (Ok tt, chat_world)
  /\ update_chat_last_message sample_now "alice" "bm8tc3VjaA" chat_world
     = (Ok tt, chat_world).
Proof.
  destruct (record_message_updates sample_now "alice" "Y2hhdC0x" chat_world)
    as (Hfound & _ & _).
  destruct (record_message_updates sample_now "bob" "Y2hhdC0x" chat_world)
    as (_ & Huser & _).
  destruct (record_message_updates sample_now "alice" "bm8tc3VjaA" chat_world)
    as (_ & _ & Hchat).
  split; [|split].
  - destruct (Hfound chat_record sample_chats sample_chat 2%Z)
      as (chat' & chats' & r' & us' & Hrun & A & B & C & D & E & _);
      try reflexivity.
    exists chat', chats', r', us'. repeat split; assumption.
  - apply Huser. reflexivity.
  - apply (Hchat chat_record); [reflexivity|].
    right. exists sample_chats. split; reflexivity.
Defined.

Lemma register_appends_user_witness :
  exists w1,
    register_user sample_salt2 sample_salt1 sample_now
      "bob" "bob@x.com" "hunter2" (alice_world true)
    = (Ok (VDict [ ("success", VBool true);
                   ("message", VStr "User registered successfully");
                   ("user_id", VStr (Encoding.token_urlsafe sample_salt2)) ]), w1)
    /\ users w1
       = users (alice_world true)
           ++ [("bob", new_user_record sample_salt2 sample_salt1 sample_now
                         "bob" "bob@x.com" "hunter2")]
    /\ in_sync w1
    /\ dget "bob" (users w1)
       = Some (new_user_record sample_salt2 sample_salt1 sample_now
                 "bob" "bob@x.com" "hunter2")
    /\ (forall other r, dget other (users (alice_world true)) = Some r ->
                        dget other (users w1) = Some r).
Proof.
  apply (register_appends_user sample_salt2 sample_salt1 sample_now
           "bob" "bob@x.com" "hunter2" (alice_world true)); reflexivity.
Defined.

Lemma register_then_login_witness :
  exists w1,
    snd (register_user sample_salt2 sample_salt1 sample_now
           "alice" "alice@x.com" "pw123" fresh_world) = w1
    /\ fst (authenticate_user sample_now "alice" "pw123" w1)
       = Ok (VDict [ ("success", VBool true);
                     ("message", VStr "Login successful");
                     ("user_data",
                      VDict [ ("user_id", VStr (Encoding.token_urlsafe sample_salt2));
                              ("username", VStr "alice");
                              ("email", VStr "alice@x.com");
                              ("chats", VDict []) ]) ])
    /\ (forall other,
          other <> "pw123" ->
          ~ sha256_collision (other ++ Encoding.token_hex sample_salt1)
                             ("pw123" ++ Encoding.token_hex sample_salt1) ->
          authenticate_user sample_now "alice" other w1
          = (Ok (failure "Invalid username or password"), w1)).
Proof.
  apply (register_then_login sample_salt2 sample_salt1 sample_now sample_now
           "alice" "alice@x.com" "pw123" fresh_world); reflexivity.
Defined.

Lemma register_then_duplicates_rejected_witness :
  exists w1,
    snd (register_user sample_salt2 sample_salt1 sample_now
           "alice" "alice@x.com" "pw123" fresh_world) = w1
    /\ (forall id2 salt2 now2 email2 password2,
          register_user id2 salt2 now2 "alice" email2 password2 w1
          = (Ok (failure "Username already exists"), w1))
    /\ (forall id2 salt2 now2 username2 password2,
          dmem username2 (users w1) = false ->
          register_user id2 salt2 now2 username2 "alice@x.com" password2 w1
          = (Ok (failure "Email already exists"), w1)).
Proof.
  apply (register_then_duplicates_rejected sample_salt2 sample_salt1 sample_now
           "alice" "alice@x.com" "pw123" fresh_world); reflexivity.
Defined.

Lemma deactivate_blocks_login_keeps_session_witness :
  (exists w1,
     deactivate_user "alice" live_world = (Ok true, w1)
     /\ (forall now password,
           authenticate_user now "alice" password w1
           = (Ok (failure "Account is deactivated"), w1))
     /\ validate_session isoparse sample_now "tok-live" w1
        = (Ok (identity "alice" (VStr "dXNlci1hbGljZQ") VNone), w1))
  /\ deactivate_user "bob" live_world = (Ok false, live_world).
Proof.
  destruct (deactivate_blocks_login_keeps_session isoparse "alice" live_world)
    as (Hknown & _).
  destruct (deactivate_blocks_login_keeps_session isoparse "bob" live_world)
    as (_ & Hunknown).
  split; [|apply Hunknown; reflexivity].
  destruct (Hknown live_record) as (w1 & Hrun & _ & _ & Hauth & Hval).
  - unfold store_ok. cbn. repeat constructor. intros [].
  - reflexivity.
  - reflexivity.
  - exists w1. split; [exact Hrun|]. split; [exact Hauth|].
    apply (Hval sample_now "tok-live" (VStr "dXNlci1hbGljZQ")).
    + reflexivity.
    + exists (mk_datetime 2024 5 18 8 0 0 0). split; reflexivity.
    + reflexivity.
    + intros name r [[= <- <-]|[]] _. reflexivity.
Defined.

Lemma logout_ends_session_witness :
  (exists w1,
     logout_user "alice" live_world = (Ok tt, w1)
     /\ in_sync w1
     /\ forall later, validate_session isoparse later "tok-live" w1 = (Ok VNone, w1))
  /\ logout_user "bob" live_world = (Ok tt, live_world).
Proof.
  destruct (logout_ends_session isoparse "alice" live_world) as (Hknown & _).
  destruct (logout_ends_session isoparse "bob" live_world) as (_ & Hunknown).
  split; [|apply Hunknown; reflexivity].
  destruct (Hknown live_record "tok-live") as (w1 & Hrun & Hsync & _ & Hdead).
  - unfold store_ok. cbn. repeat constructor. intros [].
  - reflexivity.
  - reflexivity.
  - intros name r [[= <- <-]|[]] _. reflexivity.
  - reflexivity.
  - exists w1. split; [exact Hrun|]. split; [exact Hsync|].
    intros later. apply (Hdead [] later). reflexivity.
Defined.

Lemma create_chat_is_listed_witness :
  (exists w1,
     create_user_chat sample_salt1 sample_now "alice" "My Chat" (alice_world true)
     = (Ok (VStr (Encoding.token_urlsafe sample_salt1)), w1)
     /\ get_user_chats "alice" w1
        = VDict [(Encoding.token_urlsafe sample_salt1,
                  VDict (new_chat (Encoding.token_urlsafe sample_salt1)
                           "My Chat" sample_now))])
  /\ create_user_chat sample_salt1 sample_now "bob" "My Chat" (alice_world true)
     = (Ok VNone, alice_world true)
  /\ create_user_chat sample_salt1 sample_now "carol" "My Chat"
       (mk_world [("carol", [("user_id", VStr "Y2Fyb2w")])] None true [])
     = (Raise (KeyError "chats"),
        mk_world [("carol", [("user_id", VStr "Y2Fyb2w")])] None true []).
Proof.
  destruct (create_chat_is_listed sample_salt1 sample_now "alice" "My Chat"
              (alice_world true)) as (Hknown & _ & _).
  destruct (create_chat_is_listed sample_salt1 sample_now "bob" "My Chat"
              (alice_world true)) as (_ & Hunknown & _).
  destruct (create_chat_is_listed sample_salt1 sample_now "carol" "My Chat"
              (mk_world [("carol", [("user_id", VStr "Y2Fyb2w")])] None true []))
    as (_ & _ & Hlegacy).
  split; [|split].
  - destruct (Hknown (alice_record true) []) as (w1 & Hrun & _ & _ & Hlist & _);
      try reflexivity.
    exists w1. split; [exact Hrun|]. apply Hlist. reflexivity.
  - apply Hunknown. reflexivity.
  - apply (Hlegacy [("user_id", VStr "Y2Fyb2w")]); reflexivity.
Defined.

Lemma delete_chat_removes_it_witness :
  (exists w1,
     delete_user_chat "alice" "Y2hhdC0x" chat_world = (Ok true, w1)
     /\ get_user_chats "alice" w1 = VDict []
     /\ delete_user_chat "alice" "Y2hhdC0x" w1 = (Ok false, w1))
  /\ delete_user_chat "alice" "bm8tc3VjaA" chat_world = (Ok false, chat_world).
Proof.
  destruct (delete_chat_removes_it "alice" "Y2hhdC0x" chat_world)
    as (Hknown & _).
  destruct (delete_chat_removes_it "alice" "bm8tc3VjaA" chat_world)
    as (_ & Habsent).
  split.
  - destruct (Hknown chat_record sample_chats (VDict sample_chat))
      as (w1 & Hrun & _ & Hlist & _ & _ & _ & _ & Hagain); try reflexivity.
    exists w1. split; [exact Hrun|]. split; [exact Hlist | exact Hagain].
  - apply Habsent. right. exists chat_record. split; [reflexivity|].
    right. exists sample_chats. split; reflexivity.
Defined.

Lemma rename_chat_sets_title_witness :
  (exists w1 chat',
     update_chat_title "alice" "Y2hhdC0x" "Renamed" chat_world = (Ok true, w1)
     /\ chat_at "alice" "Y2hhdC0x" w1 chat'
     /\ dget "title" chat' = Some (VStr "Renamed")
     /\ dget "message_count" chat' = Some (VInt 2))
  /\ update_chat_title "bob" "Y2hhdC0x" "Renamed" chat_world
     = (Ok false, chat_world).
Proof.
  destruct (rename_chat_sets_title "alice" "Y2hhdC0x" "Renamed" chat_world)
    as (Hknown & _).
  destruct (rename_chat_sets_title "bob" "Y2hhdC0x" "Renamed" chat_world)
    as (_ & Habsent).
  split.
  - destruct (Hknown sample_chat) as (w1 & chat' & Hrun & _ & Hat & Ht & Hf & _).
    + exists chat_record, sample_chats. repeat split.
    + reflexivity.
    + exists w1, chat'. split; [exact Hrun|]. split; [exact Hat|].
      split; [exact Ht|]. rewrite Hf by discriminate. reflexivity.
  - apply Habsent. left. reflexivity.
Defined.

Lemma bind_thread_sets_thread_id_witness :
  (exists w1 chat',
     update_chat_thread "alice" "Y2hhdC0x" "thread_abc" chat_world = (Ok tt, w1)
     /\ chat_at "alice" "Y2hhdC0x" w1 chat'
     /\ dget "thread_id" chat' = Some (VStr "thread_abc")
     /\ dget "title" chat' = Some (VStr "My Chat"))
  /\ update_chat_thread "alice" "bm8tc3VjaA" "thread_abc" chat_world
     = (Ok tt, chat_world).
Proof.
  destruct (bind_thread_sets_thread_id "alice" "Y2hhdC0x" "thread_abc" chat_world)
    as (Hknown & _).
  destruct (bind_thread_sets_thread_id "alice" "bm8tc3VjaA" "thread_abc" chat_world)
    as (_ & Habsent).
  split.
  - destruct (Hknown sample_chat) as (w1 & chat' & Hrun & _ & Hat & Ht & Hf & _).
    + exists chat_record, sample_chats. repeat split.
    + reflexivity.
    + exists w1, chat'. split; [exact Hrun|]. split; [exact Hat|].
      split; [exact Ht|]. rewrite Hf by discriminate. reflexivity.
  - apply Habsent. right. exists chat_record. split; [reflexivity|].
    right. exists sample_chats. split; reflexivity.
Defined.

Lemma messages_are_counted_witness :
  exists chat',
    chat_at "alice" "Y2hhdC0x"
      (record_messages [sample_now; mk_datetime 2024 5 17 9 31 0 0]
         "alice" "Y2hhdC0x" chat_world) chat'
    /\ py_get_default "message_count" (VInt 0) chat' = VInt 4
    /\ dget "last_message_at" chat' = Some (VStr "2024-05-17T09:31:00").
Proof.
  destruct (messages_are_counted "alice" "Y2hhdC0x"
              [sample_now; mk_datetime 2024 5 17 9 31 0 0]
              chat_world sample_chat 2%Z)
    as (chat' & Hat & Hcount & _ & Hlast & _).
  - exists chat_record, sample_chats. repeat split.
  - reflexivity.
  - reflexivity.
  - exists chat'. split; [exact Hat|]. split; [exact Hcount|].
    apply (Hlast sample_now). discriminate.
Defined.

Lemma successful_calls_are_saved_witness :
  in_sync (perform isoparse (UpdateChatTitle "alice" "Y2hhdC0x" "Renamed") chat_world)
  /\ writable (perform isoparse (UpdateChatTitle "alice" "Y2hhdC0x" "Renamed") chat_world)
     = true.
Proof.
  apply (successful_calls_are_saved isoparse
           (UpdateChatTitle "alice" "Y2hhdC0x" "Renamed") chat_world);
    reflexivity.
Defined.

Lemma register_on_readonly_file_witness :
  exists w1,
    register_user sample_salt2 sample_salt1 sample_now
      "alice" "alice@x.com" "pw123" (mk_world [] None false [])
    = (Raise OSError, w1)
    /\ users w1
       = [("alice", new_user_record sample_salt2 sample_salt1 sample_now
                      "alice" "alice@x.com" "pw123")]
    /\ db_file w1 = None.
Proof.
  destruct (register_on_readonly_file sample_salt2 sample_salt1 sample_now
              "alice" "alice@x.com" "pw123" (mk_world [] None false []))
    as (w1 & Hrun & Hus & Hfile & _); try reflexivity.
  exists w1. split; [exact Hrun|]. split; [exact Hus | exact Hfile].
Defined.

Lemma users_and_identities_persist_witness :
  exists r',
    dget "alice"
      (users (perform_all isoparse
                [ DeactivateUser "alice";
                  CreateSession sample_salt2 sample_now "alice";
                  Logout "alice";
                  Register sample_salt2 sample_salt1 sample_now
                    "alice" "other@x.com" "secret" ]
                (alice_world true)))
    = Some r'
    /\ forall field, In field identity_fields ->
                     dget field r' = dget field (alice_record true).
Proof.
  apply (users_and_identities_persist isoparse _ (alice_world true) "alice"
           (alice_record true)).
  reflexivity.
Defined.

Lemma usernames_and_emails_stay_unique_witness :
  unique_users
    (users (perform_all isoparse
              [ Register sample_salt2 sample_salt1 sample_now
                  "bob" "alice@x.com" "secret";
                Register sample_salt2 sample_salt1 sample_now
                  "bob" "bob@x.com" "secret" ]
              (alice_world true))).
Proof.
  apply (usernames_and_emails_stay_unique isoparse _ (alice_world true)).
  split.
  - cbn. repeat constructor. intros [].
  - intros n1 r1 n2 r2 e [[= <- <-]|[]] [[= <- <-]|[]] _ _. reflexivity.
Defined.

Lemma bearer_token_identifies_caller_witness :
  get_current_user isoparse strict sample_now (Some "Bearer tok-live") live_world
  = (Sent (Models.mk_SessionUser "alice" "dXNlci1hbGljZQ" None), live_world)
  /\ get_current_user isoparse strict sample_now (Some "tok-live") live_world
     = (Sent (Models.mk_SessionUser "alice" "dXNlci1hbGljZQ" None), live_world).
Proof.
  apply (bearer_token_identifies_caller isoparse strict sample_now "tok-live" "alice"
           live_record "dXNlci1hbGljZQ" None live_world).
  - exact lawful_strict.
  - repeat constructor; cbn; intuition.
  - reflexivity.
  - intros name r0 [H|[]] _. now injection H.
  - reflexivity.
  - eexists. split; [vm_compute; reflexivity | reflexivity].
  - reflexivity.
  - reflexivity.
  - discriminate.
  - reflexivity.
Defined.

Lemma register_endpoint_opens_session_witness :
  exists w',
    register_endpoint strict sample_salt2 sample_salt1 sample_salt2
      sample_now sample_now "bob" "bob@x.com" "hunter2" (alice_world true)
    = (Sent (Models.mk_AuthResponse true "User registered successfully"
               (Some (Models.mk_UserResponse (Encoding.token_urlsafe sample_salt2)
                        "bob" "bob@x.com" None))
               (Some (_generate_session_token sample_salt2))),
       w')
    /\ in_sync w'
    /\ forall at_time,
         ltb at_time (mk_datetime 2024 5 18 9 30 0 0) = true ->
         get_current_user isoparse strict at_time
           (Some ("Bearer " ++ _generate_session_token sample_salt2)%string) w'
         = (Sent (Models.mk_SessionUser "bob" (Encoding.token_urlsafe sample_salt2)
                    None), w').
Proof.
  apply (register_endpoint_opens_session isoparse strict sample_salt2 sample_salt1
           sample_salt2 sample_now sample_now (mk_datetime 2024 5 18 9 30 0 0)
           "bob" "bob@x.com" "hunter2" (alice_world true)).
  - exact isoparse_reads_isoformat.
  - exact lawful_strict.
  - repeat constructor; cbn; intuition.
  - reflexivity.
  - reflexivity.
  - reflexivity.
  - reflexivity.
  - reflexivity.
  - intros name r [H|[]]. injection H as _ <-. reflexivity.
Defined.

Lemma register_endpoint_rejects_duplicate_witness :
  exists message,
    register_endpoint strict sample_salt2 sample_salt1 sample_salt2
      sample_now sample_now "alice" "new@x.com" "hunter2" live_world
    = (Sent (Models.mk_AuthResponse false message None None), live_world)
    /\ (message = "Username already exists"
        \/ message = "Email already exists").
Proof.
  apply (register_endpoint_rejects_duplicate strict sample_salt2 sample_salt1
           sample_salt2 sample_now sample_now "alice" "new@x.com" "hunter2"
           live_world).
  - exact lawful_strict.
  - left. reflexivity.
Defined.

Lemma login_endpoint_opens_session_witness :
  exists w',
    login_endpoint strict sample_salt2 sample_now sample_now
      "alice" "pw123" (alice_world true)
    = (Sent (Models.mk_AuthResponse true "Login successful"
               (Some (Models.mk_UserResponse "dXNlci1hbGljZQ" "alice"
                        "alice@x.com" (Some [])))
               (Some (_generate_session_token sample_salt2))),
       w')
    /\ in_sync w'
    /\ forall at_time,
         ltb at_time (mk_datetime 2024 5 18 9 30 0 0) = true ->
         get_current_user isoparse strict at_time
           (Some ("Bearer " ++ _generate_session_token sample_salt2)%string) w'
         = (Sent (Models.mk_SessionUser "alice" "dXNlci1hbGljZQ" None), w').
Proof.
  apply (login_endpoint_opens_session isoparse strict sample_salt2 sample_now sample_now
           (mk_datetime 2024 5 18 9 30 0 0) "alice" "pw123" (alice_world true)
           (alice_record true) (VStr (_hash_password sample_salt1 "pw123"))
           "dXNlci1hbGljZQ" "alice" "alice@x.com" [] None).
  - exact isoparse_reads_isoformat.
  - exact lawful_strict.
  - repeat constructor; cbn; intuition.
  - reflexivity.
  - reflexivity.
  - reflexivity.
  - vm_compute. reflexivity.
  - reflexivity.
  - reflexivity.
  - reflexivity.
  - reflexivity.
  - reflexivity.
  - reflexivity.
  - reflexivity.
  - reflexivity.
  - intros name r [H|[]]. injection H as _ <-. reflexivity.
Defined.

Lemma login_endpoint_rejects_witness :
  exists message,
    login_endpoint strict sample_salt2 sample_now sample_now
      "alice" "pw123" (alice_world false)
    = (Sent (Models.mk_AuthResponse false message None None), alice_world false)
    /\ (message = "Invalid username or password"
        \/ message = "Account is deactivated").
Proof.
  apply (login_endpoint_rejects strict sample_salt2 sample_now sample_now
           "alice" "pw123" (alice_world false)).
  - exact lawful_strict.
  - left. reflexivity.
Defined.

Lemma logout_endpoint_revokes_token_witness :
  let header := Some "Bearer tok-live" in
  let refused := Http (HTTPException 401 (Text "Invalid session token")) in
  exists w',
    logout_endpoint isoparse strict sample_now header live_world
    = (Sent (VDict [ ("success", VBool true);
                     ("message", VStr "Logged out successfully") ]), w')
    /\ users w' = dset "alice" (clear_session live_record) (users live_world)
    /\ in_sync w'
    /\ forall later,
         get_current_user isoparse strict later header w' = (Thrown refused, w')
         /\ logout_endpoint isoparse strict later header w' = (Thrown refused, w').
Proof.
  apply (logout_endpoint_revokes_token isoparse strict sample_now "tok-live" "alice"
           live_record "dXNlci1hbGljZQ" None live_world).
  - exact lawful_strict.
  - repeat constructor; cbn; intuition.
  - reflexivity.
  - intros name r0 [H|[]] _. now injection H.
  - reflexivity.
  - eexists. split; [vm_compute; reflexivity | reflexivity].
  - reflexivity.
  - reflexivity.
  - reflexivity.
  - reflexivity.
Defined.

Lemma chat_list_has_most_recent_first_witness :
  let listed :=
    [ Models.mk_ChatResponse "c3" "Third" "2024-05-12T10:00:00" None 0;
      Models.mk_ChatResponse "c1" "First" "2024-05-02T10:00:00"
        (Some "2024-05-10T10:05:00") 1;
      Models.mk_ChatResponse "c2" "Second" "2024-05-05T10:00:00" None 0 ] in
  chats_endpoint isoparse strict sample_now (Some "Bearer tok-live") listing_world
  = (Sent listed, listing_world)
  /\ exists user chats,
       get_current_user isoparse strict sample_now (Some "Bearer tok-live") listing_world
       = (Sent user, listing_world)
       /\ get_user_chats (Models.su_username user) listing_world = VDict chats
       /\ Permutation (map Models.cr_chat_id listed) (map fst chats)
       /\ StronglySorted not_older listed.
Proof.
  split; [vm_compute; reflexivity|].
  apply (chat_list_has_most_recent_first isoparse strict sample_now
           (Some "Bearer tok-live") listing_world listing_world).
  vm_compute. reflexivity.
Defined.

Lemma get_all_users_lists_every_user_witness :
  let w :=
    perform_all isoparse
      [ Register sample_salt2 sample_salt1 sample_now "bob" "bob@x.com" "secret";
        CreateSession sample_salt1 sample_now "bob";
        DeactivateUser "alice" ]
      (alice_world true) in
  (forall w0, listable (users w0) <-> exists out, get_all_users w0 = Ok out)
  /\ exists out, get_all_users w = Ok out /\ Forall2 summary_of (users w) out.
Proof.
  apply (get_all_users_lists_every_user isoparse _ (alice_world true)).
  intros name r [[= <- <-]|[]]. now split.
Defined.

Example get_all_users_run :
  get_all_users
    (perform_all isoparse
       [ Register sample_salt2 sample_salt1 sample_now "bob" "bob@x.com" "secret";
         CreateSession sample_salt1 sample_now "bob";
         DeactivateUser "alice" ]
       (alice_world true))
  = Ok [ VDict [ ("username", VStr "alice"); ("email", VStr "alice@x.com");
                 ("created_at", VStr "2024-05-01T08:00:00");
                 ("last_login", VNone); ("is_active", VBool false) ];
         VDict [ ("username", VStr "bob"); ("email", VStr "bob@x.com");
                 ("created_at", VStr "2024-05-17T09:30:00");
                 ("last_login", VNone); ("is_active", VBool true) ] ].
Proof. vm_compute. reflexivity. Qed.

Lemma only_live_sessions_are_admitted_witness :
  exists header name r,
    Some "Bearer tok-live" = Some header
    /\ In (name, r) (users spaced_live_world)
    /\ In (name, r) (users spaced_live_world)
    /\ map fst (users spaced_live_world) = map fst (users spaced_live_world)
    /\ holds_token (str_replace "Bearer " "" header) r = true
    /\ session_live isoparse sample_now r
    /\ (lawful strict -> "alice" = name).
Proof.
  apply (only_live_sessions_are_admitted isoparse strict sample_now
           (Some "Bearer tok-live") spaced_live_world spaced_live_world
           (Models.mk_SessionUser "alice" "dXNlci1hbGljZQ" None)).
  vm_compute. reflexivity.
Defined.

Example spaced_expiry_is_read :
  get_current_user isoparse strict sample_now (Some "Bearer tok-live")
    spaced_live_world
  = (Sent (Models.mk_SessionUser "alice" "dXNlci1hbGljZQ" None),
     spaced_live_world)
  /\ session_live isoparse sample_now
       (spaced_record "tok-live" "2024-05-18 08:00:00").
Proof.
  split; [vm_compute; reflexivity|].
  exists (mk_datetime 2024 5 18 8 0 0 0). split; reflexivity.
Qed.

Lemma me_answers_from_the_callers_record_witness :
  let answer :=
    get_current_user_info isoparse strict sample_now (Some "Bearer tok-live") live_world in
  (forall d, fst answer <> Thrown (Http (HTTPException 404 d)))
  /\ (forall user w1,
        get_current_user isoparse strict sample_now (Some "Bearer tok-live") live_world
        = (Sent user, w1) ->
        snd answer = w1
        /\ exists r,
             dget (Models.su_username user) (users w1) = Some r
             /\ forall user_id name email chats,
                  dget "user_id" r = Some (VStr user_id) ->
                  dget "username" r = Some (VStr name) ->
                  dget "email" r = Some (VStr email) ->
                  py_get_default "chats" (VDict []) r = VDict chats ->
                  fst answer
                  = Sent (Models.mk_UserResponse user_id name email (Some chats))).
Proof.
  apply (me_answers_from_the_callers_record isoparse strict sample_now
           (Some "Bearer tok-live") live_world).
  - exact lawful_strict.
  - repeat constructor; cbn; intuition.
Defined.

Example me_run :
  get_current_user_info isoparse strict sample_now (Some "Bearer tok-live") live_world
  = (Sent (Models.mk_UserResponse "dXNlci1hbGljZQ" "alice" "alice@x.com" (Some [])),
     live_world).
Proof. vm_compute. reflexivity. Qed.

Lemma calls_touch_only_their_user_witness :
  dget "bob" (users (perform isoparse (DeleteChat "alice" "Y2hhdC0x") shared_world))
  = dget "bob" (users shared_world)
  /\ dget "alice" (users (perform isoparse (DeleteChat "alice" "Y2hhdC0x") shared_world))
     <> dget "alice" (users shared_world).
Proof.
  split.
  - apply (calls_touch_only_their_user isoparse (DeleteChat "alice" "Y2hhdC0x")
             "alice" "bob" shared_world); [reflexivity | discriminate].
  - vm_compute. discriminate.
Defined.

Lemma delete_chat_is_scoped_to_caller_witness :
  let answer :=
    delete_chat isoparse strict sample_now (Some "Bearer tok-live") "Ym9iLWNoYXQ"
      shared_world in
  (forall other, other <> "alice" ->
                 dget other (users (snd answer)) = dget other (users shared_world))
  /\ (forall chats,
        get_user_chats "alice" shared_world = VDict chats ->
        dget "Ym9iLWNoYXQ" chats = None ->
        answer = (Thrown (Http (HTTPException 404 (Text "Chat not found"))),
                  shared_world))
  /\ (forall r chats chat,
        dget "alice" (users shared_world) = Some r ->
        dget "chats" r = Some (VDict chats) ->
        dget "Ym9iLWNoYXQ" chats = Some chat ->
        writable shared_world = true ->
        fst answer = Sent (VDict [ ("success", VBool true);
                                   ("message", VStr "Chat deleted successfully") ])
        /\ get_user_chats "alice" (snd answer)
           = VDict (dpop "Ym9iLWNoYXQ" chats)).
Proof.
  apply (delete_chat_is_scoped_to_caller isoparse strict sample_now
           (Some "Bearer tok-live") "Ym9iLWNoYXQ" shared_world shared_world
           (Models.mk_SessionUser "alice" "dXNlci1hbGljZQ" None)).
  vm_compute. reflexivity.
Defined.

Example delete_chat_of_another_user :
  delete_chat isoparse strict sample_now (Some "Bearer tok-live") "Ym9iLWNoYXQ" shared_world
  = (Thrown (Http (HTTPException 404 (Text "Chat not found"))), shared_world).
Proof. vm_compute. reflexivity. Qed.

Lemma session_user_has_no_thread_witness :
  let w :=
    perform_all isoparse
      [ CreateSession sample_salt2 sample_now "alice";
        CreateChat sample_salt1 sample_now "alice" "My Chat";
        UpdateChatThread "alice" "AAECAwQFBgcICQoLDA0ODw" "thread_abc" ]
      (alice_world true) in
  no_user_thread (users w)
  /\ forall V now authorization user w',
       get_current_user isoparse V now authorization w = (Sent user, w') ->
       Models.su_thread_id user = None.
Proof.
  apply (session_user_has_no_thread isoparse _ (alice_world true)).
  intros name r [[= <- <-]|[]]. reflexivity.
Defined.
